(** * 3d_printed_microscope: stage motion, visual servo, calibration, GUI
      and data file

    A shallow embedding of [microscope/arduino_stage.py], of the servo and
    calibration routines and the GUI methods of [microscope/microscope_3d.py]
    and of [microscope/data_file.py] (Python 2, numpy).

    Conventions of the embedding.
    - numpy integer vectors of shape (3,) are triples of [Z]; the components
      are taken in the range where the machine arithmetic of numpy is exact.
    - Python floats are rationals ([Q]) with an explicit rounding operator
      [rnd] applied after every arithmetic operation, and a rounded square
      root [fsqrt]; both are parameters of the development.
    - Every method is a computation in a state-and-exception monad over the
      object it mutates; an uncaught Python exception ends the computation
      with [Raised].
    - The serial port is a record of what was written to it together with
      the answers of the Arduino; the commands handed to [_query] are kept
      in a history list.
    - [abstract_camera.Camera] and [numpy.linalg.lstsq] are not part of the
      embedded sources; they are parameters.
    - An hdf5 file is a finite map of groups, a group a finite map of
      datasets; the files live in a store keyed by file name.
    - The GUI is the record of the fields its methods use; what the user and
      the Locator do during a pass of its loop is an input of that pass. *)

From Stdlib Require Import ZArith QArith Qround Lqa String Ascii List Bool Lia DecimalString.
From Stdlib Require Import DecimalNat.
From stdpp Require Import base option gmap.
Import ListNotations.
Local Open Scope string_scope.
Local Open Scope list_scope.
Local Open Scope Z_scope.

(** ** Exceptions and the state-and-exception monad *)

Inductive Exn : Type :=
| AssertionError (msg : string)
| RuntimeError
| NameError (name : string).

(** [Stuck] and [OutOfFuel] are not Python behaviours: the first marks a
    reference to no object of the store, the second a loop given too little
    fuel. Neither is reachable from a live object with the fuel the
    embedding supplies (see [centre_on_template_run]). *)
Inductive Outcome (A : Type) : Type :=
| Returned (a : A)
| Raised (e : Exn)
| Stuck
| OutOfFuel.
Arguments Returned {A} a.
Arguments Raised {A} e.
Arguments Stuck {A}.
Arguments OutOfFuel {A}.

Definition M (S A : Type) : Type := S -> Outcome A * S.

Definition ret {S A} (a : A) : M S A := fun s => (Returned a, s).

Definition bind {S A B} (c : M S A) (k : A -> M S B) : M S B :=
  fun s =>
    match c s with
    | (Returned a, s') => k a s'
    | (Raised e, s') => (Raised e, s')
    | (Stuck, s') => (Stuck, s')
    | (OutOfFuel, s') => (OutOfFuel, s')
    end.

Definition raise {S A} (e : Exn) : M S A := fun s => (Raised e, s).
Definition get {S} : M S S := fun s => (Returned s, s).
Definition put {S} (s : S) : M S unit := fun _ => (Returned tt, s).
Definition modify {S} (f : S -> S) : M S unit := fun s => (Returned tt, f s).

(** Python's [assert]. *)
Definition assert {S} (b : bool) (msg : string) : M S unit :=
  if b then ret tt else raise (AssertionError msg).

Declare Scope py_scope.
Delimit Scope py_scope with py.
Notation "x <- c ;; k" := (bind c (fun x => k))
  (at level 100, c at next level, right associativity) : py_scope.
Notation "c ;;; k" := (bind c (fun _ => k))
  (at level 100, right associativity) : py_scope.
Local Open Scope py_scope.

(** Run a computation on a component of a larger state. *)
Definition zoom {S T A} (proj : S -> T) (upd : T -> S -> S) (c : M T A) : M S A :=
  fun s => let '(o, t) := c (proj s) in (o, upd t s).

(** ** Strings: the [%d] conversion and the removal of CR LF by [str.replace] *)

Definition LF : string := String "010" EmptyString.

Definition fmt_d (z : Z) : string := NilZero.string_of_int (Z.to_int z).

Definition fmt_ddd (name : string) (v : Z * Z * Z) : string :=
  let '(a, b, c) := v in
  (name ++ " " ++ fmt_d a ++ " " ++ fmt_d b ++ " " ++ fmt_d c ++ LF)%string.

Fixpoint strip_crlf (s : string) : string :=
  match s with
  | String "013" (String "010" rest) => strip_crlf rest
  | String c rest => String c (strip_crlf rest)
  | EmptyString => EmptyString
  end.

(** ** [arduino_stage.Stage] *)

Definition Vec3 : Type := (Z * Z * Z)%type.

(** [np.array(vector)] followed by [assert r.shape == (3, )]. *)
Definition as_vec3 (vector : list Z) : option Vec3 :=
  match vector with
  | [x; y; z] => Some (x, y, z)
  | _ => None
  end.

Definition vec_add (a b : Vec3) : Vec3 :=
  let '(a0, a1, a2) := a in let '(b0, b1, b2) := b in (a0 + b0, a1 + b1, a2 + b2).
Definition vec_sub (a b : Vec3) : Vec3 :=
  let '(a0, a1, a2) := a in let '(b0, b1, b2) := b in (a0 - b0, a1 - b1, a2 - b2).
Definition vec_scale (k : Z) (a : Vec3) : Vec3 :=
  let '(a0, a1, a2) := a in (k * a0, k * a1, k * a2).
Definition vec_abs (a : Vec3) : Vec3 :=
  let '(a0, a1, a2) := a in (Z.abs a0, Z.abs a1, Z.abs a2).
(** [np.all(np.less_equal(a, b))]. *)
Definition vec_all_le (a b : Vec3) : bool :=
  let '(a0, a1, a2) := a in let '(b0, b1, b2) := b in
  (a0 <=? b0) && (a1 <=? b1) && (a2 <=? b2).
Definition vec_list (a : Vec3) : list Z :=
  let '(a0, a1, a2) := a in [a0; a1; a2].

Module Stage.

Definition _XYZ_BOUND : Vec3 := (5000, 5000, 5000).
Definition _MICROSTEPS : Z := 16.

Record t : Type := mk {
  _emulate : bool;
  _pos : Vec3;
  (** what [self._ser.write] has received, oldest first *)
  ser_written : list string;
  (** the line the Arduino answers to the n-th write *)
  ser_reply : nat -> string;
  (** history: every command handed to [_query], oldest first *)
  queried : list string
}.

Definition set_pos (p : Vec3) (s : t) : t :=
  mk (_emulate s) p (ser_written s) (ser_reply s) (queried s).

Definition _motor_coord (x y z : Z) : Z * Z * Z := (- z, - x, - y).

Definition _query (command : string) : M t string :=
  fun s =>
    if negb (_emulate s) then
      let reply := ser_reply s (length (ser_written s)) in
      (Returned (strip_crlf reply),
       mk (_emulate s) (_pos s) (ser_written s ++ [command]) (ser_reply s)
          (queried s ++ [command]))
    else
      (Returned (strip_crlf "emulated"),
       mk (_emulate s) (_pos s) (ser_written s) (ser_reply s)
          (queried s ++ [command])).

(** The [return ret] of [release], [move_rel] and [fast_move] is commented
    out in the source: the three methods return [None]. *)
Definition release : M t (option string) :=
  _ret <- _query ("release" ++ LF)%string ;;
  ret None.

Definition move_rel (vector : list Z) (release_ : bool) (override : bool)
  : M t (option string) :=
  match as_vec3 vector with
  | None => raise (AssertionError "move_rel must have a 3 component vector.")
  | Some r =>
      s <- get ;;
      let new_pos := vec_add (_pos s) r in
      if vec_all_le (vec_abs new_pos) _XYZ_BOUND || override then
        let '(r0, r1, r2) := r in
        _ret <- _query (fmt_ddd "move_rel" (_motor_coord r0 r1 r2)) ;;
        modify (set_pos new_pos) ;;;
        (if release_ then (release ;;; ret tt) else ret tt) ;;;
        ret None
      else
        let _ret := "bounds_error" in
        ret None
  end.

(** Python 2: [/] on numpy integers is floor division ([Z.div]). *)
Definition fast_move (vector : list Z) (release_ : bool) (override : bool)
  : M t (option string) :=
  match as_vec3 vector with
  | None => raise (AssertionError "fast_move must have a 3 component vector.")
  | Some r =>
      s <- get ;;
      let new_pos := vec_add (_pos s) r in
      if vec_all_le (vec_abs new_pos) _XYZ_BOUND || override then
        let '(r0, r1, r2) := r in
        let '(step_x, step_y, step_z) :=
          (r0 / _MICROSTEPS, r1 / _MICROSTEPS, r2 / _MICROSTEPS) in
        _ret <- _query (fmt_ddd "fast_move" (_motor_coord step_x step_y step_z)) ;;
        modify (set_pos new_pos) ;;;
        (if release_ then (release ;;; ret tt) else ret tt) ;;;
        ret None
      else
        let _ret := "bounds_error" in
        ret None
  end.

Definition move_to_pos (vector : list Z) (release_ : bool) (override : bool)
  : M t (option string) :=
  match as_vec3 vector with
  | None => raise (AssertionError "move_to_pos must have a 3 component vector.")
  | Some r =>
      s <- get ;;
      let rel_mov := vec_sub r (_pos s) in
      move_rel (vec_list rel_mov) release_ override
  end.

Definition focus_rel (z : Z) (release_ : bool) : M t unit :=
  move_rel [0; 0; z] release_ false ;;; ret tt.

Definition centre_stage : M t unit :=
  s <- get ;;
  let new_pos := vec_scale (-1) (_pos s) in
  move_rel (vec_list new_pos) true false ;;; ret tt.

Definition _reset_pos : M t unit := modify (set_pos (0, 0, 0)).

(** For the statements below: the stage after [commands] went through
    [_query], and the remap that undoes [_motor_coord] (neither is in the
    source). *)
Definition sent (commands : list string) (s : t) : t :=
  mk (_emulate s) (_pos s)
     (if _emulate s then ser_written s else ser_written s ++ commands)
     (ser_reply s) (queried s ++ commands).

Definition _motor_coord_inv (a b c : Z) : Z * Z * Z := (- b, - c, - a).

(** Where [move_to_pos(target)] without override leaves a stage tracked
    at [p] (for the statements below). *)
Definition lands (p target : Vec3) : Vec3 :=
  if vec_all_le (vec_abs target) _XYZ_BOUND then target else p.

(** [__init__]. [port] is the outcome of [serial.Serial(tty)]: [None] when
    the device is not found ([SerialException], the stage is emulated),
    otherwise the start-up line of the Arduino and its later answers. The
    result is the new object together with [self.ver]. *)
Definition __init__ (port : option (string * (nat -> string))) : t * string :=
  let _emulate0 := false in
  let _pos0 := (0, 0, 0) in
  match port with
  | Some (startup, replies) => (mk _emulate0 _pos0 [] replies [], strip_crlf startup)
  | None => (mk true _pos0 [] (fun _ => EmptyString) [], "Emulated Stage")
  end.

End Stage.


(** ** Python floats *)

Section FloatArith.
Variable rnd : Q -> Q.
Variable fsqrt : Q -> Q.

Definition flit (q : Q) : Q := rnd q.
Definition fadd (a b : Q) : Q := rnd (a + b).
Definition fsub (a b : Q) : Q := rnd (a - b).
Definition fmul (a b : Q) : Q := rnd (a * b).
Definition fdiv (a b : Q) : Q := rnd (a / b).
Definition fneg (a : Q) : Q := (- a)%Q.
Definition fle (a b : Q) : bool := Qle_bool a b.
Definition fge (a b : Q) : bool := Qle_bool b a.
Definition fgt (a b : Q) : bool := negb (Qle_bool a b).
(** [np.power(x, 2.0)] and [np.power(x, 0.5)]. *)
Definition fpow2 (a : Q) : Q := rnd (a * a).
Definition fpow_half (a : Q) : Q := fsqrt a.
(** [np.trunc(x).astype(int)]: rounds toward zero. *)
Definition ftrunc (a : Q) : Z := Z.quot (Qnum a) (Zpos (Qden a)).
(** [np.sum] and [np.mean] along one axis. *)
Definition fsum (l : list Q) : Q :=
  match l with
  | [] => 0%Q
  | x :: xs => fold_left fadd xs x
  end.
Definition fmean (l : list Q) : Q := fdiv (fsum l) (inject_Z (Z.of_nat (length l))).
End FloatArith.

(** ** [microscope_3d.Microscope] *)

Definition Vec2 : Type := (Q * Q)%type.

Inductive FindResult : Type :=
| Found (position : Vec2)
| WindowOutOfBounds.

Section Microscope.
Variable rnd : Q -> Q.
Variable fsqrt : Q -> Q.
(** Frames and templates are opaque. *)
Variable Image : Type.
(** [img[w / 4:3 * w / 4, h / 4:3 * h / 4]] *)
Variable central_half : Image -> Image.
(** [numpy.linalg.lstsq(a, b)[0]] *)
Variable Matrix : Type.
Variable lstsq : list Vec2 -> list (Z * Z) -> Matrix.

Local Abbreviation flit := (flit rnd).
Local Abbreviation fadd := (fadd rnd).
Local Abbreviation fsub := (fsub rnd).
Local Abbreviation fmul := (fmul rnd).
Local Abbreviation fdiv := (fdiv rnd).
Local Abbreviation fpow2 := (fpow2 rnd).
Local Abbreviation fpow_half := (fpow_half fsqrt).
Local Abbreviation fmean := (fmean rnd).

(** Modelled from the spec: [abstract_camera.Camera] is not among the
    embedded sources. The Template Locator is a black box: asked for a
    template in the latest frame it returns a (sub-pixel) position or fails
    because the search window would leave the frame ([RuntimeError]).
    [shots] counts the frames taken so far; [get_frame_at n] is the n-th
    frame and [locate t n] the Locator's answer for template [t] in it. *)
Record Camera : Type := mkCamera {
  _resolution : Z * Z;
  shots : nat;
  get_frame_at : nat -> Image;
  locate : Image -> nat -> FindResult
}.

Definition next_shot (c : Camera) : Camera :=
  mkCamera (_resolution c) (S (shots c)) (get_frame_at c) (locate c).

Definition get_frame : M Camera Image :=
  fun c => (Returned (get_frame_at c (shots c)), next_shot c).

(** [find_template(template, boxD=-1, decimal=True)] *)
Definition find_template (template : Image) : M Camera Vec2 :=
  fun c =>
    match locate c template (shots c) with
    | Found p => (Returned p, next_shot c)
    | WindowOutOfBounds => (Raised RuntimeError, next_shot c)
    end.

Record Microscope : Type := mkMicroscope {
  camera : Camera;
  stage : Stage.t
}.

Definition on_camera {A} (c : M Camera A) : M Microscope A :=
  zoom camera (fun c' m => mkMicroscope c' (stage m)) c.
Definition on_stage {A} (c : M Stage.t A) : M Microscope A :=
  zoom stage (fun s' m => mkMicroscope (camera m) s') c.

Definition _UM_PER_PIXEL : Q := flit (4846 # 10000).
Definition _CAMERA_TO_STAGE_MATRIX : (Q * Q) * (Q * Q) :=
  ((flit (52 # 10), flit (70 # 10)), (flit (63 # 10), flit (- (56 # 10)))).

(** [-(template_pos[i] - (extent / 2.0))] *)
Definition centre_offset (extent : Z) (coord : Q) : Q :=
  fneg (fsub coord (fdiv (inject_Z extent) 2)).

(** The offset of a position from the centre of a frame of size [res]
    (for the statements below). *)
Definition centre_offsets (res : Z * Z) (pos : Vec2) : Vec2 :=
  (centre_offset (fst res) (fst pos), centre_offset (snd res) (snd pos)).

(** The frame sizes are small enough for [extent / 2.0] to be exact; the
    Locator finds [template] inside the frame at every shot (both for the
    statements below). *)
Definition resolution_is_float (c : Camera) : Prop :=
  fst (_resolution c) <= 2 ^ 53 /\ snd (_resolution c) <= 2 ^ 53.

Definition locator_in_frame (c : Camera) (template : Image) : Prop :=
  forall n : nat,
    exists x y : Q,
      locate c template n = Found (x, y) /\
      (0 <= x <= inject_Z (fst (_resolution c)))%Q /\
      (0 <= y <= inject_Z (snd (_resolution c)))%Q.

Definition _camera_centre_move (template : Image) : M Microscope (Vec2 * Vec2) :=
  m <- get ;;
  let '(width, height) := _resolution (camera m) in
  template_pos <- on_camera (find_template template) ;;
  let camera_move :=
    (centre_offset width (fst template_pos), centre_offset height (snd template_pos)) in
  assert (fge (fst camera_move) (fneg (fdiv (inject_Z width) 2))
          && fle (fst camera_move) (fdiv (inject_Z width) 2)) EmptyString ;;;
  assert (fge (snd camera_move) (fneg (fdiv (inject_Z height) 2))
          && fle (snd camera_move) (fdiv (inject_Z height) 2)) EmptyString ;;;
  ret (camera_move, template_pos).

Definition _camera_move_distance (camera_move : Vec2) : Q :=
  fmul (fpow_half (fadd (fpow2 (fst camera_move)) (fpow2 (snd camera_move))))
       _UM_PER_PIXEL.

(** [np.dot(camera_move, M)] for a 2-vector and a 2x2 matrix. *)
Definition dot2 (v : Vec2) (mat : (Q * Q) * (Q * Q)) : Vec2 :=
  let '((m00, m01), (m10, m11)) := mat in
  (fadd (fmul (fst v) m00) (fmul (snd v) m10),
   fadd (fmul (fst v) m01) (fmul (snd v) m11)).

(** The local variables of [centre_on_template]. *)
Record ServoLocals : Type := mkLocals {
  iteration : Z;
  stage_move : Vec3;
  stage_moves : list Vec3;
  camera_move : Vec2;
  camera_positions : list Vec2
}.

(** The [while] loop of [centre_on_template]. *)
Fixpoint servo_loop (fuel : nat) (template : Image) (tolerance : Q)
         (max_iterations : Z) (l : ServoLocals) : M Microscope ServoLocals :=
  match fuel with
  | O => fun m => (OutOfFuel, m)
  | S fuel' =>
      if fgt (_camera_move_distance (camera_move l)) tolerance
         && (iteration l <? max_iterations) then
        let iteration' := iteration l + 1 in
        let sm := dot2 (camera_move l) _CAMERA_TO_STAGE_MATRIX in
        let stage_move' := (ftrunc (fst sm), ftrunc (snd sm), ftrunc 0) in
        on_stage (Stage.move_rel (vec_list stage_move') false false) ;;;
        let stage_moves' := stage_moves l ++ [stage_move'] in
        mv <- _camera_centre_move template ;;
        let '(camera_move', position) := mv in
        let camera_positions' := camera_positions l ++ [position] in
        servo_loop fuel' template tolerance max_iterations
          (mkLocals iteration' stage_move' stage_moves' camera_move' camera_positions')
      else ret l
  end.

(** The object store: Python references are addresses; [global_m] is the
    binding of the module-level name [m], made only when the file runs as
    a script. *)
Record World : Type := mkWorld {
  heap : gmap nat Microscope;
  global_m : option nat
}.

Definition at_obj {A} (a : nat) (c : M Microscope A) : M World A :=
  fun w =>
    match heap w !! a with
    | Some m => let '(o, m') := c m in (o, mkWorld (<[a := m']> (heap w)) (global_m w))
    | None => (Stuck, w)
    end.

Definition centre_on_template (self : nat) (template : Image) (tolerance : Q)
           (max_iterations : Z) (release_ : bool)
  : M World (Z * list Vec2 * list Vec3) :=
  l <- at_obj self
         (mv <- _camera_centre_move template ;;
          let '(camera_move0, position) := mv in
          servo_loop (S (Z.to_nat max_iterations)) template tolerance max_iterations
            (mkLocals 0 (0, 0, 0) [] camera_move0 [position])) ;;
  (if release_ then
     w <- get ;;
     match global_m w with
     | None => raise (NameError "m")
     | Some m => at_obj m (on_stage Stage.release) ;;; ret tt
     end
   else ret tt) ;;;
  let iteration' :=
    if iteration l =? max_iterations then iteration l * -1 else iteration l in
  ret (iteration', camera_positions l, stage_moves l).

(** *** [calibrate] *)

Definition vec2_sub (a b : Vec2) : Vec2 := (fsub (fst a) (fst b), fsub (snd a) (snd b)).
(** [v[0:2]] *)
Definition xy (v : Vec3) : Z * Z := let '(x, y, _) := v in (x, y).
Definition xy_sub (a b : Z * Z) : Z * Z := (fst a - fst b, snd a - snd b).
(** [np.mean(rows, axis=0)] and the in-place [rows -= v]. *)
Definition mean_axis0 (rows : list Vec2) : Vec2 :=
  (fmean (map fst rows), fmean (map snd rows)).
Definition sub_rows (rows : list Vec2) (v : Vec2) : list Vec2 :=
  map (fun r => vec2_sub r v) rows.

(** The template [calibrate] works with and the shot of its first
    Locator query: a given template is used as it is; otherwise one frame
    is taken and its central half is the template (for the statements
    below). *)
Definition calibration_template (c : Camera) (template : option Image) : Image :=
  match template with
  | Some t => t
  | None => central_half (get_frame_at c (shots c))
  end.

Definition calibration_first_shot (c : Camera) (template : option Image) : nat :=
  match template with
  | Some _ => shots c
  | None => S (shots c)
  end.

(** The tracked position after the backlash move and the move to the
    waypoint (a, b, 0), and the four stage displacements [calibrate]
    records for a square of half-width [D] around the origin (for the
    statements below). *)
Definition waypoint (p : Vec3) (a b : Z) : Vec3 :=
  Stage.lands (Stage.lands p (a + -32, b + -16, 0)) (a, b, 0).

Definition tracked_square (D : Z) : list (Z * Z) :=
  let q1 := waypoint (0, 0, 0) D D in
  let q2 := waypoint q1 D (- D) in
  let q3 := waypoint q2 (- D) (- D) in
  let q4 := waypoint q3 (- D) D in
  [xy q1; xy q2; xy q3; xy q4].

(** The [for p in pos] loop of [calibrate]. *)
Fixpoint calibrate_visit (pos : list Vec3) (template : Image) (init_cam_pos : Vec2)
         (init_stage_vector : Vec3) (init_stage_pos : Z * Z)
         (camera_displacement : list Vec2) (stage_displacement : list (Z * Z))
  : M Microscope (list Vec2 * list (Z * Z)) :=
  match pos with
  | [] => ret (camera_displacement, stage_displacement)
  | p :: rest =>
      on_stage (Stage.move_to_pos
                  (vec_list (vec_add (vec_add init_stage_vector p) (-32, -16, 0)))
                  false false) ;;;
      on_stage (Stage.move_to_pos (vec_list (vec_add init_stage_vector p)) false false) ;;;
      cam_pos <- on_camera (find_template template) ;;
      let cam_pos := vec2_sub cam_pos init_cam_pos in
      m <- get ;;
      let stage_pos := xy_sub (xy (Stage._pos (stage m))) init_stage_pos in
      calibrate_visit rest template init_cam_pos init_stage_vector init_stage_pos
        (camera_displacement ++ [cam_pos]) (stage_displacement ++ [stage_pos])
  end.

(** [self.camera._preview()] and the [print] statements touch nothing that
    is modelled and are left out. *)
Definition calibrate (template : option Image) (D : Z) : M Microscope Matrix :=
  let pos := [(D, D, 0); (D, - D, 0); (- D, - D, 0); (- D, D, 0)] in
  on_stage (Stage.move_to_pos [16; 16; 0] false false) ;;;
  on_stage (Stage.move_to_pos [0; 0; 0] false false) ;;;
  template <- match template with
              | Some t => ret t
              | None => frame <- on_camera get_frame ;; ret (central_half frame)
              end ;;
  init_cam_pos <- on_camera (find_template template) ;;
  m <- get ;;
  let init_stage_vector := Stage._pos (stage m) in
  let init_stage_pos := xy init_stage_vector in
  samples <- calibrate_visit pos template init_cam_pos init_stage_vector init_stage_pos
               [] [] ;;
  let '(camera_displacement, stage_displacement) := samples in
  on_stage Stage.centre_stage ;;;
  on_stage Stage.release ;;;
  let camera_displacement := sub_rows camera_displacement (mean_axis0 camera_displacement) in
  ret (lstsq camera_displacement stage_displacement).

End Microscope.

Arguments next_shot {Image}.
Arguments locator_in_frame {Image}.
Arguments resolution_is_float {Image}.
Arguments get_frame {Image}.
Arguments find_template {Image}.
Arguments on_camera {Image A}.
Arguments on_stage {Image A}.
Arguments at_obj {Image A}.
Arguments _camera_centre_move rnd {Image}.
Arguments servo_loop rnd fsqrt {Image}.
Arguments centre_on_template rnd fsqrt {Image}.
Arguments calibrate_visit rnd {Image}.
Arguments calibration_template {Image}.
Arguments calibration_first_shot {Image}.
Arguments calibrate rnd {Image} central_half {Matrix}.
Arguments mkCamera {Image}.
Arguments mkMicroscope {Image}.
Arguments mkWorld {Image}.
Arguments _resolution {Image}.
Arguments shots {Image}.
Arguments get_frame_at {Image}.
Arguments locate {Image}.
Arguments camera {Image}.
Arguments stage {Image}.
Arguments heap {Image}.
Arguments global_m {Image}.

(** ** Instances of the float parameters

    [exact_rnd] and [sqrt_micro] run the embedding on concrete inputs: no
    rounding error, and a square root rounded down to a multiple of 10^-6
    (exact on the squares of such multiples). [fixed_rnd] is a rounding that
    does round: to the nearest multiple of 2^-10, ties upward. *)

Definition exact_rnd (q : Q) : Q := Qred q.

Definition sqrt_micro (q : Q) : Q :=
  Qred (Z.sqrt (Qfloor (q * 1000000000000)) # 1000000).

Definition fixed_rnd (q : Q) : Q := (inject_Z (Qfloor (q * 1024 + (1 # 2))) / 1024)%Q.

(** ** Concrete stages, cameras and worlds *)

Definition arduino_ok : nat -> string :=
  fun _ => ("done" ++ String "013" LF)%string.

Definition stage_at (emulate : bool) (p : Vec3) : Stage.t :=
  Stage.mk emulate p [] arduino_ok [].

Definition vga : Z * Z := (640, 480).
(** The pixel position (x, y). *)
Definition px (x y : Z) : Vec2 := (inject_Z x, inject_Z y).

(** A 640x480 camera whose Locator answers from a list of positions (the
    last one repeated, the frame centre when the list is empty). *)
Definition scripted_camera (script : list Vec2) : Camera unit :=
  mkCamera vga 0%nat (fun _ => tt)
    (fun _ n => Found (nth n script (List.last script (px 320 240)))).

Definition scripted_microscope (script : list Vec2) : Microscope unit :=
  mkMicroscope (scripted_camera script) (stage_at true (0, 0, 0)).

(** The module was imported: the name [m] is unbound. *)
Definition imported_world (mic : Microscope unit) : World unit :=
  mkWorld {[ 0%nat := mic ]} None.

(** The file ran as a script and [m] is the microscope at address 0; a
    second microscope lives at address 1. *)
Definition script_world (m other : Microscope unit) : World unit :=
  mkWorld {[ 0%nat := m; 1%nat := other ]} (Some 0%nat).

(** ** A client of the stage

    The calls a client can make on a [Stage], and a session of such calls.
    An exception ends the call that raised it, not the session: the object
    stays as the call left it. *)

Inductive StageCall : Type :=
| CallMoveRel (vector : list Z) (release_ override : bool)
| CallFastMove (vector : list Z) (release_ override : bool)
| CallMoveToPos (vector : list Z) (release_ override : bool)
| CallFocusRel (z : Z) (release_ : bool)
| CallCentreStage
| CallRelease
| CallResetPos.

Definition stage_call (c : StageCall) : M Stage.t unit :=
  match c with
  | CallMoveRel v r o => Stage.move_rel v r o ;;; ret tt
  | CallFastMove v r o => Stage.fast_move v r o ;;; ret tt
  | CallMoveToPos v r o => Stage.move_to_pos v r o ;;; ret tt
  | CallFocusRel z r => Stage.focus_rel z r
  | CallCentreStage => Stage.centre_stage
  | CallRelease => Stage.release ;;; ret tt
  | CallResetPos => Stage._reset_pos
  end.

Fixpoint stage_session (calls : list StageCall) (s : Stage.t) : Stage.t :=
  match calls with
  | [] => s
  | c :: rest => stage_session rest (snd (stage_call c s))
  end.

Definition uses_override (c : StageCall) : bool :=
  match c with
  | CallMoveRel _ _ o | CallFastMove _ _ o | CallMoveToPos _ _ o => o
  | _ => false
  end.

Definition in_bounds (p : Vec3) : Prop :=
  let '(x, y, z) := p in Z.abs x <= 5000 /\ Z.abs y <= 5000 /\ Z.abs z <= 5000.

(** The three lines of the serial protocol. *)
Definition is_command_line (line : string) : Prop :=
  line = ("release" ++ LF)%string \/
  exists a b c : Z,
    line = fmt_ddd "move_rel" (a, b, c) \/ line = fmt_ddd "fast_move" (a, b, c).

Fixpoint has_cr (s : string) : bool :=
  match s with
  | String "013" _ => true
  | String _ rest => has_cr rest
  | EmptyString => false
  end.

Definition CRLF : string := String "013" LF.

(** What a call leaves behind: some protocol lines sent, a position that
    is within bounds if it was and no override was used (for the proofs
    below). *)
Definition call_shape (override : bool) (s s' : Stage.t) : Prop :=
  exists (l : list string) (p' : Vec3),
    s' = Stage.set_pos p' (Stage.sent l s) /\
    Forall is_command_line l /\
    (override = false -> in_bounds (Stage._pos s) -> in_bounds p').

(** ** A log of moves replayed (for the statements below)

    [accepts p v] is the bounds test [move_rel] makes at position [p];
    [track] and [track_lines] give the position tracked and the lines sent
    after the moves of a log were requested in turn, without override and
    holding the motors: a refused move changes nothing and sends nothing.
    [advance n c] is the camera [c] after [n] more shots. *)
Definition accepts (p v : Vec3) : bool :=
  vec_all_le (vec_abs (vec_add p v)) Stage._XYZ_BOUND.

Definition move_line (v : Vec3) : string :=
  let '(x, y, z) := v in fmt_ddd "move_rel" (Stage._motor_coord x y z).

Fixpoint track (p : Vec3) (moves : list Vec3) : Vec3 :=
  match moves with
  | [] => p
  | v :: rest => track (if accepts p v then vec_add p v else p) rest
  end.

Fixpoint track_lines (p : Vec3) (moves : list Vec3) : list string :=
  match moves with
  | [] => []
  | v :: rest =>
      if accepts p v then move_line v :: track_lines (vec_add p v) rest
      else track_lines p rest
  end.

Definition advance {Image} (n : nat) (c : Camera Image) : Camera Image :=
  mkCamera (_resolution c) (n + shots c) (get_frame_at c) (locate c).

Definition z_of (p : Vec3) : Z := snd p.

(** A [move_rel] line, and one that leaves the first motor alone. *)
Definition is_move_line (line : string) : Prop :=
  exists a b c : Z, line = fmt_ddd "move_rel" (a, b, c).

Definition is_planar_move_line (line : string) : Prop :=
  exists b c : Z, line = fmt_ddd "move_rel" (0, b, c).

(** What a call that holds the motors leaves behind: [move_rel] lines
    sent, a position within bounds if it was (for the proofs below). *)
Definition held_shape (s s' : Stage.t) : Prop :=
  exists (l : list string) (p' : Vec3),
    s' = Stage.set_pos p' (Stage.sent l s) /\
    Forall is_move_line l /\
    (in_bounds (Stage._pos s) -> in_bounds p').

(** ** [data_file.Datafile]

    An hdf5 file is a finite map from member names to groups, a group a
    finite map from member names to datasets, each with its attributes
    (names are plain member names, without a path separator). The files
    live in a store keyed by file name; an open file and a group object are
    handles into it. The clock is a parameter: [now n] is the n-th reading
    of [datetime.datetime.now().isoformat()]. *)

Fixpoint zeros (k : nat) : string :=
  match k with
  | O => EmptyString
  | S k' => String "0" (zeros k')
  end.

(** ["%0<width>d" % n] for a counter [n >= 0]. *)
Definition fmt_0d (width n : nat) : string :=
  let digits := NilEmpty.string_of_uint (Nat.to_uint n) in
  (zeros (width - String.length digits) ++ digits)%string.

(** Reading a string of decimal digits (for the statements below). *)
Definition digits_value (s : string) : option nat :=
  option_map Nat.of_uint (NilEmpty.uint_of_string s).

(** [n = 0; while base + "%0<width>d" % n in keys: n += 1]. *)
Fixpoint first_free (fuel : nat) (taken : string -> bool) (base : string)
         (width n : nat) : option nat :=
  match fuel with
  | O => None
  | S fuel' =>
      if taken (base ++ fmt_0d width n)%string
      then first_free fuel' taken base width (S n)
      else Some n
  end.

Module Datafile.

Inductive Error : Type :=
| ValueError       (** h5py: the name already exists *)
| AttributeError   (** an attribute of [None] *)
| InvalidHandle.   (** not a Python behaviour: a handle to nothing in the store *)

Inductive Result (A : Type) : Type :=
| Done (a : A)
| Failed (e : Error)
| NoFuel.
Arguments Done {A} a.
Arguments Failed {A} e.
Arguments NoFuel {A}.

Definition _DEFAULT_FILE : string := "microscope_datafile".

Section WithData.
Variable Data : Type.
Variable now : nat -> string.

Record Dataset : Type := mkDataset {
  d_data : Data;
  d_attrs : gmap string string
}.

Record Group : Type := mkGroup {
  g_attrs : gmap string string;
  g_members : gmap string Dataset
}.

Record Store : Type := mkStore {
  files : gmap string (gmap string Group);
  ticks : nat
}.

Record t : Type := mk {
  _date : string;
  _filename : option string;
  _datafile : option string
}.

(** A group object: the file it lives in and its name there. *)
Definition GroupHandle : Type := (string * string)%type.

(** [h5py.File(name, 'a')]: open the file, creating it empty if needed. *)
Definition h5_open (name : string) (st : Store) : Store :=
  match files st !! name with
  | Some _ => st
  | None => mkStore (<[name := ∅]> (files st)) (ticks st)
  end.

Definition member_of {V} (m : gmap string V) (k : string) : bool :=
  match m !! k with
  | Some _ => true
  | None => false
  end.

Definition with_description (description : option string) (attrs : gmap string string)
  : gmap string string :=
  match description with
  | Some d => <["Description" := d]> attrs
  | None => attrs
  end.

(** [today] is [datetime.date.today().strftime('%Y%m%d')]. *)
Definition __init__ (today : string) (filename : option string) (st : Store) : t * Store :=
  match filename with
  | None => (mk today (Some (_DEFAULT_FILE ++ "_" ++ today ++ ".hdf5")%string) None, st)
  | Some f => (mk today None (Some f), h5_open f st)
  end.

Definition new_group (group : string) (description : option string) (self : t) (st : Store)
  : Result GroupHandle * (t * Store) :=
  let opened :=
    match _datafile self with
    | Some f => Done (f, self, st)
    | None =>
        match _filename self with
        | Some f => Done (f, mk (_date self) (_filename self) (Some f), h5_open f st)
        | None => Failed AttributeError
        end
    end in
  match opened with
  | Done (f, self, st) =>
      match files st !! f with
      | None => (Failed InvalidHandle, (self, st))
      | Some file =>
          match first_free (S (size file)) (member_of file) group 3 0 with
          | None => (NoFuel, (self, st))
          | Some n =>
              let grouppath := (group ++ fmt_0d 3 n)%string in
              match file !! grouppath with
              | Some _ => (Failed ValueError, (self, st))
              | None =>
                  let attrs :=
                    with_description description {[ "timestamp" := now (ticks st) ]} in
                  let g := mkGroup attrs ∅ in
                  (Done (f, grouppath),
                   (self, mkStore (<[f := <[grouppath := g]> file]> (files st))
                                  (S (ticks st))))
              end
          end
      end
  | Failed e => (Failed e, (self, st))
  | NoFuel => (NoFuel, (self, st))
  end.

Definition add_data (indata : Data) (group_object : GroupHandle) (dataset : string)
           (description : option string) (self : t) (st : Store)
  : Result unit * (t * Store) :=
  let '(f, grouppath) := group_object in
  match files st !! f with
  | None => (Failed InvalidHandle, (self, st))
  | Some file =>
      match file !! grouppath with
      | None => (Failed InvalidHandle, (self, st))
      | Some g =>
          match first_free (S (size (g_members g))) (member_of (g_members g)) dataset 5 0 with
          | None => (NoFuel, (self, st))
          | Some n =>
              let name := (dataset ++ fmt_0d 5 n)%string in
              match g_members g !! name with
              | Some _ => (Failed ValueError, (self, st))
              | None =>
                  let attrs :=
                    with_description description {[ "timestamp" := now (ticks st) ]} in
                  let g' := mkGroup (g_attrs g) (<[name := mkDataset indata attrs]> (g_members g)) in
                  let st' := mkStore (<[f := <[grouppath := g']> file]> (files st))
                                     (S (ticks st)) in
                  match _datafile self with
                  | Some _ => (Done tt, (self, st'))
                  | None => (Failed AttributeError, (self, st'))
                  end
              end
          end
      end
  end.

End WithData.

Arguments mkDataset {Data}.
Arguments d_data {Data}.
Arguments d_attrs {Data}.
Arguments mkGroup {Data}.
Arguments g_attrs {Data}.
Arguments g_members {Data}.
Arguments mkStore {Data}.
Arguments files {Data}.
Arguments ticks {Data}.
Arguments h5_open {Data}.
Arguments __init__ {Data}.
Arguments new_group {Data}.
Arguments add_data {Data}.

End Datafile.

(** A clock, an empty store and a store with one file that holds the
    groups "scan000" and "scan001" (the first with a dataset "pos00000"). *)
Definition tick_clock (n : nat) : string := ("T" ++ fmt_0d 2 n)%string.

Definition empty_store : Datafile.Store (list Z) := Datafile.mkStore ∅ 0.

Definition two_scans : gmap string (Datafile.Group (list Z)) :=
  {[ "scan000" := Datafile.mkGroup ∅ {[ "pos00000" := Datafile.mkDataset [1; 2] ∅ ]};
     "scan001" := Datafile.mkGroup ∅ ∅ ]}.

Definition scans_store : Datafile.Store (list Z) :=
  Datafile.mkStore {[ "run.hdf5" := two_scans ]} 7.

(** ** The GUI of [microscope_3d.Microscope]

    The fields the GUI methods read and write, the stage, and what the
    OpenCV windows keep: the two trackbar positions. An image is modelled by
    its presence only ([None] or an array): pixels, shapes and the sharing
    of buffers between [_gui_img], [_gui_pause_img] and the template play no
    part here, and the shape of the template is an input of the tracker. The
    Locator's answer to the tracker's query is an input as well. A call into
    OpenCV that only shows or saves an image changes nothing that is
    modelled; where such a call would fail, the real session ends and the
    modelled one goes on. *)

Module Gui.

(** OpenCV's constants. *)
Definition EVENT_MOUSEMOVE : Z := 0.
Definition EVENT_LBUTTONDOWN : Z := 1.
Definition EVENT_LBUTTONUP : Z := 4.
Definition EVENT_FLAG_LBUTTON : Z := 1.

Definition _GUI_W_KEYS : list (Z * string) :=
  [(2490368, "UP"); (2621440, "DOWN"); (2424832, "LEFT"); (2555904, "RIGHT")]%string.
Definition _GUI_L_KEYS : list (string * Z) :=
  [("UP", 82); ("DOWN", 84); ("LEFT", 81); ("RIGHT", 83)]%string.
Definition _GUI_KEY_UP : Z := 82.
Definition _GUI_KEY_DOWN : Z := 84.
Definition _GUI_KEY_LEFT : Z := 81.
Definition _GUI_KEY_RIGHT : Z := 83.
Definition _GUI_KEY_SPACE : Z := 32.
Definition _GUI_KEY_ENTER : Z := 13.
Definition _ARROW_STEP_SIZE : Z := 32.
(** [ord('q')], [ord('s')], [ord('t')], [ord('i')]. *)
Definition ord_q : Z := 113.
Definition ord_s : Z := 115.
Definition ord_t : Z := 116.
Definition ord_i : Z := 105.

(** Dictionary lookup. *)
Fixpoint lookup_key (k : Z) (d : list (Z * string)) : option string :=
  match d with
  | [] => None
  | (k', v) :: rest => if k =? k' then Some v else lookup_key k rest
  end.

Fixpoint lookup_name (name : string) (d : list (string * Z)) : option Z :=
  match d with
  | [] => None
  | (name', v) :: rest => if String.eqb name name' then Some v else lookup_name name rest
  end.

Inductive Error : Type :=
| Py (e : Exn)
| TypeError      (** subscripting [None] *)
| ValueError     (** unpacking a shape that has not two entries *)
| KeyError
| Cv2Error.      (** [cv2.error], from [cv2.cvtColor] *)

Inductive Array : Type := an_array.

Record t : Type := mk {
  (** [self.stage] *)
  stage : Stage.t;
  (** how often [self.camera.get_frame] was called *)
  frames_taken : nat;
  (** the positions of the two trackbars of the 'Controls' window *)
  bar_greyscale : Z;
  bar_tracking : Z;
  _gui_quit : bool;
  _gui_greyscale : bool;
  _gui_img : option Array;
  _gui_pause_img : option Array;
  _gui_drag_start : option (Z * Z);
  _gui_sel : option (Z * Z * Z * Z);
  _gui_tracking : bool;
  _gui_bead_pos : option Vec2;
  _gui_colour : Z * Z * Z;
  template_selection : option Array
}.

Definition set_stage (v : Stage.t) (g : t) : t :=
  mk v (frames_taken g) (bar_greyscale g) (bar_tracking g) (_gui_quit g) (_gui_greyscale g)
     (_gui_img g) (_gui_pause_img g) (_gui_drag_start g) (_gui_sel g) (_gui_tracking g)
     (_gui_bead_pos g) (_gui_colour g) (template_selection g).

Definition set_frames_taken (v : nat) (g : t) : t :=
  mk (stage g) v (bar_greyscale g) (bar_tracking g) (_gui_quit g) (_gui_greyscale g)
     (_gui_img g) (_gui_pause_img g) (_gui_drag_start g) (_gui_sel g) (_gui_tracking g)
     (_gui_bead_pos g) (_gui_colour g) (template_selection g).

Definition set_bar_greyscale (v : Z) (g : t) : t :=
  mk (stage g) (frames_taken g) v (bar_tracking g) (_gui_quit g) (_gui_greyscale g)
     (_gui_img g) (_gui_pause_img g) (_gui_drag_start g) (_gui_sel g) (_gui_tracking g)
     (_gui_bead_pos g) (_gui_colour g) (template_selection g).

Definition set_bar_tracking (v : Z) (g : t) : t :=
  mk (stage g) (frames_taken g) (bar_greyscale g) v (_gui_quit g) (_gui_greyscale g)
     (_gui_img g) (_gui_pause_img g) (_gui_drag_start g) (_gui_sel g) (_gui_tracking g)
     (_gui_bead_pos g) (_gui_colour g) (template_selection g).

Definition set_gui_quit (v : bool) (g : t) : t :=
  mk (stage g) (frames_taken g) (bar_greyscale g) (bar_tracking g) v (_gui_greyscale g)
     (_gui_img g) (_gui_pause_img g) (_gui_drag_start g) (_gui_sel g) (_gui_tracking g)
     (_gui_bead_pos g) (_gui_colour g) (template_selection g).

Definition set_gui_greyscale (v : bool) (g : t) : t :=
  mk (stage g) (frames_taken g) (bar_greyscale g) (bar_tracking g) (_gui_quit g) v (_gui_img
     g) (_gui_pause_img g) (_gui_drag_start g) (_gui_sel g) (_gui_tracking g) (_gui_bead_pos
     g) (_gui_colour g) (template_selection g).

Definition set_gui_img (v : option Array) (g : t) : t :=
  mk (stage g) (frames_taken g) (bar_greyscale g) (bar_tracking g) (_gui_quit g)
     (_gui_greyscale g) v (_gui_pause_img g) (_gui_drag_start g) (_gui_sel g) (_gui_tracking
     g) (_gui_bead_pos g) (_gui_colour g) (template_selection g).

Definition set_gui_pause_img (v : option Array) (g : t) : t :=
  mk (stage g) (frames_taken g) (bar_greyscale g) (bar_tracking g) (_gui_quit g)
     (_gui_greyscale g) (_gui_img g) v (_gui_drag_start g) (_gui_sel g) (_gui_tracking g)
     (_gui_bead_pos g) (_gui_colour g) (template_selection g).

Definition set_gui_drag_start (v : option (Z * Z)) (g : t) : t :=
  mk (stage g) (frames_taken g) (bar_greyscale g) (bar_tracking g) (_gui_quit g)
     (_gui_greyscale g) (_gui_img g) (_gui_pause_img g) v (_gui_sel g) (_gui_tracking g)
     (_gui_bead_pos g) (_gui_colour g) (template_selection g).

Definition set_gui_sel (v : option (Z * Z * Z * Z)) (g : t) : t :=
  mk (stage g) (frames_taken g) (bar_greyscale g) (bar_tracking g) (_gui_quit g)
     (_gui_greyscale g) (_gui_img g) (_gui_pause_img g) (_gui_drag_start g) v (_gui_tracking
     g) (_gui_bead_pos g) (_gui_colour g) (template_selection g).

Definition set_gui_tracking (v : bool) (g : t) : t :=
  mk (stage g) (frames_taken g) (bar_greyscale g) (bar_tracking g) (_gui_quit g)
     (_gui_greyscale g) (_gui_img g) (_gui_pause_img g) (_gui_drag_start g) (_gui_sel g) v
     (_gui_bead_pos g) (_gui_colour g) (template_selection g).

Definition set_gui_bead_pos (v : option Vec2) (g : t) : t :=
  mk (stage g) (frames_taken g) (bar_greyscale g) (bar_tracking g) (_gui_quit g)
     (_gui_greyscale g) (_gui_img g) (_gui_pause_img g) (_gui_drag_start g) (_gui_sel g)
     (_gui_tracking g) v (_gui_colour g) (template_selection g).

Definition set_gui_colour (v : Z * Z * Z) (g : t) : t :=
  mk (stage g) (frames_taken g) (bar_greyscale g) (bar_tracking g) (_gui_quit g)
     (_gui_greyscale g) (_gui_img g) (_gui_pause_img g) (_gui_drag_start g) (_gui_sel g)
     (_gui_tracking g) (_gui_bead_pos g) v (template_selection g).

Definition set_template_selection (v : option Array) (g : t) : t :=
  mk (stage g) (frames_taken g) (bar_greyscale g) (bar_tracking g) (_gui_quit g)
     (_gui_greyscale g) (_gui_img g) (_gui_pause_img g) (_gui_drag_start g) (_gui_sel g)
     (_gui_tracking g) (_gui_bead_pos g) (_gui_colour g) v.

Definition is_set {A} (o : option A) : bool :=
  match o with
  | Some _ => true
  | None => false
  end.

(** [__init__], the GUI variables; the trackbars are made by [_create_gui]. *)
Definition __init__ (stage0 : Stage.t) : t :=
  mk stage0 0 0 0 false true None None None None false None (0, 0, 0) None.

(** The trackbars get their default values (the rest of [_create_gui] makes
    the windows and sets the mouse callback). *)
Definition _create_gui (g : t) : t := set_bar_tracking 0 (set_bar_greyscale 1 g).

Definition _read_gui_trackbars (g : t) : t :=
  let g := set_gui_greyscale (negb (bar_greyscale g =? 0)) g in
  set_gui_tracking
    (negb (bar_tracking g =? 0) && is_set (_gui_sel g) && negb (is_set (_gui_drag_start g))) g.

Definition _stop_gui_tracking (g : t) : t :=
  let g := set_gui_sel None g in
  let g := set_gui_drag_start None g in
  let g := set_template_selection None g in
  let g := set_bar_tracking 0 g in
  let g := set_gui_tracking false g in
  set_gui_bead_pos None g.

(** [(min(start[0], x), min(start[1], y), max(start[0], x), max(start[1], y))] *)
Definition box (start : Z * Z) (x y : Z) : Z * Z * Z * Z :=
  (Z.min (fst start) x, Z.min (snd start) y, Z.max (fst start) x, Z.max (snd start) y).

Section WithFloat.
Variable rnd : Q -> Q.

(** [int((a + b) / 2.0)] *)
Definition middle (a b : Z) : Z := ftrunc (fdiv rnd (inject_Z (a + b)) 2).

(** [cvt_ok] tells whether [cv2.cvtColor] succeeds on the cropped image.
    The three branches of the source are tested in its order; the second
    and third both need a drag in progress. When a step raises, the fields
    assigned before it keep their new values. *)
Definition _on_gui_mouse (event x y flags : Z) (cvt_ok : bool) (g : t) : t * option Error :=
  if (event =? EVENT_LBUTTONDOWN) && negb (is_set (_gui_sel g)) then
    let g := set_gui_pause_img (_gui_img g) g in
    let g := set_gui_drag_start (Some (x, y)) g in
    (set_gui_sel (Some (x, y, x, y)) g, None)
  else
    match _gui_drag_start g with
    | Some start =>
        if event =? EVENT_LBUTTONUP then
          let g := set_gui_sel (Some (box start x y)) g in
          let '(x1, y1, x2, y2) := box start x y in
          match _gui_pause_img g with
          | None => (g, Some TypeError)
          | Some _ =>
              let g := set_template_selection (Some an_array) g in
              if negb (_gui_greyscale g) && negb cvt_ok then (g, Some Cv2Error)
              else
                let g := set_gui_bead_pos
                           (Some (inject_Z (middle x1 x2), inject_Z (middle y1 y2))) g in
                let g := set_gui_pause_img None g in
                (set_gui_drag_start None g, None)
          end
        else if (event =? EVENT_MOUSEMOVE) && (flags =? EVENT_FLAG_LBUTTON) then
          (set_gui_sel (Some (box start x y)) g, None)
        else (g, None)
    | None => (g, None)
    end.

(** [shape] is [self.template_selection.shape]; [found] is the answer of
    [self.camera.find_template] to the query the tracker makes. [w / 2] is
    a division of integers. *)
Definition _update_gui_tracker (shape : list Z) (found : FindResult) (g : t)
  : t * option Error :=
  if negb (is_set (template_selection g) && _gui_tracking g && is_set (_gui_bead_pos g))
  then (g, Some (Py (AssertionError EmptyString)))
  else
    match rev shape with
    | [w; h] =>
        match found with
        | WindowOutOfBounds => (_stop_gui_tracking g, None)
        | Found centre =>
            let g := set_gui_bead_pos (Some centre) g in
            let x1 := ftrunc (fsub rnd (fst centre) (inject_Z (w / 2))) in
            let y1 := ftrunc (fsub rnd (snd centre) (inject_Z (h / 2))) in
            let x2 := ftrunc (fadd rnd (fst centre) (inject_Z (w / 2))) in
            let y2 := ftrunc (fadd rnd (snd centre) (inject_Z (h / 2))) in
            (set_gui_sel (Some (x1, y1, x2, y2)) g, None)
        end
    | _ => (g, Some ValueError)
    end.

(** What reaches the windows while [cv2.waitKey] runs: mouse events, handed
    to [_on_gui_mouse], and moves of the trackbars. OpenCV prints an
    exception raised by a callback and goes on. *)
Inductive WindowEvent : Type :=
| Mouse (event x y flags : Z) (cvt_ok : bool)
| SlideGreyscale (v : Z)
| SlideTracking (v : Z).

Definition window_event (g : t) (e : WindowEvent) : t :=
  match e with
  | Mouse event x y flags cvt_ok => fst (_on_gui_mouse event x y flags cvt_ok g)
  | SlideGreyscale v => set_bar_greyscale v g
  | SlideTracking v => set_bar_tracking v g
  end.

(** [self.stage.move_rel(vector)] with the default [release=True]. *)
Definition arrow (vector : list Z) (g : t) : t * option Error :=
  let '(o, s') := Stage.move_rel vector true false (stage g) in
  match o with
  | Raised e => (set_stage s' g, Some (Py e))
  | _ => (set_stage s' g, None)
  end.

(** The keyboard part of [_update_gui]. *)
Definition on_key (keypress : Z) (g : t) : t * option Error :=
  if negb (keypress =? -1) then
    let converted :=
      match lookup_key keypress _GUI_W_KEYS with
      | Some name => lookup_name name _GUI_L_KEYS
      | None => Some (Z.land keypress 255)
      end in
    match converted with
    | None => (g, Some KeyError)
    | Some keypress =>
        if keypress =? ord_q then (set_gui_quit true g, None)
        else if keypress =? ord_s then (g, None)
        else if keypress =? ord_t then (g, None)
        else if keypress =? _GUI_KEY_SPACE then (_stop_gui_tracking g, None)
        else if keypress =? _GUI_KEY_RIGHT then arrow [_ARROW_STEP_SIZE; 0; 0] g
        else if keypress =? _GUI_KEY_LEFT then arrow [- _ARROW_STEP_SIZE; 0; 0] g
        else if keypress =? _GUI_KEY_UP then arrow [0; _ARROW_STEP_SIZE; 0] g
        else if keypress =? _GUI_KEY_DOWN then arrow [0; - _ARROW_STEP_SIZE; 0] g
        else if keypress =? ord_i then
          (set_gui_colour (if Z.eqb (fst (fst (_gui_colour g))) 0
                              && Z.eqb (snd (fst (_gui_colour g))) 0
                              && Z.eqb (snd (_gui_colour g)) 0
                           then (255, 255, 255) else (0, 0, 0)) g, None)
        else (g, None)
    end
  else (g, None).

(** One pass of the loop of [run_gui] takes these from outside. *)
Record Tick : Type := mkTick {
  shape : list Z;
  found : FindResult;
  events : list WindowEvent;
  keypress : Z
}.

Definition _update_gui (tk : Tick) (g : t) : t * option Error :=
  let g :=
    match _gui_pause_img g with
    | None => set_gui_img (Some an_array) (set_frames_taken (S (frames_taken g)) g)
    | Some _ => set_gui_img (Some an_array) g
    end in
  let '(g, raised) :=
    if _gui_tracking g then _update_gui_tracker (shape tk) (found tk) g else (g, None) in
  match raised with
  | Some e => (g, Some e)
  | None => on_key (keypress tk) (fold_left window_event (events tk) g)
  end.

(** How a run of the GUI over the given passes ends: the loop was left
    because [q] was pressed, an exception came up, or the passes ran out
    with the GUI still open. *)
Inductive Run : Type :=
| Closed (g : t)
| Failed (e : Error) (g : t)
| Open (g : t).

(** [while not self._gui_quit: self._read_gui_trackbars(); self._update_gui()] *)
Fixpoint gui_loop (ticks : list Tick) (g : t) : Run :=
  match ticks with
  | [] => if _gui_quit g then Closed g else Open g
  | tk :: rest =>
      if _gui_quit g then Closed g
      else
        match _update_gui tk (_read_gui_trackbars g) with
        | (g', Some e) => Failed e g'
        | (g', None) => gui_loop rest g'
        end
  end.

Definition run_gui (ticks : list Tick) (g : t) : Run :=
  match gui_loop ticks (_create_gui g) with
  | Closed g =>
      let '(o, s') := Stage.centre_stage (stage g) in
      match o with
      | Raised e => Failed (Py e) (set_stage s' g)
      | _ => Closed (set_gui_quit false (set_stage s' g))
      end
  | r => r
  end.

End WithFloat.

(** For the statements below: the state a run ends in; what the GUI
    methods keep true of the selection (tracking only with a selection and
    no drag in progress, a finished selection only with its template and
    bead position); window events without a press of the left button. *)
Definition final (r : Run) : t :=
  match r with
  | Closed g | Failed _ g | Open g => g
  end.

Definition consistent (g : t) : Prop :=
  (_gui_tracking g = true ->
   is_set (_gui_sel g) = true /\ _gui_drag_start g = None) /\
  (is_set (_gui_sel g) = true -> _gui_drag_start g = None ->
   is_set (template_selection g) = true /\ is_set (_gui_bead_pos g) = true).

Definition no_button_down (e : WindowEvent) : Prop :=
  match e with
  | Mouse event _ _ _ _ => event <> EVENT_LBUTTONDOWN
  | _ => True
  end.

End Gui.

(** ** Concrete GUI states and a session

    A fresh GUI on an emulated stage; the same after a first frame and a
    press of the left button at (3, 30); and after the button was released
    at (-8, 12). The session selects that box and switches tracking on, is
    answered by the Locator once and steps the stage to the right, then
    loses the template and is closed with [q]. *)
Definition gui_fresh : Gui.t := Gui.__init__ (stage_at true (0, 0, 0)).

Definition gui_dragging : Gui.t :=
  fst (Gui._on_gui_mouse exact_rnd Gui.EVENT_LBUTTONDOWN 3 30 Gui.EVENT_FLAG_LBUTTON true
         (Gui.set_gui_img (Some Gui.an_array) gui_fresh)).

Definition gui_selected : Gui.t :=
  fst (Gui._on_gui_mouse exact_rnd Gui.EVENT_LBUTTONUP (-8) 12 0 true gui_dragging).

Definition gui_session : list Gui.Tick :=
  [Gui.mkTick [] WindowOutOfBounds
     [Gui.Mouse Gui.EVENT_LBUTTONDOWN 3 30 Gui.EVENT_FLAG_LBUTTON true;
      Gui.Mouse Gui.EVENT_MOUSEMOVE 0 20 Gui.EVENT_FLAG_LBUTTON true;
      Gui.Mouse Gui.EVENT_LBUTTONUP (-8) 12 0 true;
      Gui.SlideTracking 1] (-1);
   Gui.mkTick [18; 11] (Found (px 20 20)) [] 2555904;
   Gui.mkTick [18; 11] WindowOutOfBounds [] (-1);
   Gui.mkTick [] WindowOutOfBounds [] 113].

(** Passes in which the button is released and the mouse moved, but
    never pressed. *)
Definition gui_idle_session : list Gui.Tick :=
  [Gui.mkTick [] WindowOutOfBounds
     [Gui.Mouse Gui.EVENT_LBUTTONUP 9 9 0 true; Gui.SlideTracking 1] (-1);
   Gui.mkTick [] WindowOutOfBounds [Gui.Mouse Gui.EVENT_MOUSEMOVE 5 5 0 true] 105].

(** * Properties of the stage *)

Ltac run_py :=
  unfold bind, ret, get, put, modify, raise, assert, zoom; cbn beta iota.

Lemma vec_all_le_bound (a b c : Z) :
  vec_all_le (vec_abs (a, b, c)) Stage._XYZ_BOUND = true <->
  Z.abs a <= 5000 /\ Z.abs b <= 5000 /\ Z.abs c <= 5000.
Proof.
  unfold vec_all_le, vec_abs, Stage._XYZ_BOUND.
  rewrite !andb_true_iff, !Z.leb_le. tauto.
Qed.

Lemma query_sent (command : string) (s : Stage.t) :
  snd (Stage._query command s) = Stage.sent [command] s.
Proof.
  unfold Stage._query, Stage.sent. destruct (Stage._emulate s); reflexivity.
Qed.

(** Any accepted [move_rel]: the remapped command goes out, the position
    is replaced, the motors are released on request, [None] is returned. *)
Lemma move_rel_accepted (s : Stage.t) (x y z : Z) (release_ override : bool) :
  vec_all_le (vec_abs (vec_add (Stage._pos s) (x, y, z))) Stage._XYZ_BOUND || override = true ->
  Stage.move_rel [x; y; z] release_ override s =
  (Returned None,
   Stage.sent (if release_ then ["release" ++ LF]%string else [])
     (Stage.set_pos (vec_add (Stage._pos s) (x, y, z))
        (Stage.sent [fmt_ddd "move_rel" (Stage._motor_coord x y z)] s))).
Proof.
  intros Hok. unfold Stage.move_rel, as_vec3. run_py. rewrite Hok.
  unfold Stage.release, Stage._query, Stage.sent, Stage.set_pos. run_py.
  destruct release_, (Stage._emulate s) eqn:E; cbn; rewrite ?E; cbn;
    rewrite ?app_nil_r; reflexivity.
Qed.

Lemma move_rel_rejected (s : Stage.t) (x y z : Z) (release_ : bool) :
  vec_all_le (vec_abs (vec_add (Stage._pos s) (x, y, z))) Stage._XYZ_BOUND = false ->
  Stage.move_rel [x; y; z] release_ false s = (Returned None, s).
Proof.
  intros Hko. unfold Stage.move_rel, as_vec3. run_py. rewrite Hko. reflexivity.
Qed.

Lemma move_rel_total (s : Stage.t) (x y z : Z) (release_ override : bool) :
  exists s', Stage.move_rel [x; y; z] release_ override s = (Returned None, s').
Proof.
  destruct (vec_all_le (vec_abs (vec_add (Stage._pos s) (x, y, z))) Stage._XYZ_BOUND
            || override) eqn:E.
  - rewrite move_rel_accepted by exact E. eexists; reflexivity.
  - unfold Stage.move_rel, as_vec3. run_py. rewrite E. eexists; reflexivity.
Qed.

(** A vector that does not have three components is rejected by the
    shape assertion before anything is sent or changed. *)
Lemma move_rel_malformed (s : Stage.t) (vector : list Z) (release_ override : bool) :
  length vector <> 3%nat ->
  Stage.move_rel vector release_ override s =
  (Raised (AssertionError "move_rel must have a 3 component vector."), s).
Proof.
  intros Hlen. unfold Stage.move_rel, as_vec3.
  destruct vector as [|x [|y [|z [|t rest]]]]; try reflexivity.
  cbn in Hlen. congruence.
Qed.

(** C4. For every 3-component displacement whose target stays within the
    inclusive bound 5000 on each axis, [move_rel] hands the remapped command
    (-z, -x, -y) to the transport, then the release command unless the
    motors are to be held, and the tracked position becomes exactly
    pos + v. *)
Theorem move_rel_within_bounds (s : Stage.t) (p0 p1 p2 x y z : Z)
        (release_ override : bool) :
  Stage._pos s = (p0, p1, p2) ->
  Z.max (Z.max (Z.abs (p0 + x)) (Z.abs (p1 + y))) (Z.abs (p2 + z)) <= 5000 ->
  exists s',
    Stage.move_rel [x; y; z] release_ override s = (Returned None, s') /\
    Stage._pos s' = (p0 + x, p1 + y, p2 + z) /\
    Stage.queried s' =
      Stage.queried s ++ fmt_ddd "move_rel" (- z, - x, - y)
                      :: (if release_ then ["release" ++ LF]%string else []) /\
    Stage.ser_written s' =
      (if Stage._emulate s then Stage.ser_written s
       else Stage.ser_written s ++ fmt_ddd "move_rel" (- z, - x, - y)
                                :: (if release_ then ["release" ++ LF]%string else [])) /\
    Stage._emulate s' = Stage._emulate s.
Proof.
  intros Hpos Hmax. eexists. split.
  - apply move_rel_accepted. rewrite Hpos. cbn [vec_add].
    apply orb_true_iff; left. apply vec_all_le_bound. lia.
  - rewrite Hpos. unfold Stage.sent, Stage.set_pos, Stage._motor_coord; cbn.
    destruct release_, (Stage._emulate s); cbn; rewrite <- ?app_assoc, ?app_nil_r; auto.
Qed.

Lemma move_rel_within_bounds_witness :
  exists s',
    Stage.move_rel [5000; 0; 0] true false (stage_at false (0, 0, 0)) = (Returned None, s') /\
    Stage._pos s' = (5000, 0, 0) /\
    Stage.ser_written s' = [("move_rel 0 -5000 0" ++ LF)%string; ("release" ++ LF)%string].
Proof.
  destruct (move_rel_within_bounds (stage_at false (0, 0, 0)) 0 0 0 5000 0 0 true false)
    as (s' & Hrun & Hpos & _ & Hser & _).
  - reflexivity.
  - vm_compute. discriminate.
  - exists s'. split; [exact Hrun | split; [exact Hpos | exact Hser]].
Defined.




(** C8. From every tracked position p, [centre_stage] is the call
    [move_rel(-p)] with the default flags: it is always accepted, sends the
    remap of -p and the release command, and leaves the tracked position at
    (0,0,0). *)
Theorem centre_stage_returns_to_origin (s : Stage.t) :
  Stage.centre_stage s =
    (Returned tt,
     snd (Stage.move_rel [- fst (fst (Stage._pos s)); - snd (fst (Stage._pos s));
                          - snd (Stage._pos s)] true false s)) /\
  Stage._pos (snd (Stage.centre_stage s)) = (0, 0, 0) /\
  Stage.queried (snd (Stage.centre_stage s)) =
    Stage.queried s ++
      [fmt_ddd "move_rel"
         (Stage._motor_coord (- fst (fst (Stage._pos s))) (- snd (fst (Stage._pos s)))
                             (- snd (Stage._pos s)));
       ("release" ++ LF)%string].
Proof.
  destruct s as [emu [[p0 p1] p2] written reply log].
  assert (Hneg : vec_list (vec_scale (-1) (p0, p1, p2)) = [- p0; - p1; - p2]).
  { cbn [vec_scale vec_list]. repeat f_equal; lia. }
  assert (Hok : forall ovr,
             vec_all_le (vec_abs (vec_add (p0, p1, p2) (- p0, - p1, - p2)))
                        Stage._XYZ_BOUND || ovr = true).
  { intros ovr. apply orb_true_iff; left. cbn [vec_add]. apply vec_all_le_bound. lia. }
  unfold Stage.centre_stage. run_py. cbn [Stage._pos fst snd]. rewrite Hneg.
  rewrite (move_rel_accepted (Stage.mk emu (p0, p1, p2) written reply log)
             (- p0) (- p1) (- p2) true false (Hok false)).
  cbn [fst snd Stage._pos vec_add Stage.sent Stage.set_pos Stage.queried Stage._emulate
       Stage.ser_written Stage.ser_reply].
  repeat split.
  - repeat f_equal; lia.
  - rewrite <- app_assoc. reflexivity.
Qed.

(** C9. The axis remap (x,y,z) -> (-z,-x,-y) is a signed permutation with
    inverse (a,b,c) -> (-b,-c,-a): each composite is the identity on every
    integer 3-vector, and the inverse is the remap applied five times. *)
Theorem motor_coord_invertible (x y z : Z) :
  (let '(a, b, c) := Stage._motor_coord x y z in Stage._motor_coord_inv a b c) = (x, y, z) /\
  (let '(a, b, c) := Stage._motor_coord_inv x y z in Stage._motor_coord a b c) = (x, y, z) /\
  Stage._motor_coord_inv x y z =
    Nat.iter 5 (fun v : Z * Z * Z => let '(a, b, c) := v in Stage._motor_coord a b c) (x, y, z).
Proof.
  unfold Stage._motor_coord, Stage._motor_coord_inv. cbn.
  rewrite !Z.opp_involutive. repeat split.
Qed.

Lemma motor_coord_injective (x y z x' y' z' : Z) :
  Stage._motor_coord x y z = Stage._motor_coord x' y' z' -> (x, y, z) = (x', y', z').
Proof.
  unfold Stage._motor_coord. intros H. injection H as Hz Hx Hy.
  f_equal; [f_equal |]; lia.
Qed.

(** C1: what the code does on [fast_move([17,-17,16])]. Python 2 divides
    numpy integers by flooring, so the step counts are (1,-2,1), not the
    truncated (1,-1,1); the command carries their remap (-1,-1,2); the
    tracked position moves by the undivided vector. *)
Theorem fast_move_17_floors :
  (17 / Stage._MICROSTEPS, -17 / Stage._MICROSTEPS, 16 / Stage._MICROSTEPS) = (1, -2, 1) /\
  (17 ÷ Stage._MICROSTEPS, -17 ÷ Stage._MICROSTEPS, 16 ÷ Stage._MICROSTEPS) = (1, -1, 1) /\
  Stage.fast_move [17; -17; 16] true false (stage_at false (0, 0, 0)) =
    (Returned None,
     Stage.mk false (17, -17, 16)
       [fmt_ddd "fast_move" (Stage._motor_coord 1 (-2) 1); ("release" ++ LF)%string]
       arduino_ok
       [fmt_ddd "fast_move" (Stage._motor_coord 1 (-2) 1); ("release" ++ LF)%string]) /\
  fmt_ddd "fast_move" (Stage._motor_coord 1 (-2) 1) = ("fast_move -1 -1 2" ++ LF)%string /\
  fmt_ddd "fast_move" (Stage._motor_coord 1 (-1) 1) = ("fast_move -1 -1 1" ++ LF)%string.
Proof. repeat split. Qed.

(** Away from the example: a negative displacement that is not a multiple
    of 16 is rounded away from zero, one whole step too far. *)
Lemma fast_move_steps_floor (r : Z) :
  r < 0 -> r mod Stage._MICROSTEPS <> 0 ->
  r / Stage._MICROSTEPS = r ÷ Stage._MICROSTEPS - 1.
Proof.
  unfold Stage._MICROSTEPS. intros Hneg Hrem.
  Z.to_euclidean_division_equations. lia.
Qed.

(** * Properties of the servo loop *)

Ltac run_mic :=
  cbv beta iota delta [bind ret get put modify raise assert zoom on_camera on_stage
                       camera stage fst snd].

Section ServoFacts.
Variable rnd : Q -> Q.
Variable fsqrt : Q -> Q.
Variable Image : Type.

(** Rounding is monotone, and the halves of the integers up to 2^53 in
    magnitude are floats, as for IEEE binary64 with round-to-nearest. *)
Hypothesis rnd_mono : forall x y : Q, (x <= y)%Q -> (rnd x <= rnd y)%Q.
Hypothesis rnd_half :
  forall n : Z, Z.abs n <= 2 ^ 53 -> (rnd (inject_Z n / 2) == inject_Z n / 2)%Q.

Lemma extent_nonneg (extent : Z) (coord : Q) :
  (0 <= coord <= inject_Z extent)%Q -> 0 <= extent.
Proof.
  intros [Hlo Hhi]. pose proof (Qle_trans _ _ _ Hlo Hhi) as H.
  unfold Qle in H. cbn in H. lia.
Qed.

Lemma centre_offset_range (extent : Z) (coord : Q) :
  extent <= 2 ^ 53 ->
  (0 <= coord <= inject_Z extent)%Q ->
  (- (inject_Z extent / 2) <= centre_offset rnd extent coord <= inject_Z extent / 2)%Q.
Proof.
  intros Hfit Hin. pose proof (extent_nonneg extent coord Hin) as Hpos.
  destruct Hin as [Hlo Hhi]. unfold centre_offset, fneg, fsub, fdiv.
  pose proof (rnd_half extent ltac:(lia)) as Hh.
  pose proof (rnd_half (- extent) ltac:(lia)) as Hn.
  rewrite inject_Z_opp in Hn.
  set (h := rnd (inject_Z extent / 2)) in *.
  assert (Hup : (rnd (coord - h) <= rnd (inject_Z extent / 2))%Q).
  { apply rnd_mono. fold h. revert Hh Hhi. generalize (inject_Z extent).
    intros w Hh Hhi. unfold Qdiv in *. change (/ 2)%Q with (1 # 2)%Q in *. lra. }
  assert (Hdown : (rnd (- inject_Z extent / 2) <= rnd (coord - h))%Q).
  { apply rnd_mono. revert Hh Hlo. generalize (inject_Z extent).
    intros w Hh Hlo. unfold Qdiv in *. change (/ 2)%Q with (1 # 2)%Q in *. lra. }
  fold h in Hup. revert Hup Hdown Hh Hn. generalize (rnd (coord - h)).
  generalize (rnd (- inject_Z extent / 2)). generalize h. generalize (inject_Z extent).
  intros w h' lo c Hup Hdown Hh Hn.
  unfold Qdiv in *. change (/ 2)%Q with (1 # 2)%Q in *. split; lra.
Qed.

Lemma centre_offset_asserts (extent : Z) (coord : Q) :
  extent <= 2 ^ 53 ->
  (0 <= coord <= inject_Z extent)%Q ->
  fge (centre_offset rnd extent coord) (fneg (fdiv rnd (inject_Z extent) 2))
  && fle (centre_offset rnd extent coord) (fdiv rnd (inject_Z extent) 2) = true.
Proof.
  intros Hfit Hin. pose proof (centre_offset_range extent coord Hfit Hin) as [Hlo Hhi].
  pose proof (rnd_half extent ltac:(pose proof (extent_nonneg extent coord Hin); lia)) as Hh.
  unfold fge, fle, fneg, fdiv. apply andb_true_iff.
  split; apply Qle_bool_iff; revert Hlo Hhi Hh;
    generalize (centre_offset rnd extent coord); generalize (rnd (inject_Z extent / 2));
    generalize (inject_Z extent); intros w h c Hlo Hhi Hh;
    unfold Qdiv in *; change (/ 2)%Q with (1 # 2)%Q in *; lra.
Qed.

Lemma camera_centre_move_found (m : Microscope Image) (template : Image) (x y : Q) :
  resolution_is_float (camera m) ->
  locate (camera m) template (shots (camera m)) = Found (x, y) ->
  (0 <= x <= inject_Z (fst (_resolution (camera m))))%Q ->
  (0 <= y <= inject_Z (snd (_resolution (camera m))))%Q ->
  _camera_centre_move rnd template m =
    (Returned (centre_offsets rnd (_resolution (camera m)) (x, y), (x, y)),
     mkMicroscope (next_shot (camera m)) (stage m)).
Proof.
  intros Hfit Hloc Hx Hy. destruct m as [cam stg].
  unfold resolution_is_float in Hfit. cbn [camera stage] in *.
  destruct (_resolution cam) as [width height] eqn:Hres. cbn [fst snd] in *.
  destruct Hfit as [Hw Hh].
  unfold _camera_centre_move, find_template. run_mic. rewrite Hres, Hloc. run_mic.
  rewrite (centre_offset_asserts width x Hw Hx), (centre_offset_asserts height y Hh Hy).
  reflexivity.
Qed.

(** C10. When the Locator places the template inside the frame, the
    offset computed by [_camera_centre_move] lies within half the frame
    size on each axis; both range assertions hold and the step returns
    the offset together with the position. (Frame sizes up to 2^53, so
    that halving them is exact in floating point.) *)
Theorem camera_centre_move_in_range (m : Microscope Image) (template : Image) (x y : Q) :
  resolution_is_float (camera m) ->
  locate (camera m) template (shots (camera m)) = Found (x, y) ->
  (0 <= x <= inject_Z (fst (_resolution (camera m))))%Q ->
  (0 <= y <= inject_Z (snd (_resolution (camera m))))%Q ->
  _camera_centre_move rnd template m =
    (Returned (centre_offsets rnd (_resolution (camera m)) (x, y), (x, y)),
     mkMicroscope (next_shot (camera m)) (stage m)) /\
  (- (inject_Z (fst (_resolution (camera m))) / 2)
     <= fst (centre_offsets rnd (_resolution (camera m)) (x, y))
     <= inject_Z (fst (_resolution (camera m))) / 2)%Q /\
  (- (inject_Z (snd (_resolution (camera m))) / 2)
     <= snd (centre_offsets rnd (_resolution (camera m)) (x, y))
     <= inject_Z (snd (_resolution (camera m))) / 2)%Q.
Proof.
  intros Hfit Hloc Hx Hy. split; [apply camera_centre_move_found; assumption|].
  destruct Hfit as [Hw Hh]. split; apply centre_offset_range; assumption.
Qed.

(** *** The loop *)

Lemma on_stage_move_rel (m : Microscope Image) (x y z : Z) (release_ override : bool) :
  exists s', on_stage (Stage.move_rel [x; y; z] release_ override) m
             = (Returned None, mkMicroscope (camera m) s').
Proof.
  destruct (move_rel_total (stage m) x y z release_ override) as [s' Hs'].
  exists s'. unfold on_stage, zoom. rewrite Hs'. reflexivity.
Qed.

Lemma camera_centre_move_inv (template : Image) (m m' : Microscope Image)
      (o : Outcome (Vec2 * Vec2)) :
  _camera_centre_move rnd template m = (o, m') ->
  m' = mkMicroscope (next_shot (camera m)) (stage m) /\
  match o with
  | Returned (cm, pos) =>
      cm = centre_offsets rnd (_resolution (camera m)) pos /\
      locate (camera m) template (shots (camera m)) = Found pos
  | Raised _ => True
  | Stuck | OutOfFuel => False
  end.
Proof.
  destruct m as [cam stg].
  unfold _camera_centre_move, find_template, centre_offsets. run_mic.
  destruct (_resolution cam) as [width height].
  destruct (locate cam template (shots cam)) as [pos|]; run_mic.
  - repeat match goal with |- context [if ?b then _ else _] => destruct b; run_mic end;
      intros H; injection H as <- <-; auto.
  - intros H; injection H as <- <-; auto.
Qed.

Lemma servo_loop_inv (template : Image) (tolerance : Q) (max_iterations : Z) :
  forall (fuel : nat) (l : ServoLocals) (m m' : Microscope Image) (o : Outcome ServoLocals),
    servo_loop rnd fsqrt fuel template tolerance max_iterations l m = (o, m') ->
    _resolution (camera m') = _resolution (camera m) /\
    match o with
    | Returned l' =>
        exists k : nat,
          iteration l' = iteration l + Z.of_nat k /\
          length (stage_moves l') = (length (stage_moves l) + k)%nat /\
          length (camera_positions l') = (length (camera_positions l) + k)%nat /\
          fgt (_camera_move_distance rnd fsqrt (camera_move l')) tolerance
            && (iteration l' <? max_iterations) = false /\
          (k <> 0%nat -> iteration l' <= max_iterations) /\
          (camera_move l
             = centre_offsets rnd (_resolution (camera m))
                 (List.last (camera_positions l) (0, 0)%Q) ->
           camera_move l'
             = centre_offsets rnd (_resolution (camera m))
                 (List.last (camera_positions l') (0, 0)%Q))
    | Raised _ => True
    | Stuck => False
    | OutOfFuel => (fuel <= Z.to_nat (max_iterations - iteration l))%nat
    end.
Proof.
  induction fuel as [|fuel IH]; intros l m m' o.
  - cbn. intros H; injection H as <- <-. split; [reflexivity | lia].
  - cbn [servo_loop].
    destruct (fgt _ tolerance && (iteration l <? max_iterations)) eqn:Hcond.
    + apply andb_true_iff in Hcond as [_ Hlt]. apply Z.ltb_lt in Hlt.
      unfold bind at 1.
      destruct (on_stage_move_rel m
                  (ftrunc (fst (dot2 rnd (camera_move l) (_CAMERA_TO_STAGE_MATRIX rnd))))
                  (ftrunc (snd (dot2 rnd (camera_move l) (_CAMERA_TO_STAGE_MATRIX rnd))))
                  (ftrunc 0) false false) as [s1 Hmove].
      cbn [vec_list]. rewrite Hmove. unfold bind at 1.
      destruct (_camera_centre_move rnd template (mkMicroscope (camera m) s1))
        as [o2 m2] eqn:Hcam.
      apply camera_centre_move_inv in Hcam as [-> Ho2]. cbn [camera stage] in *.
      destruct o2 as [[cm pos]| e | |]; try contradiction.
      * destruct Ho2 as [Hcm _]. intros Hrec. apply IH in Hrec as [Hres Hrec].
        cbn [camera _resolution next_shot] in Hres. split; [exact Hres|].
        destruct o as [l'| | |]; auto.
        -- destruct Hrec as (k & Hit & Hsm & Hcp & Hexit & Hle & Hlast).
           cbn [iteration stage_moves camera_positions camera_move] in *.
           rewrite length_app in Hsm, Hcp. cbn [length] in Hsm, Hcp.
           exists (S k).
           split; [lia|]. split; [lia|]. split; [lia|]. split; [exact Hexit|]. split.
           ++ intros _. destruct k; [lia | apply Hle; lia].
           ++ intros _. apply Hlast. rewrite last_last. exact Hcm.
        -- cbn [iteration] in Hrec. lia.
      * intros H; injection H as <- <-. split; [reflexivity | exact I].
    + intros H; injection H as <- <-. split; [reflexivity|].
      exists 0%nat. repeat split; try lia; auto.
Qed.

Lemma on_stage_release (m : Microscope Image) :
  on_stage Stage.release m
  = (Returned None, mkMicroscope (camera m) (Stage.sent [("release" ++ LF)%string] (stage m))).
Proof.
  unfold on_stage, zoom, Stage.release, bind, ret.
  pose proof (query_sent ("release" ++ LF)%string (stage m)) as Hq.
  destruct (Stage._query _ (stage m)) as [o s'] eqn:E. cbn in Hq. subst s'.
  unfold Stage._query in E. destruct (negb _) in E; injection E as <-; reflexivity.
Qed.

(** What a run of [centre_on_template] on a live object can end in: an
    exception, or a result whose parts are tied to the number [n] of
    moves issued. *)
Lemma centre_on_template_run (w : World Image) (self : nat) (mic : Microscope Image)
      (template : Image) (tolerance : Q) (max_iterations : Z) (release_ : bool) :
  heap w !! self = Some mic ->
  (forall a, global_m w = Some a -> is_Some (heap w !! a)) ->
  match fst (centre_on_template rnd fsqrt self template tolerance max_iterations release_ w)
  with
  | Returned (it, cps, sms) =>
      exists n : nat,
        length sms = n /\ length cps = S n /\
        it = (if Z.of_nat n =? max_iterations then Z.of_nat n * -1 else Z.of_nat n) /\
        (n <> 0%nat -> Z.of_nat n <= max_iterations) /\
        fgt (_camera_move_distance rnd fsqrt
               (centre_offsets rnd (_resolution (camera mic)) (List.last cps (0, 0)%Q)))
            tolerance
          && (Z.of_nat n <? max_iterations) = false
  | Raised _ => True
  | Stuck | OutOfFuel => False
  end.
Proof.
  intros Hself Hm. unfold centre_on_template.
  unfold bind at 1. unfold at_obj at 1. rewrite Hself.
  unfold bind at 1.
  destruct (_camera_centre_move rnd template mic) as [o1 m1] eqn:Hcam.
  apply camera_centre_move_inv in Hcam as [-> Ho1].
  destruct o1 as [[cm pos]| e | |]; try contradiction; [| exact I].
  destruct Ho1 as [Hcm _].
  destruct (servo_loop rnd fsqrt (S (Z.to_nat max_iterations)) template tolerance
              max_iterations (mkLocals 0 (0, 0, 0) [] cm [pos])
              (mkMicroscope (next_shot (camera mic)) (stage mic))) as [o2 m2] eqn:Hloop.
  apply servo_loop_inv in Hloop as [Hres Hloop].
  cbn [camera _resolution next_shot] in Hres, Hloop.
  destruct o2 as [l| e | |]; cbn [fst]; try exact I; try contradiction;
    [| cbn [iteration] in Hloop; lia].
  destruct Hloop as (k & Hit & Hsm & Hcp & Hexit & Hle & Hlast).
  cbn [iteration stage_moves camera_positions camera_move length] in *.
  specialize (Hlast Hcm). rewrite Hlast in Hexit.
  assert (Hfinal :
            match fst ((ret (if iteration l =? max_iterations then iteration l * -1
                             else iteration l, camera_positions l, stage_moves l)
                        : M (World Image) _)
                         (mkWorld (<[self := m2]> (heap w)) (global_m w))) with
            | Returned (it, cps, sms) =>
                exists n : nat,
                  length sms = n /\ length cps = S n /\
                  it = (if Z.of_nat n =? max_iterations then Z.of_nat n * -1
                        else Z.of_nat n) /\
                  (n <> 0%nat -> Z.of_nat n <= max_iterations) /\
                  fgt (_camera_move_distance rnd fsqrt
                         (centre_offsets rnd (_resolution (camera mic))
                            (List.last cps (0, 0)%Q))) tolerance
                    && (Z.of_nat n <? max_iterations) = false
            | _ => False
            end).
  { cbn [ret fst]. exists k. rewrite Z.add_0_l in Hit. rewrite <- Hit.
    split; [lia|]. split; [lia|]. split; [reflexivity|]. split; [lia | exact Hexit]. }
  destruct release_.
  - unfold bind at 1. unfold bind at 1. unfold get. cbn [global_m].
    destruct (global_m w) as [a|] eqn:Hg; [| exact I].
    unfold bind at 1. unfold at_obj. cbn [heap global_m].
    assert (Hlive : is_Some (<[self := m2]> (heap w) !! a)).
    { destruct (decide (self = a)) as [->|Hne].
      - rewrite lookup_insert_eq. eauto.
      - rewrite lookup_insert_ne by exact Hne. apply Hm. reflexivity. }
    destruct Hlive as [ma ->]. rewrite on_stage_release. exact Hfinal.
  - unfold bind at 1. exact Hfinal.
Qed.

(** C2, as amended. Every run on a live object either raises or returns
    logs in which the camera positions are one more than the stage moves
    (the first measurement precedes the first move); when the run fails to
    converge, signalled by a negative counter or by a last offset beyond
    tolerance, there are [max_iterations] moves and [max_iterations + 1]
    positions. *)
Theorem centre_on_template_log_lengths (w : World Image) (self : nat)
        (mic : Microscope Image) (template : Image) (tolerance : Q)
        (max_iterations : Z) (release_ : bool) :
  heap w !! self = Some mic ->
  (forall a, global_m w = Some a -> is_Some (heap w !! a)) ->
  match fst (centre_on_template rnd fsqrt self template tolerance max_iterations release_ w)
  with
  | Returned (it, cps, sms) =>
      length cps = S (length sms) /\
      (it < 0 ->
       Z.of_nat (length sms) = max_iterations /\
       Z.of_nat (length cps) = max_iterations + 1) /\
      (0 <= max_iterations ->
       fgt (_camera_move_distance rnd fsqrt
              (centre_offsets rnd (_resolution (camera mic)) (List.last cps (0, 0)%Q)))
           tolerance = true ->
       it = - max_iterations /\
       Z.of_nat (length sms) = max_iterations /\
       Z.of_nat (length cps) = max_iterations + 1)
  | Raised _ => True
  | Stuck | OutOfFuel => False
  end.
Proof.
  intros Hself Hm.
  pose proof (centre_on_template_run w self mic template tolerance max_iterations
                release_ Hself Hm) as Hrun.
  destruct (fst (centre_on_template _ _ _ _ _ _ _ _)) as [[[it cps] sms]| e | |]; auto.
  destruct Hrun as (n & Hsm & Hcp & Hit & Hle & Hexit).
  rewrite Hsm, Hcp. split; [reflexivity|]. split.
  - intros Hneg. destruct (Z.eqb_spec (Z.of_nat n) max_iterations); lia.
  - intros Hmax Hfar. rewrite Hfar in Hexit. cbn [andb] in Hexit.
    apply Z.ltb_ge in Hexit.
    assert (Z.of_nat n = max_iterations) as Hn
        by (destruct n; [lia | apply Z.le_antisymm; [apply Hle|]; lia]).
    rewrite Hn, Z.eqb_refl in Hit. lia.
Qed.

(** C5, as amended. With a non-negative budget, a run that returns has
    issued n <= max_iterations moves. If it stopped before the budget was
    used up, the last offset is within tolerance and the counter is n,
    which is 0 when the template was centred from the start. If the last
    offset is beyond tolerance the counter is exactly -max_iterations. A
    negative counter is returned only after max_iterations moves. *)
Theorem centre_on_template_counter (w : World Image) (self : nat)
        (mic : Microscope Image) (template : Image) (tolerance : Q)
        (max_iterations : Z) (release_ : bool) :
  heap w !! self = Some mic ->
  (forall a, global_m w = Some a -> is_Some (heap w !! a)) ->
  0 <= max_iterations ->
  match fst (centre_on_template rnd fsqrt self template tolerance max_iterations release_ w)
  with
  | Returned (it, cps, sms) =>
      let n := Z.of_nat (length sms) in
      let beyond :=
        fgt (_camera_move_distance rnd fsqrt
               (centre_offsets rnd (_resolution (camera mic)) (List.last cps (0, 0)%Q)))
            tolerance in
      0 <= n <= max_iterations /\
      (n < max_iterations -> beyond = false /\ it = n) /\
      (beyond = true -> it = - max_iterations /\ n = max_iterations) /\
      (it < 0 -> n = max_iterations) /\
      (it = n \/ it = - max_iterations)
  | Raised _ => True
  | Stuck | OutOfFuel => False
  end.
Proof.
  intros Hself Hm Hmax.
  pose proof (centre_on_template_run w self mic template tolerance max_iterations
                release_ Hself Hm) as Hrun.
  destruct (fst (centre_on_template _ _ _ _ _ _ _ _)) as [[[it cps] sms]| e | |]; auto.
  destruct Hrun as (n & Hsm & Hcp & Hit & Hle & Hexit).
  cbv zeta. rewrite Hsm.
  assert (Hn : 0 <= Z.of_nat n <= max_iterations)
    by (destruct n; [lia | split; [lia | apply Hle; lia]]).
  split; [exact Hn|].
  destruct (Z.eqb_spec (Z.of_nat n) max_iterations) as [Heq|Hne].
  - repeat split; lia.
  - assert (Hlt : (Z.of_nat n <? max_iterations) = true) by (apply Z.ltb_lt; lia).
    rewrite Hlt, andb_true_r in Hexit. rewrite Hexit.
    repeat split; try lia; discriminate.
Qed.

(** *** Runs that return *)

Lemma servo_loop_returns (template : Image) (tolerance : Q) (max_iterations : Z) :
  forall (fuel : nat) (l : ServoLocals) (m : Microscope Image),
    resolution_is_float (camera m) ->
    locator_in_frame (camera m) template ->
    (Z.to_nat (max_iterations - iteration l) < fuel)%nat ->
    exists l' m',
      servo_loop rnd fsqrt fuel template tolerance max_iterations l m = (Returned l', m').
Proof.
  induction fuel as [|fuel IH]; intros l m Hfit Hframe Hfuel; [lia|].
  cbn [servo_loop].
  destruct (fgt _ tolerance && (iteration l <? max_iterations)) eqn:Hcond;
    [| eexists; eexists; reflexivity].
  apply andb_true_iff in Hcond as [_ Hlt]. apply Z.ltb_lt in Hlt.
  unfold bind at 1.
  destruct (on_stage_move_rel m
              (ftrunc (fst (dot2 rnd (camera_move l) (_CAMERA_TO_STAGE_MATRIX rnd))))
              (ftrunc (snd (dot2 rnd (camera_move l) (_CAMERA_TO_STAGE_MATRIX rnd))))
              (ftrunc 0) false false) as [s1 Hmove].
  cbn [vec_list]. rewrite Hmove. unfold bind at 1.
  destruct (Hframe (shots (camera m))) as (x & y & Hloc & Hx & Hy).
  rewrite (camera_centre_move_found (mkMicroscope (camera m) s1) template x y
             Hfit Hloc Hx Hy).
  apply IH.
  - exact Hfit.
  - intros n. apply (Hframe n).
  - cbn [iteration]. lia.
Qed.

(** With a Locator that keeps the template in the frame, a run without
    the final release returns; with it, the run returns when the global
    name [m] is bound. *)
Lemma centre_on_template_returns (w : World Image) (self : nat) (mic : Microscope Image)
      (template : Image) (tolerance : Q) (max_iterations : Z) (release_ : bool) :
  heap w !! self = Some mic ->
  resolution_is_float (camera mic) ->
  locator_in_frame (camera mic) template ->
  (release_ = true -> exists a, global_m w = Some a /\ is_Some (heap w !! a)) ->
  exists r,
    fst (centre_on_template rnd fsqrt self template tolerance max_iterations release_ w)
    = Returned r.
Proof.
  intros Hself Hfit Hframe Hrel. unfold centre_on_template.
  unfold bind at 1. unfold at_obj at 1. rewrite Hself. unfold bind at 1.
  destruct (Hframe (shots (camera mic))) as (x & y & Hloc & Hx & Hy).
  rewrite (camera_centre_move_found mic template x y Hfit Hloc Hx Hy).
  cbv beta iota.
  match goal with
  | |- context [servo_loop rnd fsqrt ?fuel template tolerance max_iterations ?l ?m] =>
      destruct (servo_loop_returns template tolerance max_iterations fuel l m)
        as (l' & m' & Hloop)
  end.
  { exact Hfit. }
  { intros n. apply (Hframe n). }
  { cbn [iteration]. lia. }
  rewrite Hloop. destruct release_.
  - destruct (Hrel eq_refl) as (a & Hg & Hlive).
    unfold bind at 1. unfold bind at 1. unfold get. cbn [global_m]. rewrite Hg.
    unfold bind at 1. unfold at_obj. cbn [heap global_m].
    assert (Hlive' : is_Some (<[self := m']> (heap w) !! a)).
    { destruct (decide (self = a)) as [->|Hne].
      - rewrite lookup_insert_eq. eauto.
      - rewrite lookup_insert_ne by exact Hne. exact Hlive. }
    destruct Hlive' as [ma ->]. rewrite on_stage_release. eexists; reflexivity.
  - unfold bind at 1. eexists; reflexivity.
Qed.

Lemma at_obj_global_m {A} (a : nat) (c : M (Microscope Image) A) (w : World Image) :
  global_m (snd (at_obj a c w)) = global_m w.
Proof.
  unfold at_obj. destruct (heap w !! a) as [m|]; [| reflexivity].
  destruct (c m); reflexivity.
Qed.

(** When the global name [m] is bound to another object than [self], the
    [release] flag makes no difference to [self]: its stage ends as in a
    run without release. *)
Lemma centre_on_template_release_elsewhere (w : World Image) (self a : nat)
      (mic : Microscope Image) (template : Image) (tolerance : Q)
      (max_iterations : Z) :
  heap w !! self = Some mic -> global_m w = Some a -> a <> self ->
  heap (snd (centre_on_template rnd fsqrt self template tolerance max_iterations true w))
    !! self
  = heap (snd (centre_on_template rnd fsqrt self template tolerance max_iterations false w))
      !! self.
Proof.
  intros Hself Hg Hne. unfold centre_on_template, bind.
  match goal with
  | |- context [at_obj self ?c w] =>
      pose proof (at_obj_global_m self c w) as Hkeep;
      destruct (at_obj self c w) as [[l| e | |] w1]
  end; try reflexivity.
  cbn [snd] in Hkeep. unfold get, ret. rewrite Hkeep, Hg.
  unfold at_obj. destruct (heap w1 !! a) as [ma|] eqn:Ha; [| reflexivity].
  rewrite on_stage_release. cbn [snd heap].
  rewrite lookup_insert_ne by exact Hne. reflexivity.
Qed.

End ServoFacts.

(** ** Instances of the float parameters *)

Lemma exact_rnd_mono (x y : Q) : (x <= y)%Q -> (exact_rnd x <= exact_rnd y)%Q.
Proof. unfold exact_rnd. now rewrite !Qred_correct. Qed.

Lemma exact_rnd_half (n : Z) :
  Z.abs n <= 2 ^ 53 -> (exact_rnd (inject_Z n / 2) == inject_Z n / 2)%Q.
Proof. intros _. apply Qred_correct. Qed.

Lemma fixed_rnd_mono (x y : Q) : (x <= y)%Q -> (fixed_rnd x <= fixed_rnd y)%Q.
Proof.
  intros H. unfold fixed_rnd.
  assert (Hf : Qfloor (x * 1024 + (1 # 2)) <= Qfloor (y * 1024 + (1 # 2))).
  { apply Qfloor_resp_le. lra. }
  rewrite Zle_Qle in Hf. unfold Qdiv. change (/ 1024)%Q with (1 # 1024)%Q. lra.
Qed.

Lemma fixed_rnd_half (n : Z) :
  Z.abs n <= 2 ^ 53 -> (fixed_rnd (inject_Z n / 2) == inject_Z n / 2)%Q.
Proof.
  intros _. unfold fixed_rnd.
  assert (Hf : Qfloor (inject_Z n / 2 * 1024 + (1 # 2)) = 512 * n).
  { pose proof (Qfloor_le (inject_Z n / 2 * 1024 + (1 # 2))) as Hlo.
    pose proof (Qlt_floor (inject_Z n / 2 * 1024 + (1 # 2))) as Hhi.
    set (f := Qfloor _) in *. clearbody f.
    assert (H1 : (inject_Z f <= inject_Z (512 * n) + (1 # 2))%Q).
    { rewrite inject_Z_mult. unfold Qdiv in *. change (/ 2)%Q with (1 # 2)%Q in *.
      change (inject_Z 512) with 512%Q. lra. }
    assert (H2 : (inject_Z (512 * n) + (1 # 2) < inject_Z (f + 1))%Q).
    { rewrite inject_Z_mult. unfold Qdiv in *. change (/ 2)%Q with (1 # 2)%Q in *.
      change (inject_Z 512) with 512%Q. lra. }
    unfold Qle, Qlt in H1, H2. cbn [Qnum Qden Qplus inject_Z] in H1, H2. nia. }
  rewrite Hf, inject_Z_mult. unfold Qdiv. change (/ 1024)%Q with (1 # 1024)%Q.
  change (/ 2)%Q with (1 # 2)%Q. change (inject_Z 512) with 512%Q. lra.
Qed.

Lemma camera_centre_move_in_range_witness :
  _camera_centre_move fixed_rnd tt (scripted_microscope [(301 # 3, 50 # 1)%Q]) =
    (Returned (centre_offsets fixed_rnd vga (301 # 3, 50 # 1)%Q, (301 # 3, 50 # 1)%Q),
     mkMicroscope (next_shot (scripted_camera [(301 # 3, 50 # 1)%Q]))
                  (stage_at true (0, 0, 0))) /\
  (- (inject_Z 640 / 2) <= fst (centre_offsets fixed_rnd vga (301 # 3, 50 # 1)%Q)
     <= inject_Z 640 / 2)%Q /\
  (- (inject_Z 480 / 2) <= snd (centre_offsets fixed_rnd vga (301 # 3, 50 # 1)%Q)
     <= inject_Z 480 / 2)%Q.
Proof.
  apply (camera_centre_move_in_range fixed_rnd unit fixed_rnd_mono fixed_rnd_half
           (scripted_microscope [(301 # 3, 50 # 1)%Q]) tt (301 # 3) (50 # 1)).
  - split; vm_compute; discriminate.
  - reflexivity.
  - split; vm_compute; discriminate.
  - split; vm_compute; discriminate.
Defined.

(** The offset of the witness: 320 - 301/3 = 219.66..., rounded to
    224939/1024, and 240 - 50 = 190. *)
Lemma centre_offsets_fixed_rnd :
  centre_offsets fixed_rnd vga (301 # 3, 50 # 1)%Q
  = ((224939 # 1) / 1024, (194560 # 1) / 1024)%Q.
Proof. vm_compute. reflexivity. Qed.

Lemma centre_on_template_log_lengths_witness :
  match fst (centre_on_template exact_rnd sqrt_micro 0%nat tt 1 3 false
               (imported_world (scripted_microscope [px 310 240])))
  with
  | Returned (it, cps, sms) =>
      length cps = S (length sms) /\
      (it < 0 -> Z.of_nat (length sms) = 3 /\ Z.of_nat (length cps) = 3 + 1) /\
      (0 <= 3 ->
       fgt (_camera_move_distance exact_rnd sqrt_micro
              (centre_offsets exact_rnd vga (List.last cps (0, 0)%Q))) 1 = true ->
       it = - 3 /\ Z.of_nat (length sms) = 3 /\ Z.of_nat (length cps) = 3 + 1)
  | Raised _ => True
  | Stuck | OutOfFuel => False
  end.
Proof.
  apply (centre_on_template_log_lengths exact_rnd sqrt_micro unit
           (imported_world (scripted_microscope [px 310 240])) 0%nat
           (scripted_microscope [px 310 240]) tt 1 3 false).
  - reflexivity.
  - intros a Ha. discriminate Ha.
Defined.

(** C2, as stated, fails: a template that is centred from the start gives
    one camera position and no stage move; a template that never gets
    closer gives, for a budget of 3, four positions and three moves. *)
Lemma centre_on_template_logs_differ :
  fst (centre_on_template exact_rnd sqrt_micro 0%nat tt 1 10 false
         (imported_world (scripted_microscope [])))
    = Returned (0, [px 320 240], []) /\
  fst (centre_on_template exact_rnd sqrt_micro 0%nat tt 1 3 false
         (imported_world (scripted_microscope [px 310 240])))
    = Returned (-3,
                [px 310 240; px 310 240; px 310 240; px 310 240],
                [(52, 70, 0); (52, 70, 0); (52, 70, 0)]) /\
  length [px 320 240] <> length (@nil Vec3).
Proof.
  split; [| split]; [vm_compute; reflexivity | vm_compute; reflexivity | discriminate].
Qed.

Lemma centre_on_template_counter_witness :
  match fst (centre_on_template exact_rnd sqrt_micro 0%nat tt 1 3 false
               (imported_world (scripted_microscope [px 310 240; px 320 240])))
  with
  | Returned (it, cps, sms) =>
      let n := Z.of_nat (length sms) in
      let beyond :=
        fgt (_camera_move_distance exact_rnd sqrt_micro
               (centre_offsets exact_rnd vga (List.last cps (0, 0)%Q))) 1 in
      0 <= n <= 3 /\
      (n < 3 -> beyond = false /\ it = n) /\
      (beyond = true -> it = - 3 /\ n = 3) /\
      (it < 0 -> n = 3) /\
      (it = n \/ it = - 3)
  | Raised _ => True
  | Stuck | OutOfFuel => False
  end.
Proof.
  apply (centre_on_template_counter exact_rnd sqrt_micro unit
           (imported_world (scripted_microscope [px 310 240; px 320 240]))
           0%nat (scripted_microscope [px 310 240; px 320 240]) tt 1 3 false).
  - reflexivity.
  - intros a Ha. discriminate Ha.
  - lia.
Defined.

(** C5, as stated, fails: with the template centred from the start the
    tolerance is reached and the counter returned is 0, which is not
    positive. *)
Lemma centre_on_template_zero_counter :
  fst (centre_on_template exact_rnd sqrt_micro 0%nat tt 1 10 false
         (imported_world (scripted_microscope [])))
    = Returned (0, [px 320 240], []) /\
  fgt (_camera_move_distance exact_rnd sqrt_micro
         (centre_offsets exact_rnd vga (px 320 240))) 1 = false /\
  ~ 0 < 0.
Proof. split; [| split]; [vm_compute; reflexivity | vm_compute; reflexivity | lia]. Qed.

(** A run that reaches the tolerance with its last permitted move is
    reported as a failure: budget 1, one move, template centred afterwards,
    counter -1. *)
Lemma centre_on_template_last_move_converges :
  fst (centre_on_template exact_rnd sqrt_micro 0%nat tt 1 1 false
         (imported_world (scripted_microscope [px 310 240; px 320 240])))
    = Returned (-1, [px 310 240; px 320 240], [(52, 70, 0)]) /\
  fgt (_camera_move_distance exact_rnd sqrt_micro
         (centre_offsets exact_rnd vga (px 320 240))) 1 = false.
Proof. split; vm_compute; reflexivity. Qed.

(** C6: what the code does when asked to release at the end. The release
    goes to the stage of the object bound to the global name [m], not to
    the stage of [self]. Imported as a module ([m] unbound) the run makes
    its one held move and ends in [NameError]; run from the script, on a
    second microscope, it returns and releases the stage of [m] instead.
    Either way the stage of [self] is left energised. *)
Theorem centre_on_template_release_misses_self :
  let imported :=
    centre_on_template exact_rnd sqrt_micro 0%nat tt 1 10 true
      (imported_world (scripted_microscope [px 310 240; px 320 240])) in
  let scripted :=
    centre_on_template exact_rnd sqrt_micro 1%nat tt 1 10 true
      (script_world (scripted_microscope [])
                    (scripted_microscope [px 310 240; px 320 240])) in
  fst imported = Raised (NameError "m") /\
  (Stage.queried ∘ stage <$> heap (snd imported) !! 0%nat)
    = Some [fmt_ddd "move_rel" (Stage._motor_coord 52 70 0)] /\
  fst scripted = Returned (1, [px 310 240; px 320 240], [(52, 70, 0)]) /\
  (Stage.queried ∘ stage <$> heap (snd scripted) !! 1%nat)
    = Some [fmt_ddd "move_rel" (Stage._motor_coord 52 70 0)] /\
  (Stage.queried ∘ stage <$> heap (snd scripted) !! 0%nat)
    = Some [("release" ++ LF)%string].
Proof. repeat split; vm_compute; reflexivity. Qed.

(** The release reaches [self] only when [self] is the object named [m]. *)
Lemma centre_on_template_release_when_self_is_m :
  let run :=
    centre_on_template exact_rnd sqrt_micro 0%nat tt 1 10 true
      (script_world (scripted_microscope [px 310 240; px 320 240])
                    (scripted_microscope [])) in
  fst run = Returned (1, [px 310 240; px 320 240], [(52, 70, 0)]) /\
  (Stage.queried ∘ stage <$> heap (snd run) !! 0%nat)
    = Some [fmt_ddd "move_rel" (Stage._motor_coord 52 70 0); ("release" ++ LF)%string].
Proof. repeat split; vm_compute; reflexivity. Qed.

(** * Properties of the calibration *)

Lemma move_to_pos_lands (s : Stage.t) (x y z : Z) (release_ : bool) :
  exists s',
    Stage.move_to_pos [x; y; z] release_ false s = (Returned None, s') /\
    Stage._pos s' = Stage.lands (Stage._pos s) (x, y, z).
Proof.
  destruct s as [emu [[p0 p1] p2] written reply log].
  assert (Htarget : vec_add (p0, p1, p2) (x - p0, y - p1, z - p2) = (x, y, z)).
  { cbn [vec_add]. repeat f_equal; lia. }
  unfold Stage.move_to_pos, as_vec3, Stage.lands. run_py.
  cbn [Stage._pos vec_sub vec_list].
  destruct (vec_all_le (vec_abs (x, y, z)) Stage._XYZ_BOUND) eqn:Hb.
  - rewrite move_rel_accepted by (cbn [Stage._pos]; rewrite Htarget, Hb; reflexivity).
    eexists; split; [reflexivity|].
    cbn [Stage._pos Stage.sent Stage.set_pos]. exact Htarget.
  - rewrite move_rel_rejected by (cbn [Stage._pos]; rewrite Htarget; exact Hb).
    eexists; split; reflexivity.
Qed.

Lemma lands_in_bounds (p : Vec3) (x y z : Z) :
  Z.abs x <= 5000 -> Z.abs y <= 5000 -> Z.abs z <= 5000 -> Stage.lands p (x, y, z) = (x, y, z).
Proof.
  intros Hx Hy Hz. unfold Stage.lands.
  rewrite (proj2 (vec_all_le_bound x y z)) by auto. reflexivity.
Qed.

Lemma tracked_square_in_bounds (D : Z) :
  Z.abs D <= 5000 -> tracked_square D = [(D, D); (D, - D); (- D, - D); (- D, D)].
Proof.
  intros HD. unfold tracked_square, waypoint. cbv zeta.
  rewrite !lands_in_bounds by lia. reflexivity.
Qed.

Lemma xy_sub_origin (q : Vec3) : xy_sub (xy q) (0, 0) = xy q.
Proof.
  destruct q as [[q0 q1] q2]. unfold xy, xy_sub. cbn [fst snd].
  rewrite !Z.sub_0_r. reflexivity.
Qed.

Lemma centre_stage_total (s : Stage.t) :
  exists s', Stage.centre_stage s = (Returned tt, s').
Proof.
  destruct s as [emu [[p0 p1] p2] written reply log].
  unfold Stage.centre_stage. run_py. cbn [Stage._pos vec_scale vec_list].
  destruct (move_rel_total (Stage.mk emu (p0, p1, p2) written reply log)
              (-1 * p0) (-1 * p1) (-1 * p2) true false) as [s' ->].
  eexists; reflexivity.
Qed.

Section CalibrateFacts.
Variable rnd : Q -> Q.
Variable Image : Type.
Variable central_half : Image -> Image.
Variable Matrix : Type.
Variable lstsq : list Vec2 -> list (Z * Z) -> Matrix.

Lemma on_stage_move_to_pos (m : Microscope Image) (x y z : Z) :
  exists s',
    on_stage (Stage.move_to_pos [x; y; z] false false) m
      = (Returned None, mkMicroscope (camera m) s') /\
    Stage._pos s' = Stage.lands (Stage._pos (stage m)) (x, y, z).
Proof.
  destruct (move_to_pos_lands (stage m) x y z false) as (s' & Hrun & Hpos).
  exists s'. split; [| exact Hpos]. unfold on_stage, zoom. rewrite Hrun. reflexivity.
Qed.

Lemma on_camera_find (m : Microscope Image) (template : Image) (pos : Vec2) :
  locate (camera m) template (shots (camera m)) = Found pos ->
  on_camera (find_template template) m
    = (Returned pos, mkMicroscope (next_shot (camera m)) (stage m)).
Proof. intros Hloc. unfold on_camera, zoom, find_template. rewrite Hloc. reflexivity. Qed.

(** One waypoint of the square, the reference at the origin: the sample
    appended is the Locator's answer minus the initial one, paired with
    the position the stage tracks after its two moves. *)
Lemma calibrate_visit_step (a b : Z) (rest : list Vec3) (template : Image)
      (c0 c : Vec2) (cd : list Vec2) (sd : list (Z * Z)) (cam : Camera Image)
      (stg : Stage.t) :
  locate cam template (shots cam) = Found c ->
  exists stg',
    Stage._pos stg' = waypoint (Stage._pos stg) a b /\
    calibrate_visit rnd ((a, b, 0) :: rest) template c0 (0, 0, 0) (0, 0) cd sd
      (mkMicroscope cam stg)
    = calibrate_visit rnd rest template c0 (0, 0, 0) (0, 0)
        (cd ++ [vec2_sub rnd c c0]) (sd ++ [xy (waypoint (Stage._pos stg) a b)])
        (mkMicroscope (next_shot cam) stg').
Proof.
  intros Hloc. cbn [calibrate_visit vec_add vec_list].
  rewrite !Z.add_0_l.
  unfold bind at 1.
  destruct (on_stage_move_to_pos (mkMicroscope cam stg) (a + -32) (b + -16) 0)
    as (s1 & -> & Hpos1).
  cbv beta iota delta [camera stage] in *. unfold bind at 1.
  destruct (on_stage_move_to_pos (mkMicroscope cam s1) a b 0) as (s2 & -> & Hpos2).
  cbv beta iota delta [camera stage] in *. rewrite Hpos1 in Hpos2.
  fold (waypoint (Stage._pos stg) a b) in Hpos2.
  unfold bind at 1.
  rewrite (on_camera_find (mkMicroscope cam s2) template c Hloc).
  cbv beta iota delta [camera stage]. unfold bind at 1, get.
  cbv beta iota delta [camera stage]. rewrite Hpos2, xy_sub_origin.
  exists s2. split; [exact Hpos2 | reflexivity].
Qed.

(** C7. With the Locator answering c0 at the reference and c1..c4 at the
    four waypoints, [calibrate] returns the least-squares solution for
    these two matrices: the camera displacements c_i - c0 with their
    component-wise mean subtracted from each row, and the stage
    displacements exactly as tracked, nothing subtracted; for a square of
    half-width |D| <= 5000 these are (D,D), (D,-D), (-D,-D), (-D,D). *)
Theorem calibrate_mean_centres (m : Microscope Image) (template : option Image) (D : Z)
        (c0 c1 c2 c3 c4 : Vec2) :
  locate (camera m) (calibration_template central_half (camera m) template)
         (calibration_first_shot (camera m) template) = Found c0 ->
  locate (camera m) (calibration_template central_half (camera m) template)
         (1 + calibration_first_shot (camera m) template) = Found c1 ->
  locate (camera m) (calibration_template central_half (camera m) template)
         (2 + calibration_first_shot (camera m) template) = Found c2 ->
  locate (camera m) (calibration_template central_half (camera m) template)
         (3 + calibration_first_shot (camera m) template) = Found c3 ->
  locate (camera m) (calibration_template central_half (camera m) template)
         (4 + calibration_first_shot (camera m) template) = Found c4 ->
  let raw := [vec2_sub rnd c1 c0; vec2_sub rnd c2 c0; vec2_sub rnd c3 c0;
              vec2_sub rnd c4 c0] in
  let mean := (fmean rnd (map fst raw), fmean rnd (map snd raw)) in
  fst (calibrate rnd central_half lstsq template D m) =
    Returned
      (lstsq
         [vec2_sub rnd (vec2_sub rnd c1 c0) mean; vec2_sub rnd (vec2_sub rnd c2 c0) mean;
          vec2_sub rnd (vec2_sub rnd c3 c0) mean; vec2_sub rnd (vec2_sub rnd c4 c0) mean]
         (tracked_square D)) /\
  (Z.abs D <= 5000 -> tracked_square D = [(D, D); (D, - D); (- D, - D); (- D, D)]).
Proof.
  intros H0 H1 H2 H3 H4 raw mean. split; [| apply tracked_square_in_bounds].
  destruct m as [cam stg].
  cbv beta iota delta [camera] in H0, H1, H2, H3, H4.
  unfold calibrate. unfold bind at 1.
  destruct (on_stage_move_to_pos (mkMicroscope cam stg) 16 16 0) as (s1 & -> & _).
  cbv beta iota delta [camera stage]. unfold bind at 1.
  destruct (on_stage_move_to_pos (mkMicroscope cam s1) 0 0 0) as (s2 & -> & Hpos).
  rewrite lands_in_bounds in Hpos by lia.
  cbv beta iota delta [camera stage]. unfold bind at 1.
  set (t := calibration_template central_half cam template) in *.
  set (cam0 := mkCamera (_resolution cam) (calibration_first_shot cam template)
                        (get_frame_at cam) (locate cam)).
  assert (Htemplate :
            match template with
            | Some t => ret t
            | None => frame <- on_camera get_frame ;; ret (central_half frame)
            end%py (mkMicroscope cam s2)
            = (Returned t, mkMicroscope cam0 s2)).
  { subst t cam0. destruct template as [t'|]; cbn; [destruct cam|]; reflexivity. }
  rewrite Htemplate. clear Htemplate. unfold bind at 1.
  rewrite (on_camera_find (mkMicroscope cam0 s2) t c0 H0).
  cbv beta iota delta [camera stage]. unfold bind at 1, get.
  cbv beta iota delta [camera stage]. rewrite Hpos. unfold xy at 1. unfold bind at 1.
  destruct (calibrate_visit_step D D [(D, - D, 0); (- D, - D, 0); (- D, D, 0)] t c0 c1
              [] [] (next_shot cam0) s2 H1) as (s3 & Hp3 & ->).
  destruct (calibrate_visit_step D (- D) [(- D, - D, 0); (- D, D, 0)] t c0 c2
              ([] ++ [vec2_sub rnd c1 c0]) ([] ++ [xy (waypoint (Stage._pos s2) D D)])
              (next_shot (next_shot cam0)) s3 H2) as (s4 & Hp4 & ->).
  destruct (calibrate_visit_step (- D) (- D) [(- D, D, 0)] t c0 c3
              (([] ++ [vec2_sub rnd c1 c0]) ++ [vec2_sub rnd c2 c0])
              (([] ++ [xy (waypoint (Stage._pos s2) D D)])
                 ++ [xy (waypoint (Stage._pos s3) D (- D))])
              (next_shot (next_shot (next_shot cam0))) s4 H3) as (s5 & Hp5 & ->).
  destruct (calibrate_visit_step (- D) D (@nil (Z * Z * Z)) t c0 c4
              ((([] ++ [vec2_sub rnd c1 c0]) ++ [vec2_sub rnd c2 c0]) ++ [vec2_sub rnd c3 c0])
              ((([] ++ [xy (waypoint (Stage._pos s2) D D)])
                  ++ [xy (waypoint (Stage._pos s3) D (- D))])
                 ++ [xy (waypoint (Stage._pos s4) (- D) (- D))])
              (next_shot (next_shot (next_shot (next_shot cam0)))) s5 H4)
    as (s6 & Hp6 & ->).
  rewrite Hp5, Hp4, Hp3, Hpos.
  cbn [calibrate_visit app]. unfold ret at 1. cbv beta iota. unfold bind at 1.
  destruct (centre_stage_total s6) as [s7 Hcentre].
  unfold on_stage at 1, zoom. cbv beta iota delta [camera stage]. rewrite Hcentre.
  unfold bind at 1. rewrite on_stage_release. reflexivity.
Qed.

End CalibrateFacts.

Lemma calibrate_mean_centres_witness :
  fst (calibrate exact_rnd (fun frame : unit => frame) (@pair (list Vec2) (list (Z * Z)))
         (Some tt) 128
         (scripted_microscope
            [px 320 240; px 334 252; px 334 232; px 314 232; px 314 252]))
  = Returned ([px 10 10; px 10 (-10); px (-10) (-10); px (-10) 10],
              [(128, 128); (128, -128); (-128, -128); (-128, 128)]).
Proof.
  exact (proj1
           (calibrate_mean_centres exact_rnd unit (fun frame : unit => frame) _ pair
              (scripted_microscope
                 [px 320 240; px 334 252; px 334 232; px 314 232; px 314 252])
              (Some tt) 128 (px 320 240) (px 334 252) (px 334 232) (px 314 232) (px 314 252)
              eq_refl eq_refl eq_refl eq_refl eq_refl)).
Defined.

(** * Further properties of the stage *)

Lemma sent_nil (s : Stage.t) : Stage.sent [] s = s.
Proof.
  destruct s as [emu p written reply log]. unfold Stage.sent. cbn.
  destruct emu; rewrite ?app_nil_r; reflexivity.
Qed.

Lemma set_pos_same (s : Stage.t) : Stage.set_pos (Stage._pos s) s = s.
Proof. destruct s; reflexivity. Qed.

Lemma sent_set_pos_sent (l1 l2 : list string) (p : Vec3) (s : Stage.t) :
  Stage.sent l2 (Stage.set_pos p (Stage.sent l1 s)) = Stage.set_pos p (Stage.sent (l1 ++ l2) s).
Proof.
  destruct s as [emu q written reply log]. unfold Stage.sent, Stage.set_pos. cbn.
  destruct emu; rewrite <- ?app_assoc; reflexivity.
Qed.

Lemma fast_move_accepted (s : Stage.t) (x y z : Z) (release_ override : bool) :
  vec_all_le (vec_abs (vec_add (Stage._pos s) (x, y, z))) Stage._XYZ_BOUND || override = true ->
  Stage.fast_move [x; y; z] release_ override s =
  (Returned None,
   Stage.sent (if release_ then ["release" ++ LF]%string else [])
     (Stage.set_pos (vec_add (Stage._pos s) (x, y, z))
        (Stage.sent [fmt_ddd "fast_move" (Stage._motor_coord (x / 16) (y / 16) (z / 16))] s))).
Proof.
  intros Hok. unfold Stage.fast_move, as_vec3. run_py. rewrite Hok.
  unfold Stage.release, Stage._query, Stage.sent, Stage.set_pos, Stage._MICROSTEPS. run_py.
  destruct release_, (Stage._emulate s) eqn:E; cbn; rewrite ?E; cbn;
    rewrite ?app_nil_r; reflexivity.
Qed.

Lemma fast_move_rejected (s : Stage.t) (x y z : Z) (release_ override : bool) :
  vec_all_le (vec_abs (vec_add (Stage._pos s) (x, y, z))) Stage._XYZ_BOUND || override = false ->
  Stage.fast_move [x; y; z] release_ override s = (Returned None, s).
Proof.
  intros Hko. unfold Stage.fast_move, as_vec3. run_py. rewrite Hko. reflexivity.
Qed.

Lemma move_rel_refused (s : Stage.t) (x y z : Z) (release_ override : bool) :
  vec_all_le (vec_abs (vec_add (Stage._pos s) (x, y, z))) Stage._XYZ_BOUND || override = false ->
  Stage.move_rel [x; y; z] release_ override s = (Returned None, s).
Proof.
  intros Hko. unfold Stage.move_rel, as_vec3. run_py. rewrite Hko. reflexivity.
Qed.

Lemma as_vec3_inv (v : list Z) (r : Vec3) :
  as_vec3 v = Some r -> v = vec_list r.
Proof.
  destruct v as [|x [|y [|z [|t rest]]]]; cbn; try discriminate.
  intros H; injection H as <-. reflexivity.
Qed.

Lemma release_line : is_command_line ("release" ++ LF)%string.
Proof. left; reflexivity. Qed.

Lemma move_rel_line (v : Z * Z * Z) : is_command_line (fmt_ddd "move_rel" v).
Proof. destruct v as [[a b] c]. right. exists a, b, c. left; reflexivity. Qed.

Lemma fast_move_line (v : Z * Z * Z) : is_command_line (fmt_ddd "fast_move" v).
Proof. destruct v as [[a b] c]. right. exists a, b, c. right; reflexivity. Qed.

Lemma release_lines (release_ : bool) :
  Forall is_command_line (if release_ then ["release" ++ LF]%string else []).
Proof. destruct release_; constructor; [apply release_line | constructor]. Qed.

Lemma snd_then_ret {S A} (c : M S A) (s : S) : snd ((c ;;; ret tt) s) = snd (c s).
Proof. unfold bind, ret. destruct (c s) as [[a| e | |] s']; reflexivity. Qed.

Lemma shape_unchanged (override : bool) (s : Stage.t) : call_shape override s s.
Proof.
  exists [], (Stage._pos s). rewrite sent_nil, set_pos_same.
  split; [reflexivity|]. split; [constructor | auto].
Qed.

Lemma check_in_bounds (p : Vec3) :
  vec_all_le (vec_abs p) Stage._XYZ_BOUND = true <-> in_bounds p.
Proof. destruct p as [[x y] z]. apply vec_all_le_bound. Qed.

Lemma shape_move_rel (v : list Z) (release_ override : bool) (s : Stage.t) :
  call_shape override s (snd (Stage.move_rel v release_ override s)).
Proof.
  destruct (as_vec3 v) as [[[x y] z]|] eqn:Hv.
  - apply as_vec3_inv in Hv as ->. cbn [vec_list].
    destruct (vec_all_le (vec_abs (vec_add (Stage._pos s) (x, y, z))) Stage._XYZ_BOUND
              || override) eqn:Hc.
    + rewrite move_rel_accepted by exact Hc. cbn [snd]. rewrite sent_set_pos_sent.
      eexists _, _. split; [reflexivity|]. split.
      * apply Forall_app. split; [| apply release_lines].
        constructor; [apply move_rel_line | constructor].
      * intros -> _. rewrite orb_false_r in Hc. apply check_in_bounds. exact Hc.
    + rewrite move_rel_refused by exact Hc. apply shape_unchanged.
  - unfold Stage.move_rel. rewrite Hv. apply shape_unchanged.
Qed.

Lemma shape_fast_move (v : list Z) (release_ override : bool) (s : Stage.t) :
  call_shape override s (snd (Stage.fast_move v release_ override s)).
Proof.
  destruct (as_vec3 v) as [[[x y] z]|] eqn:Hv.
  - apply as_vec3_inv in Hv as ->. cbn [vec_list].
    destruct (vec_all_le (vec_abs (vec_add (Stage._pos s) (x, y, z))) Stage._XYZ_BOUND
              || override) eqn:Hc.
    + rewrite fast_move_accepted by exact Hc. cbn [snd]. rewrite sent_set_pos_sent.
      eexists _, _. split; [reflexivity|]. split.
      * apply Forall_app. split; [| apply release_lines].
        constructor; [apply fast_move_line | constructor].
      * intros -> _. rewrite orb_false_r in Hc. apply check_in_bounds. exact Hc.
    + rewrite fast_move_rejected by exact Hc. apply shape_unchanged.
  - unfold Stage.fast_move. rewrite Hv. apply shape_unchanged.
Qed.

Lemma shape_move_to_pos (v : list Z) (release_ override : bool) (s : Stage.t) :
  call_shape override s (snd (Stage.move_to_pos v release_ override s)).
Proof.
  unfold Stage.move_to_pos. destruct (as_vec3 v) as [r|]; [| apply shape_unchanged].
  unfold bind at 1, get. apply shape_move_rel.
Qed.

Lemma shape_stage_call (c : StageCall) (s : Stage.t) :
  call_shape (uses_override c) s (snd (stage_call c s)).
Proof.
  destruct c as [v r o | v r o | v r o | z r | | |]; cbn [stage_call uses_override].
  - rewrite snd_then_ret. apply shape_move_rel.
  - rewrite snd_then_ret. apply shape_fast_move.
  - rewrite snd_then_ret. apply shape_move_to_pos.
  - unfold Stage.focus_rel. rewrite snd_then_ret. apply shape_move_rel.
  - unfold Stage.centre_stage. unfold bind at 1, get. rewrite snd_then_ret.
    apply shape_move_rel.
  - rewrite snd_then_ret. unfold Stage.release, bind, ret.
    pose proof (query_sent ("release" ++ LF)%string s) as Hq.
    destruct (Stage._query _ s) as [[a| e | |] s'] eqn:E; cbn [snd] in *; subst s';
      (exists [("release" ++ LF)%string], (Stage._pos s);
       split; [destruct s; reflexivity
              | split; [constructor; [apply release_line | constructor] | auto]]).
  - unfold Stage._reset_pos, modify. cbn [snd].
    exists [], (0, 0, 0). rewrite sent_nil. split; [reflexivity|].
    split; [constructor|]. intros _ _. cbn. lia.
Qed.

Lemma set_pos_sent_twice (l1 l2 : list string) (p1 p2 : Vec3) (s : Stage.t) :
  Stage.set_pos p2 (Stage.sent l2 (Stage.set_pos p1 (Stage.sent l1 s)))
  = Stage.set_pos p2 (Stage.sent (l1 ++ l2) s).
Proof.
  destruct s as [emu q written reply log]. unfold Stage.sent, Stage.set_pos. cbn.
  destruct emu; rewrite <- ?app_assoc; reflexivity.
Qed.

Lemma session_shape (calls : list StageCall) :
  forall s : Stage.t,
    exists (l : list string) (p' : Vec3),
      stage_session calls s = Stage.set_pos p' (Stage.sent l s) /\
      Forall is_command_line l /\
      (Forall (fun c => uses_override c = false) calls ->
       in_bounds (Stage._pos s) -> in_bounds p').
Proof.
  induction calls as [|c rest IH]; intros s; cbn [stage_session].
  - exists [], (Stage._pos s). rewrite sent_nil, set_pos_same.
    split; [reflexivity|]. split; [constructor | auto].
  - destruct (shape_stage_call c s) as (l1 & p1 & -> & Hl1 & Hb1).
    destruct (IH (Stage.set_pos p1 (Stage.sent l1 s))) as (l2 & p2 & -> & Hl2 & Hb2).
    exists (l1 ++ l2), p2. rewrite set_pos_sent_twice.
    split; [reflexivity|]. split; [apply Forall_app; auto|].
    intros Hno Hin. inversion Hno as [|? ? Hc Hrest]; subst.
    apply Hb2; [exact Hrest|]. destruct s; cbn. apply Hb1; assumption.
Qed.



(** X2. Whatever a session of calls does, with or without [override],
    every line it hands to [_query] is one of the three protocol lines:
    "release", "move_rel a b c" or "fast_move a b c", each ended by a line
    feed; the earlier history is only extended. *)
Theorem stage_session_speaks_protocol (calls : list StageCall) (s : Stage.t) :
  exists l : list string,
    Stage.queried (stage_session calls s) = Stage.queried s ++ l /\
    Forall is_command_line l.
Proof.
  destruct (session_shape calls s) as (l & p' & -> & Hl & _).
  exists l. split; [destruct s; reflexivity | exact Hl].
Qed.

(** X3. A stage built by [__init__] without a serial device is emulated
    and no session ever writes to a serial port; built with a device, all
    that is handed to [_query], and nothing else, is written to the port,
    in the same order. *)
Theorem stage_session_serial_mirror (port : option (string * (nat -> string)))
        (calls : list StageCall) :
  Stage.ser_written (stage_session calls (fst (Stage.__init__ port)))
  = match port with
    | None => []
    | Some _ => Stage.queried (stage_session calls (fst (Stage.__init__ port)))
    end.
Proof.
  destruct (session_shape calls (fst (Stage.__init__ port))) as (l & p' & -> & _ & _).
  destruct port as [[startup replies]|]; reflexivity.
Qed.

(** X4. [fast_move] and [move_rel] accept exactly the same vectors and
    leave the same tracked position, and they hand the same number of lines
    to [_query]: the two differ only in the command they send. *)
Theorem fast_move_tracks_like_move_rel (vector : list Z) (release_ override : bool)
        (s : Stage.t) :
  Stage._pos (snd (Stage.fast_move vector release_ override s))
  = Stage._pos (snd (Stage.move_rel vector release_ override s)) /\
  length (Stage.queried (snd (Stage.fast_move vector release_ override s)))
  = length (Stage.queried (snd (Stage.move_rel vector release_ override s))).
Proof.
  destruct (as_vec3 vector) as [[[x y] z]|] eqn:Hv.
  - apply as_vec3_inv in Hv as ->. cbn [vec_list].
    destruct (vec_all_le (vec_abs (vec_add (Stage._pos s) (x, y, z))) Stage._XYZ_BOUND
              || override) eqn:Hc.
    + rewrite fast_move_accepted, move_rel_accepted by exact Hc.
      destruct s as [emu p written reply log], release_; cbn;
        rewrite !length_app; split; reflexivity.
    + rewrite fast_move_rejected, move_rel_refused by exact Hc. split; reflexivity.
  - unfold Stage.fast_move, Stage.move_rel. rewrite Hv. split; reflexivity.
Qed.

(** X5. An accepted [fast_move] commands whole steps (sx, sy, sz), sent
    remapped as (-sz, -sx, -sy), that never exceed the request and fall
    short of it by less than one step: 16*s <= r < 16*s + 16 on each axis.
    The tracked position advances by the full request, so after the call it
    is ahead of the commanded motion by 0 to 15 microsteps per axis. *)
Theorem fast_move_whole_steps (s : Stage.t) (x y z : Z) (release_ override : bool) :
  vec_all_le (vec_abs (vec_add (Stage._pos s) (x, y, z))) Stage._XYZ_BOUND || override = true ->
  exists sx sy sz : Z,
    Stage.queried (snd (Stage.fast_move [x; y; z] release_ override s))
    = Stage.queried s ++ fmt_ddd "fast_move" (- sz, - sx, - sy)
                      :: (if release_ then ["release" ++ LF]%string else []) /\
    Stage._pos (snd (Stage.fast_move [x; y; z] release_ override s))
    = vec_add (Stage._pos s) (x, y, z) /\
    (16 * sx <= x < 16 * sx + 16) /\
    (16 * sy <= y < 16 * sy + 16) /\
    (16 * sz <= z < 16 * sz + 16).
Proof.
  intros Hc. exists (x / 16), (y / 16), (z / 16).
  rewrite fast_move_accepted by exact Hc.
  split; [| split; [| repeat split; Z.to_euclidean_division_equations; lia]].
  - destruct s as [emu p written reply log], release_; cbn;
      rewrite <- ?app_assoc, ?app_nil_r; reflexivity.
  - destruct s as [emu p written reply log], release_; reflexivity.
Qed.

Lemma fast_move_whole_steps_witness :
  exists sx sy sz : Z,
    Stage.queried (snd (Stage.fast_move [-40; 40; 48] false false (stage_at true (0, 0, 0))))
    = [] ++ [fmt_ddd "fast_move" (- sz, - sx, - sy)] /\
    Stage._pos (snd (Stage.fast_move [-40; 40; 48] false false (stage_at true (0, 0, 0))))
    = (-40, 40, 48) /\
    (16 * sx <= -40 < 16 * sx + 16) /\
    (16 * sy <= 40 < 16 * sy + 16) /\
    (16 * sz <= 48 < 16 * sz + 16).
Proof.
  apply (fast_move_whole_steps (stage_at true (0, 0, 0)) (-40) 40 48 false false).
  reflexivity.
Defined.

(** X6. From a position within the bounds, a move by v that is accepted
    and the move by -v after it bring the tracked position back where it
    was. If the move by v is refused (silently) while the move by -v is
    acceptable, the pair ends at pos - v instead. *)
Theorem move_rel_there_and_back (s : Stage.t) (x y z : Z) (r1 r2 : bool) :
  in_bounds (Stage._pos s) ->
  (in_bounds (vec_add (Stage._pos s) (x, y, z)) ->
   Stage._pos (snd (Stage.move_rel [- x; - y; - z] r2 false
                      (snd (Stage.move_rel [x; y; z] r1 false s))))
   = Stage._pos s) /\
  (~ in_bounds (vec_add (Stage._pos s) (x, y, z)) ->
   in_bounds (vec_add (Stage._pos s) (- x, - y, - z)) ->
   Stage._pos (snd (Stage.move_rel [- x; - y; - z] r2 false
                      (snd (Stage.move_rel [x; y; z] r1 false s))))
   = vec_add (Stage._pos s) (- x, - y, - z)).
Proof.
  intros Hin. split.
  - intros Hv. rewrite (move_rel_accepted s x y z r1 false)
      by (rewrite orb_false_r; apply check_in_bounds; exact Hv).
    destruct s as [emu [[p0 p1] p2] written reply log]. cbn [snd Stage._pos] in *.
    assert (Hback : vec_add (vec_add (p0, p1, p2) (x, y, z)) (- x, - y, - z) = (p0, p1, p2)).
    { cbn [vec_add]. repeat f_equal; lia. }
    rewrite move_rel_accepted.
    + destruct r1, r2; cbn [snd Stage._pos Stage.sent Stage.set_pos]; exact Hback.
    + rewrite orb_false_r. apply check_in_bounds.
      destruct r1; cbn [Stage._pos Stage.sent Stage.set_pos]; rewrite Hback; exact Hin.
  - intros Hv Hback. rewrite (move_rel_rejected s x y z r1).
    + cbn [snd]. rewrite move_rel_accepted
        by (rewrite orb_false_r; apply check_in_bounds; exact Hback).
      destruct s, r2; reflexivity.
    + apply not_true_iff_false. rewrite check_in_bounds. exact Hv.
Qed.

Lemma move_rel_there_and_back_witness :
  (in_bounds (vec_add (4000, 0, 0) (900, 0, 0)) ->
   Stage._pos (snd (Stage.move_rel [- 900; - 0; - 0] true false
                      (snd (Stage.move_rel [900; 0; 0] true false
                              (stage_at true (4000, 0, 0))))))
   = (4000, 0, 0)) /\
  (~ in_bounds (vec_add (4000, 0, 0) (900, 0, 0)) ->
   in_bounds (vec_add (4000, 0, 0) (- 900, - 0, - 0)) ->
   Stage._pos (snd (Stage.move_rel [- 900; - 0; - 0] true false
                      (snd (Stage.move_rel [900; 0; 0] true false
                              (stage_at true (4000, 0, 0))))))
   = vec_add (4000, 0, 0) (- 900, - 0, - 0)).
Proof.
  apply (move_rel_there_and_back (stage_at true (4000, 0, 0)) 900 0 0 true true).
  cbn. lia.
Defined.






Lemma strip_crlf_line (line : string) :
  has_cr line = false -> strip_crlf (line ++ CRLF) = line.
Proof.
  induction line as [|c rest IH]; intros Hcr.
  - reflexivity.
  - change (strip_crlf (String c (rest ++ CRLF)) = String c rest).
    assert (Hc : c <> "013"%char).
    { intros ->. cbn in Hcr. discriminate. }
    assert (Hrest : has_cr rest = false).
    { revert Hcr. cbn [has_cr].
      destruct c as [[] [] [] [] [] [] [] []]; auto; discriminate. }
    assert (Hstep : strip_crlf (String c (rest ++ CRLF))
                    = String c (strip_crlf (rest ++ CRLF))).
    { cbn [strip_crlf].
      destruct c as [[] [] [] [] [] [] [] []]; try reflexivity. contradiction Hc. reflexivity. }
    rewrite Hstep, IH by exact Hrest. reflexivity.
Qed.

(** X9. [_query] hands back the Arduino's answer without its line ending:
    when the device answers a line (free of carriage returns) followed by
    CR LF, the call returns that line, and the command has been written to
    the port; an emulated stage answers "emulated" and writes nothing. *)
Theorem query_returns_clean_line (s : Stage.t) (command line : string) :
  has_cr line = false ->
  Stage.ser_reply s (length (Stage.ser_written s)) = (line ++ CRLF)%string ->
  Stage._query command s
  = (Returned (if Stage._emulate s then "emulated" else line),
     Stage.sent [command] s).
Proof.
  intros Hcr Hreply. unfold Stage._query, Stage.sent.
  destruct (Stage._emulate s); cbn [negb].
  - reflexivity.
  - rewrite Hreply, strip_crlf_line by exact Hcr. reflexivity.
Qed.

Lemma query_returns_clean_line_witness :
  Stage._query ("release" ++ LF)%string (stage_at false (0, 0, 0))
  = (Returned (if Stage._emulate (stage_at false (0, 0, 0)) then "emulated" else "done"),
     Stage.sent [("release" ++ LF)%string] (stage_at false (0, 0, 0))).
Proof.
  apply (query_returns_clean_line (stage_at false (0, 0, 0)) ("release" ++ LF)%string "done").
  - reflexivity.
  - reflexivity.
Defined.

(** * Properties of the data file *)

Lemma uint_of_zeros (k : nat) (s : string) (d : Decimal.uint) :
  NilEmpty.uint_of_string s = Some d ->
  exists d', NilEmpty.uint_of_string (zeros k ++ s) = Some d' /\ Nat.of_uint d' = Nat.of_uint d.
Proof.
  intros Hs. induction k as [|k (d' & Hd' & Hv)].
  - exists d. split; [exact Hs | reflexivity].
  - exists (Decimal.D0 d').
    change (zeros (S k) ++ s)%string with (String "0" (zeros k ++ s)%string).
    cbn [NilEmpty.uint_of_string]. rewrite Hd'. split; [reflexivity | exact Hv].
Qed.

Lemma digits_value_fmt_0d (width n : nat) : digits_value (fmt_0d width n) = Some n.
Proof.
  unfold digits_value, fmt_0d.
  destruct (uint_of_zeros (width - String.length (NilEmpty.string_of_uint (Nat.to_uint n)))
              _ _ (NilEmpty.usu (Nat.to_uint n))) as (d' & -> & Hv).
  cbn. rewrite Hv, Unsigned.of_to. reflexivity.
Qed.

Lemma fmt_0d_inj (width n m : nat) : fmt_0d width n = fmt_0d width m -> n = m.
Proof.
  intros H. apply (f_equal digits_value) in H.
  rewrite !digits_value_fmt_0d in H. congruence.
Qed.

Lemma append_cancel (base a b : string) : (base ++ a = base ++ b)%string -> a = b.
Proof.
  induction base as [|c base IH]; intros H; [exact H|].
  change (String c (base ++ a)%string = String c (base ++ b)%string) in H.
  injection H as H. exact (IH H).
Qed.

Lemma member_name_inj (base : string) (width n m : nat) :
  (base ++ fmt_0d width n = base ++ fmt_0d width m)%string -> n = m.
Proof. intros H. apply (fmt_0d_inj width). exact (append_cancel _ _ _ H). Qed.

Lemma first_free_some (taken : string -> bool) (base : string) (width : nat) :
  forall (fuel n k : nat),
    first_free fuel taken base width n = Some k ->
    (n <= k)%nat /\
    taken (base ++ fmt_0d width k)%string = false /\
    forall i, (n <= i < k)%nat -> taken (base ++ fmt_0d width i)%string = true.
Proof.
  induction fuel as [|fuel IH]; intros n k; cbn [first_free]; [discriminate|].
  destruct (taken (base ++ fmt_0d width n)%string) eqn:Hn.
  - intros H. apply IH in H as (Hle & Hk & Hbelow).
    split; [lia|]. split; [exact Hk|].
    intros i Hi. destruct (decide (i = n)) as [->|Hne]; [exact Hn | apply Hbelow; lia].
  - intros H; injection H as <-. split; [lia|]. split; [exact Hn|]. intros i Hi; lia.
Qed.

Lemma first_free_none (taken : string -> bool) (base : string) (width : nat) :
  forall (fuel n : nat),
    first_free fuel taken base width n = None ->
    forall i, (n <= i < n + fuel)%nat -> taken (base ++ fmt_0d width i)%string = true.
Proof.
  induction fuel as [|fuel IH]; intros n; cbn [first_free]; [intros _ i Hi; lia|].
  destruct (taken (base ++ fmt_0d width n)%string) eqn:Hn; [| discriminate].
  intros H i Hi. destruct (decide (i = n)) as [->|Hne]; [exact Hn|].
  apply (IH (S n) H). lia.
Qed.

(** The loop ends within [size m + 1] tests: the names tried are pairwise
    different, so they cannot all be among the [size m] members. *)
Lemma first_free_finds {V} (m : gmap string V) (base : string) (width : nat) :
  exists k, first_free (S (size m)) (Datafile.member_of m) base width 0 = Some k.
Proof.
  destruct (first_free (S (size m)) (Datafile.member_of m) base width 0) as [k|] eqn:E;
    [exists k; reflexivity | exfalso].
  pose proof (first_free_none _ _ _ _ _ E) as Htaken.
  set (names := (fun i => (base ++ fmt_0d width i)%string) <$> seq 0 (S (size m))).
  assert (Hnodup : NoDup names).
  { apply NoDup_fmap_2; [| apply NoDup_seq].
    intros i j Hij. exact (member_name_inj _ _ _ _ Hij). }
  assert (Hsub : (list_to_set names : gset string) ⊆ dom m).
  { intros name Hname. apply elem_of_list_to_set in Hname.
    apply list_elem_of_fmap in Hname as (i & -> & Hi). apply elem_of_seq in Hi.
    apply elem_of_dom. specialize (Htaken i ltac:(lia)).
    unfold Datafile.member_of in Htaken.
    destruct (m !! (base ++ fmt_0d width i)%string); [eauto | discriminate]. }
  apply subseteq_size in Hsub.
  rewrite size_list_to_set in Hsub by exact Hnodup.
  rewrite size_dom in Hsub. unfold names in Hsub.
  rewrite length_fmap, length_seq in Hsub. lia.
Qed.

(** X10. The suffix written by ["%0<width>d"] can be read back: padded
    with zeros or longer than the width, its digits give the counter again.
    So, for one base name, different counters give different member names. *)
Theorem member_names_distinct (base : string) (width n m : nat) :
  digits_value (fmt_0d width n) = Some n /\
  ((base ++ fmt_0d width n = base ++ fmt_0d width m)%string <-> n = m).
Proof.
  split; [apply digits_value_fmt_0d|]. split.
  - apply member_name_inj.
  - intros ->. reflexivity.
Qed.

Section DatafileFacts.
Variable Data : Type.
Variable now : nat -> string.

Lemma new_group_on_open_file (self : Datafile.t) (st : Datafile.Store Data)
        (f : string) (file : gmap string (Datafile.Group Data))
        (group : string) (description : option string) :
  Datafile._datafile self = Some f ->
  Datafile.files st !! f = Some file ->
  exists n : nat,
    Datafile.new_group now group description self st
    = (Datafile.Done (f, (group ++ fmt_0d 3 n)%string),
       (self,
        Datafile.mkStore
          (<[f := <[(group ++ fmt_0d 3 n)%string :=
                      Datafile.mkGroup
                        (Datafile.with_description description
                           {[ "timestamp" := now (Datafile.ticks st) ]}) ∅]> file]>
             (Datafile.files st))
          (S (Datafile.ticks st)))) /\
    file !! (group ++ fmt_0d 3 n)%string = None /\
    (forall i, (i < n)%nat -> is_Some (file !! (group ++ fmt_0d 3 i)%string)).
Proof.
  intros Hopen Hfile. unfold Datafile.new_group. rewrite Hopen, Hfile.
  destruct (first_free_finds file group 3) as [n Hn]. rewrite Hn.
  apply first_free_some in Hn as (_ & Hfree & Hbelow).
  unfold Datafile.member_of in Hfree, Hbelow.
  exists n. destruct (file !! (group ++ fmt_0d 3 n)%string) eqn:E; [discriminate|].
  split; [reflexivity|]. split; [reflexivity|].
  intros i Hi. specialize (Hbelow i ltac:(lia)).
  destruct (file !! (group ++ fmt_0d 3 i)%string); [eauto | discriminate].
Qed.

(** X11. On an open file, [new_group] returns: it creates the group
    named base + counter for the smallest counter whose name is not yet a
    member, so it never meets an existing name and every member that was
    there stays as it was; the new group carries the timestamp (and the
    description when one is given) and has no members. *)
Theorem new_group_takes_first_free (self : Datafile.t) (st : Datafile.Store Data)
        (f : string) (file : gmap string (Datafile.Group Data))
        (group : string) (description : option string) :
  Datafile._datafile self = Some f ->
  Datafile.files st !! f = Some file ->
  exists n : nat,
    Datafile.new_group now group description self st
    = (Datafile.Done (f, (group ++ fmt_0d 3 n)%string),
       (self,
        Datafile.mkStore
          (<[f := <[(group ++ fmt_0d 3 n)%string :=
                      Datafile.mkGroup
                        (Datafile.with_description description
                           {[ "timestamp" := now (Datafile.ticks st) ]}) ∅]> file]>
             (Datafile.files st))
          (S (Datafile.ticks st)))) /\
    file !! (group ++ fmt_0d 3 n)%string = None /\
    (forall i, (i < n)%nat -> is_Some (file !! (group ++ fmt_0d 3 i)%string)).
Proof. apply new_group_on_open_file. Qed.

(** X12. Groups of one base name are numbered in the order of their
    creation: when the members named base + counter are exactly those with
    counter below k, [new_group] creates the one with counter k, and the
    same then holds of the new file with k + 1. *)
Theorem new_group_numbers_in_order (self : Datafile.t) (st : Datafile.Store Data)
        (f : string) (file : gmap string (Datafile.Group Data))
        (group : string) (description : option string) (k : nat) :
  Datafile._datafile self = Some f ->
  Datafile.files st !! f = Some file ->
  (forall i, is_Some (file !! (group ++ fmt_0d 3 i)%string) <-> (i < k)%nat) ->
  exists file',
    fst (Datafile.new_group now group description self st)
    = Datafile.Done (f, (group ++ fmt_0d 3 k)%string) /\
    Datafile.files (snd (snd (Datafile.new_group now group description self st))) !! f
    = Some file' /\
    (forall i, is_Some (file' !! (group ++ fmt_0d 3 i)%string) <-> (i < S k)%nat).
Proof.
  intros Hopen Hfile Hexact.
  destruct (new_group_on_open_file self st f file group description Hopen Hfile)
    as (n & -> & Hfree & Hbelow).
  assert (n = k) as ->.
  { destruct (Nat.lt_trichotomy n k) as [Hlt | [-> | Hgt]]; [| reflexivity |].
    - apply Hexact in Hlt. rewrite Hfree in Hlt. destruct Hlt; discriminate.
    - apply Hbelow, Hexact in Hgt. lia. }
  eexists. cbn [fst snd Datafile.files]. split; [reflexivity|].
  split; [apply lookup_insert_eq|].
  intros i. destruct (decide (i = k)) as [->|Hne].
  - rewrite lookup_insert_eq. split; [lia | eauto].
  - rewrite lookup_insert_ne
      by (intros Heq; apply Hne; symmetry; exact (member_name_inj _ _ _ _ Heq)).
    rewrite Hexact. lia.
Qed.

Lemma add_data_on_group (self : Datafile.t) (st : Datafile.Store Data)
      (f grouppath : string) (file : gmap string (Datafile.Group Data))
      (g : Datafile.Group Data) (indata : Data) (dataset : string)
      (description : option string) :
  Datafile.files st !! f = Some file ->
  file !! grouppath = Some g ->
  exists n : nat,
    Datafile.add_data now indata (f, grouppath) dataset description self st
    = (match Datafile._datafile self with
       | Some _ => Datafile.Done tt
       | None => Datafile.Failed Datafile.AttributeError
       end,
       (self,
        Datafile.mkStore
          (<[f := <[grouppath :=
                      Datafile.mkGroup (Datafile.g_attrs g)
                        (<[(dataset ++ fmt_0d 5 n)%string :=
                             Datafile.mkDataset indata
                               (Datafile.with_description description
                                  {[ "timestamp" := now (Datafile.ticks st) ]})]>
                           (Datafile.g_members g))]> file]>
             (Datafile.files st))
          (S (Datafile.ticks st)))) /\
    Datafile.g_members g !! (dataset ++ fmt_0d 5 n)%string = None /\
    (forall i, (i < n)%nat ->
               is_Some (Datafile.g_members g !! (dataset ++ fmt_0d 5 i)%string)).
Proof.
  intros Hfile Hgroup. unfold Datafile.add_data. rewrite Hfile, Hgroup.
  destruct (first_free_finds (Datafile.g_members g) dataset 5) as [n Hn]. rewrite Hn.
  apply first_free_some in Hn as (_ & Hfree & Hbelow).
  unfold Datafile.member_of in Hfree, Hbelow.
  exists n.
  destruct (Datafile.g_members g !! (dataset ++ fmt_0d 5 n)%string) eqn:E; [discriminate|].
  split; [destruct (Datafile._datafile self); reflexivity|]. split; [reflexivity|].
  intros i Hi. specialize (Hbelow i ltac:(lia)).
  destruct (Datafile.g_members g !! (dataset ++ fmt_0d 5 i)%string); [eauto | discriminate].
Qed.

(** X13. A [Datafile] made without a file name touches no file; its
    first [new_group] opens the file named after the date, creating it
    empty if it is not there, leaves every other file alone and creates the
    group in it. Made with a file name, the file is opened at once, and a
    file that exists keeps its contents. *)
Theorem datafile_opens_lazily (today : string) (st : Datafile.Store Data)
        (group : string) (description : option string) :
  let default := (Datafile._DEFAULT_FILE ++ "_" ++ today ++ ".hdf5")%string in
  let self := fst (Datafile.__init__ today None st) in
  snd (Datafile.__init__ today None st) = st /\
  Datafile._datafile self = None /\
  (exists (n : nat) (file : gmap string (Datafile.Group Data)),
      Datafile.files (Datafile.h5_open default st) !! default = Some file /\
      (Datafile.files st !! default = None -> file = ∅ /\ n = 0%nat) /\
      fst (Datafile.new_group now group description self st)
      = Datafile.Done (default, (group ++ fmt_0d 3 n)%string) /\
      Datafile._datafile (fst (snd (Datafile.new_group now group description self st)))
      = Some default /\
      forall f, f <> default ->
                Datafile.files (snd (snd (Datafile.new_group now group description self st)))
                  !! f
                = Datafile.files st !! f) /\
  (forall f, Datafile._datafile (fst (Datafile.__init__ today (Some f) st)) = Some f /\
             is_Some (Datafile.files (snd (Datafile.__init__ today (Some f) st)) !! f) /\
             forall file, Datafile.files st !! f = Some file ->
                          snd (Datafile.__init__ today (Some f) st) = st).
Proof.
  intros default self. split; [reflexivity|]. split; [reflexivity|]. split.
  - assert (Hopen : exists file,
               Datafile.files (Datafile.h5_open default st) !! default = Some file /\
               (Datafile.files st !! default = None -> file = ∅) /\
               forall f, f <> default ->
                         Datafile.files (Datafile.h5_open default st) !! f
                         = Datafile.files st !! f).
    { unfold Datafile.h5_open.
      destruct (Datafile.files st !! default) as [file|] eqn:E.
      - exists file. split; [exact E|]. split; [discriminate | reflexivity].
      - exists ∅. cbn [Datafile.files]. split; [apply lookup_insert_eq|].
        split; [reflexivity|]. intros f Hf. apply lookup_insert_ne. congruence. }
    destruct Hopen as (file & Hfile & Hnew & Hother).
    destruct (new_group_on_open_file
                (Datafile.mk today (Some default) (Some default))
                (Datafile.h5_open default st) default file group description
                eq_refl Hfile) as (n & Hrun & Hfree & Hbelow).
    assert (Hlazy : Datafile.new_group now group description self st
                    = Datafile.new_group now group description
                        (Datafile.mk today (Some default) (Some default))
                        (Datafile.h5_open default st)).
    { reflexivity. }
    exists n, file. rewrite Hlazy, Hrun. cbn [fst snd Datafile.files Datafile._datafile].
    split; [exact Hfile|]. split.
    + intros Hnone. split; [exact (Hnew Hnone)|].
      destruct n as [|n]; [reflexivity | exfalso].
      rewrite (Hnew Hnone) in Hbelow. destruct (Hbelow 0%nat ltac:(lia)) as [g Hg].
      rewrite lookup_empty in Hg. discriminate.
    + split; [reflexivity|]. split; [reflexivity|].
      intros f Hf. rewrite lookup_insert_ne by congruence. apply Hother, Hf.
  - intros f. cbn [Datafile.__init__ fst snd Datafile._datafile].
    unfold Datafile.h5_open. split; [reflexivity|].
    destruct (Datafile.files st !! f) as [file|] eqn:E.
    + split; [rewrite E; eauto|]. intros; reflexivity.
    + cbn [Datafile.files]. split; [rewrite lookup_insert_eq; eauto|]. intros; discriminate.
Qed.

(** X14. [add_data] stores the array under dataset + counter for the
    smallest counter not yet used in the group, beside the datasets that
    were there, with its timestamp (and description). The call then
    flushes [self._datafile]: on a [Datafile] that has not opened its file
    the dataset is created all the same and the call ends in
    [AttributeError]. *)
Theorem add_data_takes_first_free (self : Datafile.t) (st : Datafile.Store Data)
        (f grouppath : string) (file : gmap string (Datafile.Group Data))
        (g : Datafile.Group Data) (indata : Data) (dataset : string)
        (description : option string) :
  Datafile.files st !! f = Some file ->
  file !! grouppath = Some g ->
  exists n : nat,
    Datafile.add_data now indata (f, grouppath) dataset description self st
    = (match Datafile._datafile self with
       | Some _ => Datafile.Done tt
       | None => Datafile.Failed Datafile.AttributeError
       end,
       (self,
        Datafile.mkStore
          (<[f := <[grouppath :=
                      Datafile.mkGroup (Datafile.g_attrs g)
                        (<[(dataset ++ fmt_0d 5 n)%string :=
                             Datafile.mkDataset indata
                               (Datafile.with_description description
                                  {[ "timestamp" := now (Datafile.ticks st) ]})]>
                           (Datafile.g_members g))]> file]>
             (Datafile.files st))
          (S (Datafile.ticks st)))) /\
    Datafile.g_members g !! (dataset ++ fmt_0d 5 n)%string = None /\
    (forall i, (i < n)%nat ->
               is_Some (Datafile.g_members g !! (dataset ++ fmt_0d 5 i)%string)).
Proof. apply add_data_on_group. Qed.

End DatafileFacts.

(** The file of [scans_store] holds the groups "scan000" and "scan001"
    and no other member. *)
Lemma two_scans_names (i : nat) :
  is_Some (two_scans !! ("scan" ++ fmt_0d 3 i)%string) <-> (i < 2)%nat.
Proof.
  split.
  - intros [g Hg]. unfold two_scans in Hg.
    apply lookup_insert_Some in Hg as [[Heq _] | [_ Hg]].
    + change "scan000"%string with ("scan" ++ fmt_0d 3 0)%string in Heq.
      apply member_name_inj in Heq. lia.
    + apply lookup_singleton_Some in Hg as [Heq _].
      change "scan001"%string with ("scan" ++ fmt_0d 3 1)%string in Heq.
      apply member_name_inj in Heq. lia.
  - intros Hi. assert (i = 0 \/ i = 1)%nat as [-> | ->] by lia; vm_compute; eauto.
Qed.

Lemma new_group_takes_first_free_witness :
  exists n : nat,
    fst (Datafile.new_group tick_clock "scan" (Some "first scan")
           (Datafile.mk "20150619" None (Some "run.hdf5")) scans_store)
    = Datafile.Done ("run.hdf5"%string, ("scan" ++ fmt_0d 3 n)%string) /\
    two_scans !! ("scan" ++ fmt_0d 3 n)%string = None.
Proof.
  destruct (new_group_takes_first_free (list Z) tick_clock
              (Datafile.mk "20150619" None (Some "run.hdf5")) scans_store
              "run.hdf5" two_scans "scan" (Some "first scan")
              eq_refl eq_refl) as (n & Hrun & Hfree & _).
  exists n. rewrite Hrun. split; [reflexivity | exact Hfree].
Defined.

Lemma new_group_numbers_in_order_witness :
  exists file',
    fst (Datafile.new_group tick_clock "scan" None
           (Datafile.mk "20150619" None (Some "run.hdf5")) scans_store)
    = Datafile.Done ("run.hdf5"%string, "scan002"%string) /\
    Datafile.files
      (snd (snd (Datafile.new_group tick_clock "scan" None
                   (Datafile.mk "20150619" None (Some "run.hdf5")) scans_store)))
      !! "run.hdf5"%string
    = Some file' /\
    (forall i, is_Some (file' !! ("scan" ++ fmt_0d 3 i)%string) <-> (i < 3)%nat).
Proof.
  exact (new_group_numbers_in_order (list Z) tick_clock
           (Datafile.mk "20150619" None (Some "run.hdf5")) scans_store
           "run.hdf5" two_scans "scan" None 2 eq_refl eq_refl two_scans_names).
Defined.

Lemma add_data_takes_first_free_witness :
  exists n : nat,
    fst (Datafile.add_data tick_clock [3; 4] ("run.hdf5"%string, "scan000"%string) "pos" None
           (Datafile.mk "20150619" (Some "microscope_datafile_20150619.hdf5") None)
           scans_store)
    = Datafile.Failed Datafile.AttributeError /\
    exists file g,
      Datafile.files
        (snd (snd (Datafile.add_data tick_clock [3; 4]
                     ("run.hdf5"%string, "scan000"%string) "pos" None
                     (Datafile.mk "20150619" (Some "microscope_datafile_20150619.hdf5") None)
                     scans_store)))
        !! "run.hdf5"%string = Some file /\
      file !! "scan000"%string = Some g /\
      Datafile.g_members g !! ("pos" ++ fmt_0d 5 n)%string
      = Some (Datafile.mkDataset [3; 4] {[ "timestamp" := tick_clock 7 ]}).
Proof.
  destruct (add_data_takes_first_free (list Z) tick_clock
              (Datafile.mk "20150619" (Some "microscope_datafile_20150619.hdf5") None)
              scans_store "run.hdf5" "scan000" two_scans
              (Datafile.mkGroup ∅ {[ "pos00000" := Datafile.mkDataset [1; 2] ∅ ]})
              [3; 4] "pos" None eq_refl eq_refl) as (n & Hrun & _ & _).
  exists n. rewrite Hrun. cbn [fst snd Datafile.files Datafile._datafile].
  split; [reflexivity|]. eexists _, _.
  split; [apply lookup_insert_eq|]. split; [apply lookup_insert_eq|].
  cbn [Datafile.g_members]. apply lookup_insert_eq.
Defined.

(** * Further properties of the microscope *)

Lemma track_app (p : Vec3) (l1 l2 : list Vec3) :
  track p (l1 ++ l2) = track (track p l1) l2.
Proof. revert p. induction l1 as [|v l1 IH]; intros p; cbn; [reflexivity | apply IH]. Qed.

Lemma track_lines_app (p : Vec3) (l1 l2 : list Vec3) :
  track_lines p (l1 ++ l2) = track_lines p l1 ++ track_lines (track p l1) l2.
Proof.
  revert p. induction l1 as [|v l1 IH]; intros p; cbn; [reflexivity|].
  destruct (accepts p v); cbn; rewrite IH; reflexivity.
Qed.

Lemma track_z (p : Vec3) (moves : list Vec3) :
  Forall (fun v => z_of v = 0) moves -> z_of (track p moves) = z_of p.
Proof.
  revert p. induction moves as [|v rest IH]; intros p Hz; [reflexivity|].
  inversion Hz as [|? ? Hv Hrest]; subst. cbn [track]. rewrite IH by exact Hrest.
  destruct (accepts p v); [| reflexivity].
  destruct p as [[p0 p1] p2], v as [[x y] z]. unfold z_of in *. cbn in *. lia.
Qed.

Lemma track_in_bounds (p : Vec3) (moves : list Vec3) :
  in_bounds p -> in_bounds (track p moves).
Proof.
  revert p. induction moves as [|v rest IH]; intros p Hin; [exact Hin|].
  cbn [track]. apply IH. destruct (accepts p v) eqn:E; [| exact Hin].
  apply check_in_bounds. exact E.
Qed.

Lemma track_lines_planar (p : Vec3) (moves : list Vec3) :
  Forall (fun v => z_of v = 0) moves -> Forall is_planar_move_line (track_lines p moves).
Proof.
  revert p. induction moves as [|v rest IH]; intros p Hz; [constructor|].
  inversion Hz as [|? ? Hv Hrest]; subst. cbn [track_lines].
  destruct (accepts p v); [| apply IH, Hrest].
  constructor; [| apply IH, Hrest].
  destruct v as [[x y] z]. unfold z_of in Hv. cbn in Hv. subst z.
  exists (- x), (- y). reflexivity.
Qed.

Lemma move_rel_replayed (s : Stage.t) (v : Vec3) :
  Stage.move_rel (vec_list v) false false s
  = (Returned None,
     Stage.set_pos (track (Stage._pos s) [v]) (Stage.sent (track_lines (Stage._pos s) [v]) s)).
Proof.
  destruct v as [[x y] z]. cbn [vec_list track track_lines]. unfold accepts.
  destruct (vec_all_le (vec_abs (vec_add (Stage._pos s) (x, y, z))) Stage._XYZ_BOUND) eqn:E.
  - rewrite move_rel_accepted by (rewrite E; reflexivity). rewrite sent_nil. reflexivity.
  - rewrite move_rel_rejected by exact E. rewrite sent_nil, set_pos_same. reflexivity.
Qed.

Lemma replay_cons (s : Stage.t) (v : Vec3) (rest : list Vec3) :
  let s1 := Stage.set_pos (track (Stage._pos s) [v])
              (Stage.sent (track_lines (Stage._pos s) [v]) s) in
  Stage.set_pos (track (Stage._pos s1) rest) (Stage.sent (track_lines (Stage._pos s1) rest) s1)
  = Stage.set_pos (track (Stage._pos s) (v :: rest))
      (Stage.sent (track_lines (Stage._pos s) (v :: rest)) s).
Proof.
  cbv zeta. rewrite set_pos_sent_twice.
  change (v :: rest) with ([v] ++ rest). rewrite track_app, track_lines_app.
  destruct s; reflexivity.
Qed.

Lemma advance_next {Image} (n : nat) (c : Camera Image) :
  advance n (next_shot c) = advance (S n) c.
Proof. unfold advance, next_shot. cbn. f_equal. lia. Qed.

Section ServoStage.
Variable rnd : Q -> Q.
Variable fsqrt : Q -> Q.
Variable Image : Type.

Lemma on_stage_move_rel_replayed (m : Microscope Image) (v : Vec3) :
  on_stage (Stage.move_rel (vec_list v) false false) m
  = (Returned None,
     mkMicroscope (camera m)
       (Stage.set_pos (track (Stage._pos (stage m)) [v])
          (Stage.sent (track_lines (Stage._pos (stage m)) [v]) (stage m)))).
Proof. unfold on_stage, zoom. rewrite move_rel_replayed. reflexivity. Qed.

(** The loop of [centre_on_template], seen from the stage: whatever the
    outcome, the stage is the one it started with after a replay of the
    moves the loop requested, all of them in the plane. *)
Lemma servo_loop_replay (template : Image) (tolerance : Q) (max_iterations : Z) :
  forall (fuel : nat) (l : ServoLocals) (m m' : Microscope Image) (o : Outcome ServoLocals),
    servo_loop rnd fsqrt fuel template tolerance max_iterations l m = (o, m') ->
    exists extra : list Vec3,
      stage m' = Stage.set_pos (track (Stage._pos (stage m)) extra)
                   (Stage.sent (track_lines (Stage._pos (stage m)) extra) (stage m)) /\
      Forall (fun v => z_of v = 0) extra /\
      match o with
      | Returned l' =>
          stage_moves l' = stage_moves l ++ extra /\
          camera m' = advance (length extra) (camera m)
      | _ => True
      end.
Proof.
  induction fuel as [|fuel IH]; intros l m m' o.
  - cbn. intros H; injection H as <- <-. exists []. cbn [track track_lines].
    rewrite sent_nil, set_pos_same. split; [reflexivity|]. split; [constructor | exact I].
  - cbn [servo_loop].
    destruct (fgt _ tolerance && (iteration l <? max_iterations)).
    + set (v := (ftrunc (fst (dot2 rnd (camera_move l) (_CAMERA_TO_STAGE_MATRIX rnd))),
                 ftrunc (snd (dot2 rnd (camera_move l) (_CAMERA_TO_STAGE_MATRIX rnd))),
                 ftrunc 0)).
      assert (Hv : z_of v = 0) by reflexivity.
      unfold bind at 1. rewrite (on_stage_move_rel_replayed m v).
      unfold bind at 1.
      match goal with
      | |- context [_camera_centre_move rnd template ?m1] =>
          destruct (_camera_centre_move rnd template m1) as [o2 m2] eqn:Hcam
      end.
      apply camera_centre_move_inv in Hcam as [-> Ho2]. cbn [camera stage] in *.
      destruct o2 as [[cm pos]| e | |]; try contradiction.
      * intros Hrec. apply IH in Hrec as (extra & Hstage & Hz & Ho).
        cbn [camera stage] in Hstage, Ho. exists (v :: extra).
        split; [rewrite Hstage; apply (replay_cons (stage m) v extra)|].
        split; [constructor; assumption|].
        destruct o as [l'| | |]; auto.
        destruct Ho as [Hsm Hcamera]. cbn [stage_moves] in Hsm.
        rewrite Hsm, <- app_assoc. split; [reflexivity|].
        rewrite Hcamera. apply advance_next.
      * intros H; injection H as <- <-. exists [v]. cbn [stage].
        split; [reflexivity|]. split; [repeat constructor; exact Hv | exact I].
    + intros H; injection H as <- <-. exists []. cbn [track track_lines length].
      rewrite sent_nil, set_pos_same, app_nil_r.
      split; [reflexivity|]. split; [constructor|].
      split; [reflexivity|]. destruct (camera m); reflexivity.
Qed.

(** The first measurement and the loop, run on the object [self]. *)
Lemma centre_on_template_servo (w w1 : World Image) (self : nat) (mic : Microscope Image)
      (template : Image) (tolerance : Q) (max_iterations : Z) (o : Outcome ServoLocals) :
  heap w !! self = Some mic ->
  at_obj self
    (mv <- _camera_centre_move rnd template ;;
     let '(camera_move0, position) := mv in
     servo_loop rnd fsqrt (S (Z.to_nat max_iterations)) template tolerance max_iterations
       (mkLocals 0 (0, 0, 0) [] camera_move0 [position])) w = (o, w1) ->
  exists (m2 : Microscope Image) (extra : list Vec3),
    w1 = mkWorld (<[self := m2]> (heap w)) (global_m w) /\
    stage m2 = Stage.set_pos (track (Stage._pos (stage mic)) extra)
                 (Stage.sent (track_lines (Stage._pos (stage mic)) extra) (stage mic)) /\
    Forall (fun v => z_of v = 0) extra /\
    match o with
    | Returned l =>
        stage_moves l = extra /\ camera m2 = advance (S (length extra)) (camera mic)
    | _ => True
    end.
Proof.
  intros Hself. unfold at_obj. rewrite Hself. unfold bind at 1.
  destruct (_camera_centre_move rnd template mic) as [o1 m1] eqn:Hcam.
  apply camera_centre_move_inv in Hcam as [-> Ho1].
  destruct o1 as [[cm pos]| e | |]; try contradiction.
  - destruct (servo_loop rnd fsqrt (S (Z.to_nat max_iterations)) template tolerance
                max_iterations (mkLocals 0 (0, 0, 0) [] cm [pos])
                (mkMicroscope (next_shot (camera mic)) (stage mic))) as [o2 m2] eqn:Hloop.
    apply servo_loop_replay in Hloop as (extra & Hstage & Hz & Ho).
    cbn [camera stage stage_moves app] in Hstage, Ho.
    intros H; injection H as <- <-. exists m2, extra.
    split; [reflexivity|]. split; [exact Hstage|]. split; [exact Hz|].
    destruct o2 as [l| | |]; auto. destruct Ho as [Hsm Hcamera].
    split; [exact Hsm|]. rewrite Hcamera. apply advance_next.
  - intros H; injection H as <- <-.
    exists (mkMicroscope (next_shot (camera mic)) (stage mic)), [].
    cbn [stage track track_lines]. rewrite sent_nil, set_pos_same.
    split; [reflexivity|]. split; [reflexivity|]. split; [constructor | exact I].
Qed.

(** X15. When [centre_on_template] returns (run without release), the
    log of stage moves it returns tells where the stage is: the tracked
    position and the lines sent are those of the logged moves requested in
    turn, a move that would leave the bounds being logged although the stage
    refused it; every logged move has z = 0; and the camera was asked one
    more time than there are moves. Nothing else in the world changes. *)
Theorem centre_on_template_replays_log (w : World Image) (self : nat)
        (mic : Microscope Image) (template : Image) (tolerance : Q) (max_iterations : Z) :
  heap w !! self = Some mic ->
  match centre_on_template rnd fsqrt self template tolerance max_iterations false w with
  | (Returned (it, cps, sms), w') =>
      w' = mkWorld
             (<[self := mkMicroscope
                          (advance (S (length sms)) (camera mic))
                          (Stage.set_pos (track (Stage._pos (stage mic)) sms)
                             (Stage.sent (track_lines (Stage._pos (stage mic)) sms)
                                (stage mic)))]> (heap w))
             (global_m w) /\
      Forall (fun v => z_of v = 0) sms
  | _ => True
  end.
Proof.
  intros Hself. unfold centre_on_template. unfold bind at 1.
  match goal with
  | |- context [at_obj self ?c w] => destruct (at_obj self c w) as [o w1] eqn:Hservo
  end.
  apply (centre_on_template_servo w w1 self mic template tolerance max_iterations o Hself)
    in Hservo as (m2 & extra & -> & Hstage & Hz & Ho).
  destruct o as [l| e | |]; try exact I.
  destruct Ho as [Hsm Hcamera]. cbn. rewrite Hsm. split; [| exact Hz].
  do 2 f_equal. destruct m2 as [cam2 stg2]. cbn [camera stage] in *. congruence.
Qed.

(** X16. However a run of [centre_on_template] ends (returning, raising
    because the Locator failed or the name [m] is unbound, or stopped on a
    dangling [m]), the stage of [self] has kept its tracked z, is within the
    bounds if it was, and has been sent nothing but [move_rel] lines that
    leave the first motor alone, and a release line only when [release] is
    set and the global [m] is [self]. *)
Theorem centre_on_template_keeps_focus (w : World Image) (self : nat)
        (mic : Microscope Image) (template : Image) (tolerance : Q) (max_iterations : Z)
        (release_ : bool) :
  heap w !! self = Some mic ->
  exists (mic' : Microscope Image) (lines : list string),
    heap (snd (centre_on_template rnd fsqrt self template tolerance max_iterations
                 release_ w)) !! self = Some mic' /\
    stage mic' = Stage.set_pos (Stage._pos (stage mic')) (Stage.sent lines (stage mic)) /\
    z_of (Stage._pos (stage mic')) = z_of (Stage._pos (stage mic)) /\
    (in_bounds (Stage._pos (stage mic)) -> in_bounds (Stage._pos (stage mic'))) /\
    Forall (fun line =>
              is_planar_move_line line \/
              (release_ = true /\ global_m w = Some self /\ line = ("release" ++ LF)%string))
           lines.
Proof.
  intros Hself. unfold centre_on_template. unfold bind at 1.
  match goal with
  | |- context [at_obj self ?c w] => destruct (at_obj self c w) as [o w1] eqn:Hservo
  end.
  apply (centre_on_template_servo w w1 self mic template tolerance max_iterations o Hself)
    in Hservo as (m2 & extra & -> & Hstage & Hz & _).
  assert (Hplanar : Forall (fun line =>
                              is_planar_move_line line \/
                              (release_ = true /\ global_m w = Some self /\
                               line = ("release" ++ LF)%string))
                           (track_lines (Stage._pos (stage mic)) extra)).
  { eapply Forall_impl; [apply track_lines_planar, Hz|]. intros line Hl. left. exact Hl. }
  assert (Hloop : exists lines,
             stage m2 = Stage.set_pos (Stage._pos (stage m2)) (Stage.sent lines (stage mic)) /\
             z_of (Stage._pos (stage m2)) = z_of (Stage._pos (stage mic)) /\
             (in_bounds (Stage._pos (stage mic)) -> in_bounds (Stage._pos (stage m2))) /\
             Forall (fun line =>
                       is_planar_move_line line \/
                       (release_ = true /\ global_m w = Some self /\
                        line = ("release" ++ LF)%string)) lines).
  { exists (track_lines (Stage._pos (stage mic)) extra). rewrite Hstage.
    cbn [Stage._pos Stage.set_pos].
    split; [reflexivity|]. split; [apply track_z, Hz|].
    split; [apply track_in_bounds | exact Hplanar]. }
  assert (Hkept : exists (mic' : Microscope Image) (lines : list string),
             <[self := m2]> (heap w) !! self = Some mic' /\
             stage mic' = Stage.set_pos (Stage._pos (stage mic')) (Stage.sent lines (stage mic)) /\
             z_of (Stage._pos (stage mic')) = z_of (Stage._pos (stage mic)) /\
             (in_bounds (Stage._pos (stage mic)) -> in_bounds (Stage._pos (stage mic'))) /\
             Forall (fun line =>
                       is_planar_move_line line \/
                       (release_ = true /\ global_m w = Some self /\
                        line = ("release" ++ LF)%string)) lines).
  { destruct Hloop as (lines & Hl). exists m2, lines.
    split; [apply lookup_insert_eq | exact Hl]. }
  destruct o as [l| e | |]; try exact Hkept.
  destruct release_; [| exact Hkept].
  unfold bind at 1. unfold bind at 1. unfold get. cbn [global_m].
  destruct (global_m w) as [a|] eqn:Hg; [| exact Hkept].
  unfold bind at 1. unfold at_obj. cbn [heap global_m].
  destruct (decide (a = self)) as [->|Hne].
  - rewrite lookup_insert_eq, on_stage_release. cbn [snd heap].
    destruct Hloop as (lines & Hshape & Hzz & Hb & Hlines).
    eexists _, (lines ++ [("release" ++ LF)%string]).
    split; [apply lookup_insert_eq|]. cbn [stage Stage.sent Stage._pos].
    split; [| split; [exact Hzz | split; [exact Hb|]]].
    + rewrite Hshape at 1. rewrite sent_set_pos_sent.
      destruct (stage mic); reflexivity.
    + apply Forall_app. split; [exact Hlines|]. constructor; [| constructor].
      right. auto.
  - destruct (<[self := m2]> (heap w) !! a) as [ma|] eqn:Ha; [| exact Hkept].
    rewrite on_stage_release. unfold ret. cbn [snd heap].
    rewrite lookup_insert_ne by exact Hne. exact Hkept.
Qed.

End ServoStage.

(** A stage at x = 4990 and a template that stays 10 pixels left of the
    centre: each of the three moves (52, 70, 0) is refused by the bounds
    test and logged all the same; the stage has not moved and was sent
    nothing, the camera was asked four times. *)
Lemma centre_on_template_replays_log_witness :
  match centre_on_template exact_rnd sqrt_micro 0%nat tt 1 3 false
          (imported_world
             (mkMicroscope (scripted_camera [px 310 240]) (stage_at true (4990, 0, 0))))
  with
  | (Returned (it, cps, sms), w') =>
      w' = mkWorld
             (<[0%nat := mkMicroscope
                           (advance (S (length sms)) (scripted_camera [px 310 240]))
                           (Stage.set_pos (track (4990, 0, 0) sms)
                              (Stage.sent (track_lines (4990, 0, 0) sms)
                                 (stage_at true (4990, 0, 0))))]>
                (heap (imported_world
                         (mkMicroscope (scripted_camera [px 310 240])
                            (stage_at true (4990, 0, 0))))))
             None /\
      Forall (fun v => z_of v = 0) sms
  | _ => True
  end /\
  fst (centre_on_template exact_rnd sqrt_micro 0%nat tt 1 3 false
         (imported_world
            (mkMicroscope (scripted_camera [px 310 240]) (stage_at true (4990, 0, 0)))))
  = Returned (-3, [px 310 240; px 310 240; px 310 240; px 310 240],
              [(52, 70, 0); (52, 70, 0); (52, 70, 0)]) /\
  track (4990, 0, 0) [(52, 70, 0); (52, 70, 0); (52, 70, 0)] = (4990, 0, 0) /\
  track_lines (4990, 0, 0) [(52, 70, 0); (52, 70, 0); (52, 70, 0)] = [].
Proof.
  split; [| split; [| split]]; [| vm_compute; reflexivity ..].
  exact (centre_on_template_replays_log exact_rnd sqrt_micro unit
           (imported_world
              (mkMicroscope (scripted_camera [px 310 240]) (stage_at true (4990, 0, 0))))
           0%nat
           (mkMicroscope (scripted_camera [px 310 240]) (stage_at true (4990, 0, 0)))
           tt 1 3 eq_refl).
Defined.

Lemma centre_on_template_keeps_focus_witness :
  exists (mic' : Microscope unit) (lines : list string),
    heap (snd (centre_on_template exact_rnd sqrt_micro 0%nat tt 1 10 true
                 (script_world (scripted_microscope [px 310 240; px 320 240])
                    (scripted_microscope []))))
      !! 0%nat = Some mic' /\
    stage mic' = Stage.set_pos (Stage._pos (stage mic'))
                   (Stage.sent lines (stage (scripted_microscope [px 310 240; px 320 240]))) /\
    z_of (Stage._pos (stage mic'))
    = z_of (Stage._pos (stage (scripted_microscope [px 310 240; px 320 240]))) /\
    (in_bounds (Stage._pos (stage (scripted_microscope [px 310 240; px 320 240]))) ->
     in_bounds (Stage._pos (stage mic'))) /\
    Forall (fun line =>
              is_planar_move_line line \/
              (true = true /\
               global_m (script_world (scripted_microscope [px 310 240; px 320 240])
                           (scripted_microscope [])) = Some 0%nat /\
               line = ("release" ++ LF)%string))
           lines.
Proof.
  exact (centre_on_template_keeps_focus exact_rnd sqrt_micro unit
           (script_world (scripted_microscope [px 310 240; px 320 240])
              (scripted_microscope []))
           0%nat (scripted_microscope [px 310 240; px 320 240]) tt 1 10 true eq_refl).
Defined.

(** ** The stage during a calibration *)

Lemma move_line_is_move_line (v : Vec3) : is_move_line (move_line v).
Proof. destruct v as [[x y] z]. exists (- z), (- x), (- y). reflexivity. Qed.

Lemma move_line_not_release (line : string) :
  is_move_line line -> line <> ("release" ++ LF)%string.
Proof. intros (a & b & c & ->). discriminate. Qed.

Lemma held_refl (s : Stage.t) : held_shape s s.
Proof.
  exists [], (Stage._pos s). rewrite sent_nil, set_pos_same.
  split; [reflexivity|]. split; [constructor | auto].
Qed.

Lemma held_trans (s1 s2 s3 : Stage.t) :
  held_shape s1 s2 -> held_shape s2 s3 -> held_shape s1 s3.
Proof.
  intros (l1 & p1 & -> & Hl1 & Hb1) (l2 & p2 & -> & Hl2 & Hb2).
  exists (l1 ++ l2), p2. rewrite set_pos_sent_twice.
  split; [reflexivity|]. split; [apply Forall_app; auto|].
  intros Hin. apply Hb2. destruct s1; cbn. apply Hb1, Hin.
Qed.

Lemma held_replay (s : Stage.t) (moves : list Vec3) :
  held_shape s (Stage.set_pos (track (Stage._pos s) moves)
                  (Stage.sent (track_lines (Stage._pos s) moves) s)).
Proof.
  eexists _, _. split; [reflexivity|]. split; [| apply track_in_bounds].
  generalize (Stage._pos s). induction moves as [|v rest IH]; intros p; cbn [track_lines].
  - constructor.
  - destruct (accepts p v); [constructor; [apply move_line_is_move_line|] |]; apply IH.
Qed.

Lemma move_to_pos_held (s : Stage.t) (v : Vec3) :
  exists s',
    Stage.move_to_pos (vec_list v) false false s = (Returned None, s') /\
    held_shape s s'.
Proof.
  destruct v as [[x y] z]. unfold Stage.move_to_pos. cbn [vec_list as_vec3].
  unfold bind, get. rewrite (move_rel_replayed s (vec_sub (x, y, z) (Stage._pos s))).
  eexists. split; [reflexivity | apply held_replay].
Qed.

Lemma centre_stage_lines (s : Stage.t) :
  Stage.centre_stage s
  = (Returned tt,
     Stage.set_pos (0, 0, 0)
       (Stage.sent [move_line (vec_scale (-1) (Stage._pos s)); ("release" ++ LF)%string] s)).
Proof.
  destruct s as [emu [[p0 p1] p2] written reply log].
  unfold Stage.centre_stage. unfold bind at 1. unfold get.
  cbn [Stage._pos vec_scale vec_list]. unfold bind at 1.
  rewrite move_rel_accepted.
  - cbn [Stage._pos vec_add]. unfold ret.
    replace (p0 + -1 * p0) with 0 by lia. replace (p1 + -1 * p1) with 0 by lia.
    replace (p2 + -1 * p2) with 0 by lia.
    unfold Stage.sent, Stage.set_pos. cbn. destruct emu; rewrite <- ?app_assoc; reflexivity.
  - cbn [Stage._pos vec_add]. rewrite orb_false_r. apply vec_all_le_bound. lia.
Qed.

Section CalibrateStage.
Variable rnd : Q -> Q.
Variable Image : Type.
Variable central_half : Image -> Image.
Variable Matrix : Type.
Variable lstsq : list Vec2 -> list (Z * Z) -> Matrix.

Lemma on_stage_move_to_pos_held (m : Microscope Image) (v : Vec3) :
  exists s',
    on_stage (Stage.move_to_pos (vec_list v) false false) m
    = (Returned None, mkMicroscope (camera m) s') /\
    held_shape (stage m) s'.
Proof.
  destruct (move_to_pos_held (stage m) v) as (s' & Hrun & Hheld).
  exists s'. split; [| exact Hheld]. unfold on_stage, zoom. rewrite Hrun. reflexivity.
Qed.

Lemma on_camera_find_cases (m : Microscope Image) (template : Image) :
  (exists pos, on_camera (find_template template) m
               = (Returned pos, mkMicroscope (next_shot (camera m)) (stage m))) \/
  on_camera (find_template template) m
  = (Raised RuntimeError, mkMicroscope (next_shot (camera m)) (stage m)).
Proof.
  unfold on_camera, zoom, find_template.
  destruct (locate (camera m) template (shots (camera m))) as [pos|]; eauto.
Qed.

(** The loop over the waypoints: it returns after one Locator query per
    waypoint or raises the Locator's [RuntimeError]; either way the stage
    was only sent [move_rel] lines. *)
Lemma calibrate_visit_held (template : Image) (c0 : Vec2) (isv : Vec3) (isp : Z * Z) :
  forall (pos : list Vec3) (cd : list Vec2) (sd : list (Z * Z)) (m : Microscope Image),
    match calibrate_visit rnd pos template c0 isv isp cd sd m with
    | (Returned _, m') =>
        held_shape (stage m) (stage m') /\ camera m' = advance (length pos) (camera m)
    | (Raised e, m') => e = RuntimeError /\ held_shape (stage m) (stage m')
    | _ => False
    end.
Proof.
  induction pos as [|p rest IH]; intros cd sd m.
  - cbn. split; [apply held_refl | destruct (camera m); reflexivity].
  - cbn [calibrate_visit]. unfold bind at 1.
    destruct (on_stage_move_to_pos_held m (vec_add (vec_add isv p) (-32, -16, 0)))
      as (s1 & -> & Hheld1).
    unfold bind at 1.
    destruct (on_stage_move_to_pos_held (mkMicroscope (camera m) s1) (vec_add isv p))
      as (s2 & -> & Hheld2).
    cbn [camera stage] in *.
    pose proof (held_trans _ _ _ Hheld1 Hheld2) as Hheld.
    unfold bind at 1.
    destruct (on_camera_find_cases (mkMicroscope (camera m) s2) template) as [[c ->] | ->];
      cbn [camera stage]; [| split; [reflexivity | exact Hheld]].
    unfold bind at 1, get.
    match goal with
    | |- context [calibrate_visit rnd rest template c0 isv isp ?cd' ?sd' ?m1] =>
        specialize (IH cd' sd' m1);
        destruct (calibrate_visit rnd rest template c0 isv isp cd' sd' m1)
          as [[r| e | |] m']
    end; cbn [camera stage] in IH; try contradiction.
    + destruct IH as [Hrest Hcamera]. split; [exact (held_trans _ _ _ Hheld Hrest)|].
      rewrite Hcamera. apply advance_next.
    + destruct IH as [He Hrest]. split; [exact He | exact (held_trans _ _ _ Hheld Hrest)].
Qed.

(** X17. [calibrate] returns, or raises the [RuntimeError] of a Locator
    query that failed. When it returns, the stage is tracked at the origin,
    the last three lines sent are the move back and two releases, every
    line before them is a [move_rel], and the camera has taken five shots
    (six when it also took the template). When it raises, the motors are
    left held: only [move_rel] lines were sent, no release; the tracked
    position is within the bounds if it was. *)
Theorem calibrate_releases_only_at_end (m : Microscope Image) (template : option Image)
        (D : Z) :
  match calibrate rnd central_half lstsq template D m with
  | (Returned _, m') =>
      Stage._pos (stage m') = (0, 0, 0) /\
      camera m' = advance (match template with Some _ => 5 | None => 6 end) (camera m) /\
      exists (moves : list string) (back : string),
        stage m' = Stage.set_pos (0, 0, 0)
                     (Stage.sent (moves ++ [back; ("release" ++ LF)%string;
                                           ("release" ++ LF)%string]) (stage m)) /\
        Forall is_move_line moves /\ is_move_line back
  | (Raised e, m') =>
      e = RuntimeError /\
      exists (moves : list string) (p : Vec3),
        stage m' = Stage.set_pos p (Stage.sent moves (stage m)) /\
        Forall is_move_line moves /\
        ~ In ("release" ++ LF)%string moves /\
        (in_bounds (Stage._pos (stage m)) -> in_bounds p)
  | _ => False
  end.
Proof.
  assert (Hraise : forall s', held_shape (stage m) s' ->
            exists (moves : list string) (p : Vec3),
              s' = Stage.set_pos p (Stage.sent moves (stage m)) /\
              Forall is_move_line moves /\
              ~ In ("release" ++ LF)%string moves /\
              (in_bounds (Stage._pos (stage m)) -> in_bounds p)).
  { intros s' (l & p & -> & Hl & Hb). exists l, p.
    split; [reflexivity|]. split; [exact Hl|]. split; [| exact Hb].
    intros Hin. rewrite List.Forall_forall in Hl.
    exact (move_line_not_release _ (Hl _ Hin) eq_refl). }
  unfold calibrate. unfold bind at 1.
  destruct (on_stage_move_to_pos_held m (16, 16, 0)) as (s1 & Hrun1 & Hheld1).
  cbn [vec_list] in Hrun1. rewrite Hrun1. clear Hrun1. unfold bind at 1.
  destruct (on_stage_move_to_pos_held (mkMicroscope (camera m) s1) (0, 0, 0))
    as (s2 & Hrun2 & Hheld2).
  cbn [vec_list] in Hrun2. rewrite Hrun2. clear Hrun2. cbn [camera stage] in *.
  pose proof (held_trans _ _ _ Hheld1 Hheld2) as Hheld. clear Hheld1 Hheld2.
  unfold bind at 1.
  set (cam0 := advance (match template with Some _ => 0 | None => 1 end) (camera m)).
  assert (Htemplate :
            exists t,
              match template with
              | Some t => ret t
              | None => frame <- on_camera get_frame ;; ret (central_half frame)
              end%py (mkMicroscope (camera m) s2)
              = (Returned t, mkMicroscope cam0 s2)).
  { subst cam0.
    destruct template as [t'|];
      [exists t' | exists (central_half (get_frame_at (camera m) (shots (camera m))))];
      cbn; destruct (camera m); reflexivity. }
  destruct Htemplate as [t ->]. unfold bind at 1.
  destruct (on_camera_find_cases (mkMicroscope cam0 s2) t) as [[c0 ->] | ->];
    cbn [camera stage]; [| split; [reflexivity | apply Hraise, Hheld]].
  unfold bind at 1, get. cbn [camera stage]. unfold bind at 1.
  match goal with
  | |- context [calibrate_visit rnd ?pos t c0 ?isv ?isp ?cd ?sd ?m1] =>
      pose proof (calibrate_visit_held t c0 isv isp pos cd sd m1) as Hvisit;
      destruct (calibrate_visit rnd pos t c0 isv isp cd sd m1) as [[[cd' sd']| e | |] m3]
  end; cbn [camera stage length] in Hvisit; try contradiction.
  - destruct Hvisit as [Hheld3 Hcamera].
    pose proof (held_trans _ _ _ Hheld Hheld3) as (l & p & Hs3 & Hl & _).
    unfold bind at 1. unfold on_stage at 1, zoom. rewrite centre_stage_lines.
    unfold bind at 1. rewrite on_stage_release. cbn [camera stage Stage._pos Stage.set_pos].
    split; [reflexivity|]. split.
    + rewrite Hcamera. subst cam0. unfold advance, next_shot. cbn.
      destruct template; reflexivity.
    + exists l, (move_line (vec_scale (-1) (Stage._pos (stage m3)))).
      split; [| split; [exact Hl | apply move_line_is_move_line]].
      rewrite sent_set_pos_sent, Hs3, set_pos_sent_twice. reflexivity.
  - destruct Hvisit as [-> Hheld3]. split; [reflexivity|].
    apply Hraise. exact (held_trans _ _ _ Hheld Hheld3).
Qed.

End CalibrateStage.

(** * Properties of the GUI *)

Lemma ftrunc_floor (a : Q) :
  ftrunc a = if 0 <=? Qnum a then Qfloor a else - Qfloor (- a).
Proof.
  destruct a as [n d]. unfold ftrunc, Qfloor, Qopp. cbn [Qnum Qden].
  destruct (Z.leb_spec 0 n) as [Hn | Hn].
  - apply Z.quot_div_nonneg; lia.
  - rewrite <- (Z.quot_div_nonneg (- n) (Z.pos d)) by lia.
    rewrite Z.quot_opp_l by lia. lia.
Qed.

Lemma ftrunc_comp (a b : Q) : (a == b)%Q -> ftrunc a = ftrunc b.
Proof.
  intros Hab. rewrite !ftrunc_floor.
  assert (Hsign : (0 <=? Qnum a) = (0 <=? Qnum b)).
  { unfold Qeq in Hab. destruct (Z.leb_spec 0 (Qnum a)), (Z.leb_spec 0 (Qnum b));
      try reflexivity; nia. }
  rewrite Hsign. destruct (0 <=? Qnum b); [rewrite Hab | rewrite Hab]; reflexivity.
Qed.

Lemma ftrunc_half (n : Z) : ftrunc (inject_Z n / 2) = n ÷ 2.
Proof. unfold ftrunc. cbn. rewrite Z.mul_1_r. reflexivity. Qed.

Lemma quot2_between (a b : Z) : a <= b -> a <= (a + b) ÷ 2 <= b.
Proof. intros Hab. Z.to_euclidean_division_equations. lia. Qed.

Section GuiFacts.
Variable rnd : Q -> Q.

Lemma middle_exact (a b : Z) :
  (rnd (inject_Z (a + b) / 2) == inject_Z (a + b) / 2)%Q ->
  Gui.middle rnd a b = (a + b) ÷ 2.
Proof.
  intros Hhalf. unfold Gui.middle, fdiv. rewrite (ftrunc_comp _ _ Hhalf).
  apply ftrunc_half.
Qed.

(** X18. Releasing the button ends a drag with a selection box that has
    its corners in order, top left to bottom right, whichever way the mouse
    was dragged; the bead position is the centre of the box rounded toward
    zero and lies inside the box, also for negative coordinates; the
    template is set, the drag is over and the preview is no longer paused.
    (Halving is exact in floating point for the coordinate sums.) *)
Theorem mouse_up_selects_box (g : Gui.t) (sx sy x y flags : Z) (cvt_ok : bool)
        (img : Gui.Array) :
  (forall n : Z, Z.abs n <= 2 ^ 53 ->
                 (rnd (inject_Z n / 2) == inject_Z n / 2)%Q) ->
  Z.abs sx <= 2 ^ 51 -> Z.abs sy <= 2 ^ 51 -> Z.abs x <= 2 ^ 51 -> Z.abs y <= 2 ^ 51 ->
  Gui._gui_drag_start g = Some (sx, sy) ->
  Gui._gui_pause_img g = Some img ->
  Gui._gui_greyscale g = true \/ cvt_ok = true ->
  exists (g' : Gui.t) (x1 y1 x2 y2 bx by_ : Z),
    Gui._on_gui_mouse rnd Gui.EVENT_LBUTTONUP x y flags cvt_ok g = (g', None) /\
    Gui._gui_sel g' = Some (x1, y1, x2, y2) /\
    Gui._gui_bead_pos g' = Some (inject_Z bx, inject_Z by_) /\
    x1 = Z.min sx x /\ x2 = Z.max sx x /\ y1 = Z.min sy y /\ y2 = Z.max sy y /\
    bx = (x1 + x2) ÷ 2 /\ by_ = (y1 + y2) ÷ 2 /\
    x1 <= bx <= x2 /\ y1 <= by_ <= y2 /\
    Gui.template_selection g' = Some Gui.an_array /\
    Gui._gui_drag_start g' = None /\
    Gui._gui_pause_img g' = None.
Proof.
  intros Hhalf Hsx Hsy Hx Hy Hdrag Hpause Hgrey.
  assert (Hcvt : negb (Gui._gui_greyscale g) && negb cvt_ok = false)
    by (destruct Hgrey as [-> | ->]; [reflexivity | apply andb_false_r]).
  unfold Gui._on_gui_mouse.
  change (Gui.EVENT_LBUTTONUP =? Gui.EVENT_LBUTTONDOWN) with false.
  change (Gui.EVENT_LBUTTONUP =? Gui.EVENT_LBUTTONUP) with true.
  cbv beta iota. rewrite andb_false_l, Hdrag. unfold Gui.box. cbn [fst snd].
  cbn [Gui.set_gui_sel Gui._gui_pause_img Gui._gui_greyscale Gui.set_template_selection].
  rewrite Hpause, Hcvt.
  rewrite (middle_exact (Z.min sx x) (Z.max sx x)) by (apply Hhalf; lia).
  rewrite (middle_exact (Z.min sy y) (Z.max sy y)) by (apply Hhalf; lia).
  eexists _, (Z.min sx x), (Z.min sy y), (Z.max sx x), (Z.max sy y), _, _.
  split; [reflexivity|]. cbn.
  repeat (split; [reflexivity|]).
  split; [apply quot2_between; lia|]. split; [apply quot2_between; lia|].
  repeat split.
Qed.

Lemma mouse_without_drag (g : Gui.t) (event x y flags : Z) (cvt_ok : bool) :
  Gui._gui_drag_start g = None ->
  Gui.is_set (Gui._gui_sel g) = true \/ event <> Gui.EVENT_LBUTTONDOWN ->
  Gui._on_gui_mouse rnd event x y flags cvt_ok g = (g, None).
Proof.
  intros Hdrag Hno. unfold Gui._on_gui_mouse. rewrite Hdrag.
  destruct Hno as [-> | Hev]; [rewrite andb_false_r; reflexivity|].
  apply Z.eqb_neq in Hev. rewrite Hev. reflexivity.
Qed.

(** X19. A finished selection is frozen: with a selection box and no drag
    in progress, no mouse event of any kind changes anything, so the box
    can only be replaced after [_stop_gui_tracking] has cleared it. *)
Theorem finished_selection_ignores_mouse (g : Gui.t)
        (clicks : list (Z * Z * Z * Z * bool)) :
  Gui.is_set (Gui._gui_sel g) = true ->
  Gui._gui_drag_start g = None ->
  fold_left (Gui.window_event rnd)
    (map (fun '(event, x, y, flags, cvt_ok) => Gui.Mouse event x y flags cvt_ok) clicks) g
  = g.
Proof.
  intros Hsel Hdrag. induction clicks as [|[[[[event x] y] flags] cvt_ok] rest IH];
    [reflexivity|].
  cbn [map fold_left Gui.window_event].
  rewrite mouse_without_drag by auto. exact IH.
Qed.

Lemma stop_consistent (g : Gui.t) : Gui.consistent (Gui._stop_gui_tracking g).
Proof. unfold Gui.consistent. cbn. split; intros; discriminate. Qed.

Lemma read_consistent (g : Gui.t) :
  Gui.consistent g -> Gui.consistent (Gui._read_gui_trackbars g).
Proof.
  intros [_ H2]. unfold Gui.consistent, Gui._read_gui_trackbars. cbn. split; [| exact H2].
  intros Ht. apply andb_true_iff in Ht as [Ht Hdrag]. apply andb_true_iff in Ht as [_ Hsel].
  split; [exact Hsel|]. destruct (Gui._gui_drag_start g); [discriminate | reflexivity].
Qed.

Lemma mouse_consistent (g : Gui.t) (event x y flags : Z) (cvt_ok : bool) :
  Gui.consistent g ->
  Gui.consistent (fst (Gui._on_gui_mouse rnd event x y flags cvt_ok g)).
Proof.
  intros [H1 H2]. unfold Gui._on_gui_mouse.
  destruct ((event =? Gui.EVENT_LBUTTONDOWN) && negb (Gui.is_set (Gui._gui_sel g))) eqn:Hdown.
  - apply andb_true_iff in Hdown as [_ Hsel]. apply negb_true_iff in Hsel.
    unfold Gui.consistent. cbn. split; [| intros; discriminate].
    intros Ht. destruct (H1 Ht) as [Hs _]. congruence.
  - destruct (Gui._gui_drag_start g) as [start|] eqn:Hdrag;
      [| cbn [fst]; unfold Gui.consistent; rewrite Hdrag; split; assumption].
    assert (Hidle : Gui._gui_tracking g = false).
    { destruct (Gui._gui_tracking g); [| reflexivity].
      destruct (H1 eq_refl) as [_ Hnone]. discriminate. }
    destruct (event =? Gui.EVENT_LBUTTONUP).
    + destruct (Gui.box start x y) as [[[x1 y1] x2] y2]. cbn.
      destruct (Gui._gui_pause_img g); cbn.
      * destruct (negb (Gui._gui_greyscale g) && negb cvt_ok); unfold Gui.consistent; cbn;
          rewrite ?Hidle, ?Hdrag; split; intros; try discriminate; auto.
      * unfold Gui.consistent; cbn. rewrite Hidle, Hdrag. split; intros; discriminate.
    + destruct ((event =? Gui.EVENT_MOUSEMOVE) && (flags =? Gui.EVENT_FLAG_LBUTTON));
        [| cbn [fst]; unfold Gui.consistent; rewrite Hdrag; split; assumption].
      unfold Gui.consistent; cbn. rewrite Hidle, Hdrag. split; intros; discriminate.
Qed.

Lemma window_events_consistent (evs : list Gui.WindowEvent) :
  forall g : Gui.t, Gui.consistent g -> Gui.consistent (fold_left (Gui.window_event rnd) evs g).
Proof.
  induction evs as [|e rest IH]; intros g Hg; [exact Hg|].
  cbn [fold_left]. apply IH. destruct e as [event x y flags cvt_ok | v | v];
    [apply mouse_consistent, Hg | exact Hg | exact Hg].
Qed.

Lemma tracker_consistent (shape : list Z) (found : FindResult) (g : Gui.t) :
  Gui.consistent g -> Gui._gui_tracking g = true ->
  Gui.consistent (fst (Gui._update_gui_tracker rnd shape found g)) /\
  (snd (Gui._update_gui_tracker rnd shape found g) = None \/
   snd (Gui._update_gui_tracker rnd shape found g) = Some Gui.ValueError).
Proof.
  intros Hg Ht. pose proof Hg as [H1 H2].
  destruct (H1 Ht) as [Hsel Hdrag]. destruct (H2 Hsel Hdrag) as [Htemplate Hbead].
  unfold Gui._update_gui_tracker. rewrite Htemplate, Ht, Hbead. cbn [andb negb].
  destruct (rev shape) as [|w [|h [|k rest]]]; cbn [fst snd]; auto.
  destruct found as [centre|]; cbn [fst snd]; [| split; [apply stop_consistent | auto]].
  split; [| auto]. unfold Gui.consistent. cbn. rewrite Hdrag, Htemplate. auto.
Qed.

Lemma arrow_returns (x y z : Z) (g : Gui.t) :
  exists s', Gui.arrow [x; y; z] g = (Gui.set_stage s' g, None) /\
             Stage.move_rel [x; y; z] true false (Gui.stage g) = (Returned None, s').
Proof.
  unfold Gui.arrow. destruct (move_rel_total (Gui.stage g) x y z true false) as [s' Hs'].
  rewrite Hs'. eauto.
Qed.

(** What a key press does: the GUI fields are as before or as
    [_stop_gui_tracking] leaves them, but for the quit flag and the colour;
    the stage is as before or as one arrow step leaves it. *)
Lemma on_key_cases (keypress : Z) (g : Gui.t) :
  exists (g' : Gui.t),
    Gui.on_key keypress g = (g', None) /\
    (Gui.consistent g -> Gui.consistent g') /\
    Gui.frames_taken g' = Gui.frames_taken g /\
    Gui._gui_pause_img g' = Gui._gui_pause_img g /\
    (Gui._gui_drag_start g' = Gui._gui_drag_start g \/ Gui._gui_drag_start g' = None) /\
    (Gui.stage g' = Gui.stage g \/
     exists x y : Z,
       Stage.move_rel [x; y; 0] true false (Gui.stage g) = (Returned None, Gui.stage g')).
Proof.
  unfold Gui.on_key. destruct (negb (keypress =? -1)); [| exists g; auto 10].
  assert (Hconv : exists k,
             match Gui.lookup_key keypress Gui._GUI_W_KEYS with
             | Some name => Gui.lookup_name name Gui._GUI_L_KEYS
             | None => Some (Z.land keypress 255)
             end = Some k).
  { unfold Gui._GUI_W_KEYS. cbn [Gui.lookup_key].
    repeat match goal with
           | |- context [if ?b then _ else _] => destruct b; [cbn; eauto|]
           end.
    eauto. }
  destruct Hconv as [k ->].
  repeat match goal with
         | |- context [if k =? ?c then _ else _] => destruct (k =? c)
         end;
    try (exists g; auto 10; fail);
    try match goal with
        | |- context [Gui.arrow [?x; ?y; ?z] g] =>
            destruct (arrow_returns x y z g) as (s' & -> & Hmove);
            exists (Gui.set_stage s' g); cbn;
            split; [reflexivity|]; split; [auto|]; repeat (split; [auto|]);
            right; exists x, y; exact Hmove
        end.
  - eexists. split; [reflexivity|]. cbn. auto 10.
  - eexists. split; [reflexivity|]. cbn. split; [intros; apply stop_consistent | auto 10].
  - eexists. split; [reflexivity|]. cbn. auto 10.
Qed.

Lemma tracker_keeps (shape : list Z) (found : FindResult) (g : Gui.t) :
  Gui.stage (fst (Gui._update_gui_tracker rnd shape found g)) = Gui.stage g /\
  Gui.frames_taken (fst (Gui._update_gui_tracker rnd shape found g)) = Gui.frames_taken g /\
  Gui._gui_pause_img (fst (Gui._update_gui_tracker rnd shape found g))
  = Gui._gui_pause_img g /\
  (Gui._gui_drag_start g = None ->
   Gui._gui_drag_start (fst (Gui._update_gui_tracker rnd shape found g)) = None).
Proof.
  unfold Gui._update_gui_tracker.
  destruct (negb _); [auto|].
  destruct (rev shape) as [|w [|h [|k rest]]]; cbn [fst]; auto.
  destruct found; cbn; auto.
Qed.

Lemma mouse_keeps (g : Gui.t) (event x y flags : Z) (cvt_ok : bool) :
  Gui.stage (fst (Gui._on_gui_mouse rnd event x y flags cvt_ok g)) = Gui.stage g /\
  Gui._gui_quit (fst (Gui._on_gui_mouse rnd event x y flags cvt_ok g)) = Gui._gui_quit g.
Proof.
  unfold Gui._on_gui_mouse.
  destruct (_ && negb (Gui.is_set (Gui._gui_sel g))); [cbn; auto|].
  destruct (Gui._gui_drag_start g) as [start|]; [| auto].
  destruct (event =? Gui.EVENT_LBUTTONUP).
  - destruct (Gui.box start x y) as [[[x1 y1] x2] y2]. cbn.
    destruct (Gui._gui_pause_img g); cbn; [| auto].
    destruct (negb (Gui._gui_greyscale g) && negb cvt_ok); cbn; auto.
  - destruct (_ && _); cbn; auto.
Qed.

Lemma window_events_keep (evs : list Gui.WindowEvent) :
  forall g : Gui.t, Gui.stage (fold_left (Gui.window_event rnd) evs g) = Gui.stage g.
Proof.
  induction evs as [|e rest IH]; intros g; [reflexivity|].
  cbn [fold_left]. rewrite IH. destruct e as [event x y flags cvt_ok | v | v];
    [apply mouse_keeps | reflexivity | reflexivity].
Qed.

Lemma window_events_paused (evs : list Gui.WindowEvent) :
  forall g : Gui.t,
    Gui._gui_drag_start g = None ->
    Forall Gui.no_button_down evs ->
    Gui._gui_drag_start (fold_left (Gui.window_event rnd) evs g) = None /\
    Gui._gui_pause_img (fold_left (Gui.window_event rnd) evs g) = Gui._gui_pause_img g /\
    Gui.frames_taken (fold_left (Gui.window_event rnd) evs g) = Gui.frames_taken g.
Proof.
  induction evs as [|e rest IH]; intros g Hdrag Hno; [auto|].
  inversion Hno as [|? ? He Hrest]; subst. cbn [fold_left].
  destruct e as [event x y flags cvt_ok | v | v]; cbn [Gui.window_event].
  - rewrite mouse_without_drag by (auto; right; exact He). apply IH; assumption.
  - destruct (IH (Gui.set_bar_greyscale v g) Hdrag Hrest) as (H1 & H2 & H3). auto.
  - destruct (IH (Gui.set_bar_tracking v g) Hdrag Hrest) as (H1 & H2 & H3). auto.
Qed.

Lemma update_gui_consistent (tk : Gui.Tick) (g : Gui.t) :
  Gui.consistent g ->
  Gui.consistent (fst (Gui._update_gui rnd tk g)) /\
  (snd (Gui._update_gui rnd tk g) = None \/
   snd (Gui._update_gui rnd tk g) = Some Gui.ValueError).
Proof.
  intros Hg. unfold Gui._update_gui.
  set (g1 := match Gui._gui_pause_img g with
             | None => _
             | Some _ => _
             end).
  assert (Hg1 : Gui.consistent g1) by (subst g1; destruct (Gui._gui_pause_img g); exact Hg).
  clearbody g1.
  assert (Htrack : exists g2 raised,
             (if Gui._gui_tracking g1
              then Gui._update_gui_tracker rnd (Gui.shape tk) (Gui.found tk) g1
              else (g1, None)) = (g2, raised) /\
             Gui.consistent g2 /\ (raised = None \/ raised = Some Gui.ValueError)).
  { destruct (Gui._gui_tracking g1) eqn:Ht; [| exists g1, None; auto].
    destruct (tracker_consistent (Gui.shape tk) (Gui.found tk) g1 Hg1 Ht) as [Hc He].
    destruct (Gui._update_gui_tracker rnd (Gui.shape tk) (Gui.found tk) g1) as [g2 raised].
    exists g2, raised. auto. }
  destruct Htrack as (g2 & raised & -> & Hg2 & [-> | ->]); [| auto].
  destruct (on_key_cases (Gui.keypress tk) (fold_left (Gui.window_event rnd) (Gui.events tk) g2))
    as (g3 & -> & Hg3 & _).
  cbn [fst snd]. split; [| auto]. apply Hg3, window_events_consistent, Hg2.
Qed.

Lemma arrow_step_plane (s s' : Stage.t) (x y : Z) :
  Stage.move_rel [x; y; 0] true false s = (Returned None, s') ->
  z_of (Stage._pos s') = z_of (Stage._pos s) /\
  (in_bounds (Stage._pos s) -> in_bounds (Stage._pos s')).
Proof.
  destruct (vec_all_le (vec_abs (vec_add (Stage._pos s) (x, y, 0))) Stage._XYZ_BOUND) eqn:E.
  - rewrite move_rel_accepted by (rewrite E; reflexivity).
    intros H; injection H as <-. cbn [Stage._pos Stage.sent Stage.set_pos].
    split; [| intros _; apply check_in_bounds, E].
    destruct (Stage._pos s) as [[p0 p1] p2]. unfold z_of. cbn. lia.
  - rewrite move_rel_rejected by exact E. intros H; injection H as <-. auto.
Qed.

Lemma update_gui_stage (tk : Gui.Tick) (g : Gui.t) :
  z_of (Stage._pos (Gui.stage (fst (Gui._update_gui rnd tk g))))
  = z_of (Stage._pos (Gui.stage g)) /\
  (in_bounds (Stage._pos (Gui.stage g)) ->
   in_bounds (Stage._pos (Gui.stage (fst (Gui._update_gui rnd tk g))))).
Proof.
  unfold Gui._update_gui.
  set (g1 := match Gui._gui_pause_img g with
             | None => _
             | Some _ => _
             end).
  assert (Hg1 : Gui.stage g1 = Gui.stage g)
    by (subst g1; destruct (Gui._gui_pause_img g); reflexivity).
  clearbody g1. rewrite <- Hg1. clear Hg1.
  assert (Htrack : exists g2 raised,
             (if Gui._gui_tracking g1
              then Gui._update_gui_tracker rnd (Gui.shape tk) (Gui.found tk) g1
              else (g1, None)) = (g2, raised) /\ Gui.stage g2 = Gui.stage g1).
  { destruct (Gui._gui_tracking g1); [| exists g1, None; auto].
    pose proof (tracker_keeps (Gui.shape tk) (Gui.found tk) g1) as [Hs _].
    destruct (Gui._update_gui_tracker rnd (Gui.shape tk) (Gui.found tk) g1) as [g2 raised].
    exists g2, raised. auto. }
  destruct Htrack as (g2 & raised & -> & <-).
  destruct raised as [e|]; [auto|].
  destruct (on_key_cases (Gui.keypress tk) (fold_left (Gui.window_event rnd) (Gui.events tk) g2))
    as (g3 & -> & _ & _ & _ & _ & Hstage).
  cbn [fst]. rewrite window_events_keep in Hstage.
  destruct Hstage as [-> | (x & y & Hmove)]; [auto|].
  exact (arrow_step_plane _ _ x y Hmove).
Qed.

Lemma update_gui_paused (tk : Gui.Tick) (g : Gui.t) :
  Gui.is_set (Gui._gui_pause_img g) = true ->
  Gui._gui_drag_start g = None ->
  Forall Gui.no_button_down (Gui.events tk) ->
  Gui.is_set (Gui._gui_pause_img (fst (Gui._update_gui rnd tk g))) = true /\
  Gui._gui_drag_start (fst (Gui._update_gui rnd tk g)) = None /\
  Gui.frames_taken (fst (Gui._update_gui rnd tk g)) = Gui.frames_taken g.
Proof.
  intros Hpause Hdrag Hno. unfold Gui._update_gui.
  destruct (Gui._gui_pause_img g) as [img|] eqn:Himg; [| discriminate].
  set (g1 := Gui.set_gui_img (Some Gui.an_array) g).
  assert (Hg1 : Gui._gui_pause_img g1 = Some img /\ Gui._gui_drag_start g1 = None /\
                Gui.frames_taken g1 = Gui.frames_taken g) by (subst g1; cbn; auto).
  clearbody g1. destruct Hg1 as (Hp1 & Hd1 & <-).
  assert (Htrack : exists g2 raised,
             (if Gui._gui_tracking g1
              then Gui._update_gui_tracker rnd (Gui.shape tk) (Gui.found tk) g1
              else (g1, None)) = (g2, raised) /\
             Gui._gui_pause_img g2 = Some img /\ Gui._gui_drag_start g2 = None /\
             Gui.frames_taken g2 = Gui.frames_taken g1).
  { destruct (Gui._gui_tracking g1); [| exists g1, None; auto].
    pose proof (tracker_keeps (Gui.shape tk) (Gui.found tk) g1) as (_ & Hf & Hp & Hd).
    destruct (Gui._update_gui_tracker rnd (Gui.shape tk) (Gui.found tk) g1) as [g2 raised].
    cbn [fst] in *. exists g2, raised. rewrite Hp. auto. }
  destruct Htrack as (g2 & raised & -> & Hp2 & Hd2 & <-).
  destruct raised as [e|]; cbn [fst]; [rewrite Hp2; auto|].
  destruct (window_events_paused (Gui.events tk) g2 Hd2 Hno) as (Hd3 & Hp3 & Hf3).
  destruct (on_key_cases (Gui.keypress tk) (fold_left (Gui.window_event rnd) (Gui.events tk) g2))
    as (g3 & -> & _ & Hf4 & Hp4 & Hd4 & _).
  cbn [fst]. rewrite Hp4, Hp3, Hp2, Hf4, Hf3.
  split; [reflexivity|]. split; [| reflexivity].
  destruct Hd4 as [-> | ->]; [exact Hd3 | reflexivity].
Qed.

Lemma gui_loop_consistent (ticks : list Gui.Tick) :
  forall g : Gui.t,
    Gui.consistent g ->
    Gui.consistent (Gui.final (Gui.gui_loop rnd ticks g)) /\
    match Gui.gui_loop rnd ticks g with
    | Gui.Failed e _ => e = Gui.ValueError
    | _ => True
    end.
Proof.
  induction ticks as [|tk rest IH]; intros g Hg; cbn [Gui.gui_loop].
  - destruct (Gui._gui_quit g); cbn; auto.
  - destruct (Gui._gui_quit g); [cbn; auto|].
    destruct (update_gui_consistent tk (Gui._read_gui_trackbars g) (read_consistent g Hg))
      as [Hc He].
    destruct (Gui._update_gui rnd tk (Gui._read_gui_trackbars g)) as [g' raised].
    cbn [fst snd] in *. destruct He as [-> | ->]; [apply IH, Hc | cbn; auto].
Qed.

Lemma gui_loop_stage (ticks : list Gui.Tick) :
  forall g : Gui.t,
    z_of (Stage._pos (Gui.stage (Gui.final (Gui.gui_loop rnd ticks g))))
    = z_of (Stage._pos (Gui.stage g)) /\
    (in_bounds (Stage._pos (Gui.stage g)) ->
     in_bounds (Stage._pos (Gui.stage (Gui.final (Gui.gui_loop rnd ticks g))))).
Proof.
  induction ticks as [|tk rest IH]; intros g; cbn [Gui.gui_loop].
  - destruct (Gui._gui_quit g); cbn; auto.
  - destruct (Gui._gui_quit g); [cbn; auto|].
    pose proof (update_gui_stage tk (Gui._read_gui_trackbars g)) as [Hz Hb].
    destruct (Gui._update_gui rnd tk (Gui._read_gui_trackbars g)) as [g' raised].
    cbn [fst] in *. change (Gui.stage (Gui._read_gui_trackbars g)) with (Gui.stage g) in *.
    destruct raised as [e|]; [cbn; auto|].
    destruct (IH g') as [Hz' Hb']. rewrite Hz', Hz. auto.
Qed.

Lemma gui_loop_closed (ticks : list Gui.Tick) :
  forall g g' : Gui.t, Gui.gui_loop rnd ticks g = Gui.Closed g' -> Gui._gui_quit g' = true.
Proof.
  induction ticks as [|tk rest IH]; intros g g'; cbn [Gui.gui_loop].
  - destruct (Gui._gui_quit g) eqn:Hq; intros H; inversion H; subst; exact Hq.
  - destruct (Gui._gui_quit g) eqn:Hq; [intros H; inversion H; subst; exact Hq|].
    destruct (Gui._update_gui rnd tk (Gui._read_gui_trackbars g)) as [g1 [e|]];
      [discriminate | apply IH].
Qed.

(** X20. The GUI methods keep the selection consistent, so the assertion
    of [_update_gui_tracker] never fails in [run_gui], whatever the user
    does with mouse, keys and trackbars and whatever the Locator answers:
    of the exceptions the code itself can raise, only the [ValueError] of
    a template whose shape has not two entries ends a run. The state the
    run ends in is consistent again, so the GUI can be restarted. *)
Theorem run_gui_fails_only_on_template_shape (ticks : list Gui.Tick) (g : Gui.t) :
  Gui.consistent g ->
  Gui.consistent (Gui.final (Gui.run_gui rnd ticks g)) /\
  match Gui.run_gui rnd ticks g with
  | Gui.Failed e _ => e = Gui.ValueError
  | _ => True
  end.
Proof.
  intros Hg. unfold Gui.run_gui.
  destruct (gui_loop_consistent ticks (Gui._create_gui g) Hg) as [Hc He].
  destruct (Gui.gui_loop rnd ticks (Gui._create_gui g)) as [g1 | e g1 | g1]; auto.
  rewrite centre_stage_lines. cbn. auto.
Qed.

(** X21. The GUI moves the stage in the plane only: while [run_gui] is
    open, and when it fails, the tracked z is what it was and the position
    is within the bounds if it was; when the GUI is closed with [q], the
    stage has been centred, it is tracked at the origin, and the quit flag
    is cleared for the next run. *)
Theorem run_gui_moves_in_plane (ticks : list Gui.Tick) (g : Gui.t) :
  match Gui.run_gui rnd ticks g with
  | Gui.Closed g' =>
      Stage._pos (Gui.stage g') = (0, 0, 0) /\ Gui._gui_quit g' = false
  | Gui.Failed _ g' | Gui.Open g' =>
      z_of (Stage._pos (Gui.stage g')) = z_of (Stage._pos (Gui.stage g)) /\
      (in_bounds (Stage._pos (Gui.stage g)) -> in_bounds (Stage._pos (Gui.stage g')))
  end.
Proof.
  unfold Gui.run_gui. pose proof (gui_loop_stage ticks (Gui._create_gui g)) as Hstage.
  destruct (Gui.gui_loop rnd ticks (Gui._create_gui g)) as [g1 | e g1 | g1];
    [| exact Hstage | exact Hstage].
  rewrite centre_stage_lines. cbn. auto.
Qed.

(** X22. [_stop_gui_tracking] clears the selection and the drag but not
    the pause image: stopped while the preview is paused (space pressed in
    the middle of a drag), the GUI stays paused. As long as the left button
    is not pressed again, no pass of the loop takes a frame from the
    camera. *)
Theorem stop_leaves_preview_paused (ticks : list Gui.Tick) (g : Gui.t) :
  Gui.is_set (Gui._gui_pause_img g) = true ->
  Forall (fun tk => Forall Gui.no_button_down (Gui.events tk)) ticks ->
  Gui.frames_taken (Gui.final (Gui.gui_loop rnd ticks (Gui._stop_gui_tracking g)))
  = Gui.frames_taken g /\
  Gui.is_set (Gui._gui_pause_img
                (Gui.final (Gui.gui_loop rnd ticks (Gui._stop_gui_tracking g)))) = true.
Proof.
  intros Hpause Hno.
  assert (Hloop : forall g1 : Gui.t,
             Gui.is_set (Gui._gui_pause_img g1) = true ->
             Gui._gui_drag_start g1 = None ->
             Gui.frames_taken (Gui.final (Gui.gui_loop rnd ticks g1)) = Gui.frames_taken g1 /\
             Gui.is_set (Gui._gui_pause_img (Gui.final (Gui.gui_loop rnd ticks g1))) = true).
  { induction Hno as [|tk rest Htk Hrest IH]; intros g1 Hp Hd; cbn [Gui.gui_loop].
    - destruct (Gui._gui_quit g1); cbn; auto.
    - destruct (Gui._gui_quit g1); [cbn; auto|].
      destruct (update_gui_paused tk (Gui._read_gui_trackbars g1) Hp Hd Htk)
        as (Hp' & Hd' & Hf').
      destruct (Gui._update_gui rnd tk (Gui._read_gui_trackbars g1)) as [g2 raised].
      cbn [fst] in *.
      change (Gui.frames_taken (Gui._read_gui_trackbars g1)) with (Gui.frames_taken g1) in Hf'.
      destruct raised as [e|]; [cbn; auto|].
      destruct (IH g2 Hp' Hd') as [Hf Hq]. rewrite Hf, Hf'. auto. }
  apply (Hloop (Gui._stop_gui_tracking g)); [exact Hpause | reflexivity].
Qed.

End GuiFacts.

(** ** The GUI on concrete input *)

(** The drag from (3, 30) to (-8, 12) gives the box (-8, 12, 3, 30); its
    centre (-2.5, 21) is rounded toward zero, to (-2, 21). *)
Lemma gui_selected_box :
  Gui._gui_sel gui_selected = Some (-8, 12, 3, 30) /\
  Gui._gui_bead_pos gui_selected = Some (px (-2) 21).
Proof. split; vm_compute; reflexivity. Qed.

(** The session ends closed, the stage back at the origin after its step
    to the right, with four frames taken from the camera and the
    selection cleared when the Locator lost the template. *)
Lemma gui_session_run :
  exists g : Gui.t,
    Gui.run_gui exact_rnd gui_session gui_fresh = Gui.Closed g /\
    Gui.frames_taken g = 4%nat /\
    Gui._gui_sel g = None /\
    Stage.queried (Gui.stage g)
    = [fmt_ddd "move_rel" (0, -32, 0); ("release" ++ LF)%string;
       fmt_ddd "move_rel" (0, 32, 0); ("release" ++ LF)%string].
Proof. eexists. split; [vm_compute; reflexivity|]. repeat split. Qed.

Lemma mouse_up_selects_box_witness :
  exists (g' : Gui.t) (x1 y1 x2 y2 bx by_ : Z),
    Gui._on_gui_mouse fixed_rnd Gui.EVENT_LBUTTONUP (-8) 12 0 true gui_dragging = (g', None) /\
    Gui._gui_sel g' = Some (x1, y1, x2, y2) /\
    Gui._gui_bead_pos g' = Some (inject_Z bx, inject_Z by_) /\
    x1 = Z.min 3 (-8) /\ x2 = Z.max 3 (-8) /\ y1 = Z.min 30 12 /\ y2 = Z.max 30 12 /\
    bx = (x1 + x2) ÷ 2 /\ by_ = (y1 + y2) ÷ 2 /\
    x1 <= bx <= x2 /\ y1 <= by_ <= y2 /\
    Gui.template_selection g' = Some Gui.an_array /\
    Gui._gui_drag_start g' = None /\
    Gui._gui_pause_img g' = None.
Proof.
  apply (mouse_up_selects_box fixed_rnd gui_dragging 3 30 (-8) 12 0 true Gui.an_array
           fixed_rnd_half).
  - vm_compute; discriminate.
  - vm_compute; discriminate.
  - vm_compute; discriminate.
  - vm_compute; discriminate.
  - reflexivity.
  - reflexivity.
  - left. reflexivity.
Defined.

Lemma finished_selection_ignores_mouse_witness :
  fold_left (Gui.window_event exact_rnd)
    (map (fun '(event, x, y, flags, cvt_ok) => Gui.Mouse event x y flags cvt_ok)
       [(Gui.EVENT_LBUTTONDOWN, 100, 100, Gui.EVENT_FLAG_LBUTTON, true);
        (Gui.EVENT_MOUSEMOVE, 120, 90, Gui.EVENT_FLAG_LBUTTON, true);
        (Gui.EVENT_LBUTTONUP, 150, 80, 0, true)])
    gui_selected
  = gui_selected.
Proof.
  apply (finished_selection_ignores_mouse exact_rnd gui_selected); reflexivity.
Defined.

Lemma run_gui_fails_only_on_template_shape_witness :
  Gui.consistent (Gui.final (Gui.run_gui exact_rnd gui_session gui_fresh)) /\
  match Gui.run_gui exact_rnd gui_session gui_fresh with
  | Gui.Failed e _ => e = Gui.ValueError
  | _ => True
  end.
Proof.
  apply (run_gui_fails_only_on_template_shape exact_rnd gui_session gui_fresh).
  split; cbn; intros; discriminate.
Defined.

Lemma stop_leaves_preview_paused_witness :
  Gui.frames_taken
    (Gui.final (Gui.gui_loop exact_rnd gui_idle_session (Gui._stop_gui_tracking gui_dragging)))
  = Gui.frames_taken gui_dragging /\
  Gui.is_set
    (Gui._gui_pause_img
       (Gui.final (Gui.gui_loop exact_rnd gui_idle_session
                     (Gui._stop_gui_tracking gui_dragging)))) = true.
Proof.
  apply (stop_leaves_preview_paused exact_rnd gui_idle_session gui_dragging).
  - reflexivity.
  - repeat constructor; discriminate.
Defined.
